(** * Real-estate investment metrics engine

    A shallow embedding of the financial logic of the analyzer: the metrics
    computation of [app.py] ([calculate_metrics], [run_analysis]), of
    [dash_app.py] ([needed_numbers], [scenario_outputs]), of [api.py]
    ([analyze_property]) and of [utils/analysis.py] ([calculate_roi]).

    Python floats are modelled by exact rationals ([Q], compared with [==]);
    [float('inf')] is a separate constructor.  A division whose divisor is
    zero raises [ZeroDivisionError] in Python: it is [pydiv], in the [result]
    monad.  Divisions by the literals 100 and 12 cannot raise and are written
    with the plain [/] of [Q]. *)

From Stdlib Require Import QArith Qpower Qround Qabs ZArith List String Bool.
From Stdlib Require Import Lia Lra Lqa Psatz Permutation Sorted.
Import ListNotations.
Open Scope Q_scope.

(* ================================================================== *)
(** ** Python values, exceptions and arithmetic *)

Module Py.

Inductive exn : Type :=
| ZeroDivisionError
| TypeError.

Inductive result (A : Type) : Type :=
| Ok (a : A)
| Raise (e : exn).

Arguments Ok {A} a.
Arguments Raise {A} e.

Definition bind {A B : Type} (c : result A) (k : A -> result B) : result B :=
  match c with
  | Ok a => k a
  | Raise e => Raise e
  end.

Definition fmap {A B : Type} (f : A -> B) (c : result A) : result B :=
  bind c (fun a => Ok (f a)).

(** A Python float: a finite value or [float('inf')]. *)
Inductive pyfloat : Type :=
| Fin (q : Q)
| Inf.

(** [a < b] as Python evaluates it. *)
Definition Qlt_bool (a b : Q) : bool := negb (Qle_bool b a).

(** [a / b]: raises on a zero divisor. *)
Definition pydiv (a b : Q) : result Q :=
  if Qeq_bool b 0 then Raise ZeroDivisionError else Ok (a / b).

(** [int(x)] on a float: truncation toward zero. *)
Definition int_of_float (x : Q) : Z :=
  if Qlt_bool x 0 then Qceiling x else Qfloor x.

(** [max(a, b)] on numbers. *)
Definition pymax (a b : Q) : Q := if Qlt_bool a b then b else a.

End Py.

Import Py.

Notation "x <- c1 ;; c2" := (bind c1 (fun x => c2))
  (at level 61, c1 at next level, right associativity).

(* ================================================================== *)
(** ** Mortgage payment and amortization loops

    The payment expression is repeated verbatim at app.py:101, app.py:555,
    dash_app.py:391 and api.py:81; the three month-by-month loops are those of
    app.py:151-160 (year one), app.py:561-569 (equity, with [break]) and
    app.py:585-590 (sale, with the clamp). *)

Module Amortization.

(** [loan_amount * (r * (1 + r)**n) / ((1 + r)**n - 1) if loan_amount > 0 and r > 0 else 0] *)
Definition monthly_payment (loan_amount monthly_rate : Q) (num_payments : Z) : result Q :=
  if Qlt_bool 0 loan_amount && Qlt_bool 0 monthly_rate
  then pydiv (loan_amount * (monthly_rate * (1 + monthly_rate) ^ num_payments))
             ((1 + monthly_rate) ^ num_payments - 1)
  else Ok 0.

(** One month: [interest = balance * r; principal = payment - interest]. *)
Definition month_principal (monthly_rate monthly_payment balance : Q) : Q :=
  let interest := balance * monthly_rate in
  monthly_payment - interest.

(** [for i in range(n): ...; paid += principal; balance -= principal]
    returns [(paid, balance)]. *)
Fixpoint amortize (n : nat) (monthly_rate monthly_payment : Q) (paid balance : Q) : Q * Q :=
  match n with
  | O => (paid, balance)
  | S n' =>
      let principal := month_principal monthly_rate monthly_payment balance in
      amortize n' monthly_rate monthly_payment (paid + principal) (balance - principal)
  end.

(** The equity loop of the projections:
    [eq += principal; bal -= principal; if bal < 0: break]. *)
Fixpoint equity_loop (n : nat) (monthly_rate monthly_payment : Q) (eq bal : Q) : Q * Q :=
  match n with
  | O => (eq, bal)
  | S n' =>
      let principal := month_principal monthly_rate monthly_payment bal in
      let eq' := eq + principal in
      let bal' := bal - principal in
      if Qlt_bool bal' 0 then (eq', bal')
      else equity_loop n' monthly_rate monthly_payment eq' bal'
  end.

(** The remaining-loan loop of the sale estimate:
    [bal -= principal; if bal < 0: bal = 0]. *)
Fixpoint sale_loop (n : nat) (monthly_rate monthly_payment : Q) (bal : Q) : Q :=
  match n with
  | O => bal
  | S n' =>
      let principal := month_principal monthly_rate monthly_payment bal in
      let bal' := bal - principal in
      sale_loop n' monthly_rate monthly_payment (if Qlt_bool bal' 0 then 0 else bal')
  end.

(** [principal_paid_yr1] of [calculate_metrics]: the guarded 12-month loop. *)
Definition principal_paid_yr1 (loan_amount monthly_rate monthly_payment : Q) : Q :=
  if Qlt_bool 0 loan_amount && Qlt_bool 0 monthly_rate
  then fst (amortize 12 monthly_rate monthly_payment 0 loan_amount)
  else 0.

End Amortization.

(* ================================================================== *)
(** ** app.py *)

Module App.

Inductive VacancyMode : Type := percent | months.

(** The [assumptions] dictionary, as [run_analysis] completes it. *)
Record Assumptions : Type := {
  down_payment_pct : Q;
  interest_rate : Q;
  loan_term : Z;
  property_tax_rate : Q;
  insurance_rate : Q;
  maintenance_rate : Q;
  capital_reserves_rate : Q;
  vacancy_mode : VacancyMode;
  vacancy_months : option Q;
  vacancy_rate : Q;
  closing_costs_pct : Q;
  estimated_rent : Q
}.

(** The sidebar's manual monthly overrides, module-level globals read by
    [calculate_metrics]. *)
Record Manual : Type := {
  manual_property_tax : Q;
  manual_insurance : Q;
  manual_management : Q;
  manual_maintenance : Q;
  manual_capital_reserves : Q;
  manual_vacancy : Q
}.

Definition no_manual : Manual :=
  {| manual_property_tax := 0; manual_insurance := 0; manual_management := 0;
     manual_maintenance := 0; manual_capital_reserves := 0; manual_vacancy := 0 |}.

Record Overridden : Type := {
  ov_property_tax : bool;
  ov_insurance : bool;
  ov_management : bool;
  ov_maintenance : bool;
  ov_capital_reserves : bool;
  ov_vacancy : bool
}.

(** The six annual expense figures. *)
Record Expenses : Type := {
  annual_property_tax : Q;
  annual_insurance : Q;
  annual_management : Q;
  annual_maintenance : Q;
  annual_capital_reserves : Q;
  annual_vacancy : Q
}.

(** The returned dictionary (the two display strings and the numpy-financial
    [irr]/[npv] entries are left out). *)
Record Metrics : Type := {
  monthly_cash_flow : Q;
  cap_rate : Q;
  cash_on_cash : Q;
  break_even_rent : Q;
  total_upfront_cost : Q;
  rent_to_price : Q;
  total_roi : Q;
  payback_period : pyfloat;
  overridden : Overridden
}.

(** [float(str(price_raw)...) if price_raw else 0]: the parsed price, 0 when
    it is missing or invalid. *)
Definition parse_price (price_raw : option Q) : Q :=
  match price_raw with
  | Some p => p
  | None => 0
  end.

(** app.py:105-114, the expense figures before any override. *)
Definition computed_expenses (price monthly_rent : Q) (a : Assumptions) : Expenses :=
  {| annual_property_tax := price * (property_tax_rate a / 100);
     annual_insurance := price * (insurance_rate a / 100);
     annual_management := monthly_rent * (8 # 100) * 12;
     annual_maintenance := monthly_rent * (maintenance_rate a / 100) * 12;
     annual_capital_reserves := monthly_rent * (capital_reserves_rate a / 100) * 12;
     annual_vacancy :=
       match vacancy_mode a, vacancy_months a with
       | months, Some vm => monthly_rent * vm
       | _, _ => monthly_rent * (vacancy_rate a / 100) * 12
       end |}.

(** [total_upfront_cost / annual_cash_flow if annual_cash_flow > 0 else float('inf')] *)
Definition payback (total_upfront_cost annual_cash_flow : Q) : result pyfloat :=
  if Qlt_bool 0 annual_cash_flow
  then fmap Fin (pydiv total_upfront_cost annual_cash_flow)
  else Ok Inf.

(** The block app.py:115-165, run a second time at app.py:201-252 on the
    figures after the overrides. *)
Definition metrics_block (price down_payment loan_amount monthly_rate monthly_payment
                          monthly_rent : Q) (a : Assumptions) (e : Expenses)
                          (ov : Overridden) : result Metrics :=
  let annual_expenses :=
    annual_property_tax e + annual_insurance e + annual_management e +
    annual_maintenance e + annual_capital_reserves e + annual_vacancy e in
  let monthly_expenses := annual_expenses / 12 in
  let monthly_cash_flow := monthly_rent - monthly_payment - monthly_expenses in
  let annual_operating_expenses :=
    annual_property_tax e + annual_insurance e + annual_management e +
    annual_maintenance e + annual_capital_reserves e + annual_vacancy e in
  let noi := (monthly_rent * 12) - annual_operating_expenses in
  cap_rate <- (if Qlt_bool 0 price
               then fmap (fun x => x * 100) (pydiv noi price) else Ok 0) ;;
  let total_upfront_cost := down_payment + price * (closing_costs_pct a / 100) in
  cash_on_cash <- (if Qlt_bool 0 total_upfront_cost
                   then fmap (fun x => x * 100)
                             (pydiv (monthly_cash_flow * 12) total_upfront_cost)
                   else Ok 0) ;;
  let piti := monthly_payment + (annual_property_tax e + annual_insurance e) / 12 in
  let monthly_management := annual_management e / 12 in
  let monthly_maintenance := annual_maintenance e / 12 in
  let monthly_capital_reserves := annual_capital_reserves e / 12 in
  let monthly_vacancy := annual_vacancy e / 12 in
  let break_even_rent :=
    piti + monthly_management + monthly_maintenance + monthly_capital_reserves +
    monthly_vacancy in
  rent_to_price <- (if Qlt_bool 0 price
                    then fmap (fun x => x * 100) (pydiv monthly_rent price) else Ok 0) ;;
  let principal_paid_yr1 :=
    Amortization.principal_paid_yr1 loan_amount monthly_rate monthly_payment in
  let appreciation := price * (3 # 100) in
  total_roi <- (if Qlt_bool 0 total_upfront_cost
                then fmap (fun x => x * 100)
                          (pydiv ((monthly_cash_flow * 12) + principal_paid_yr1 + appreciation)
                                 total_upfront_cost)
                else Ok 0) ;;
  let annual_cash_flow := monthly_cash_flow * 12 in
  payback_period <- payback total_upfront_cost annual_cash_flow ;;
  Ok {| monthly_cash_flow := monthly_cash_flow;
        cap_rate := cap_rate;
        cash_on_cash := cash_on_cash;
        break_even_rent := break_even_rent;
        total_upfront_cost := total_upfront_cost;
        rent_to_price := rent_to_price;
        total_roi := total_roi;
        payback_period := payback_period;
        overridden := ov |}.

(** [manual if manual > 0 else computed] *)
Definition override (manual computed : Q) : Q :=
  if Qlt_bool 0 manual then manual else computed.

(** app.py:179-200, the monthly overrides and the annual figures recomputed
    from them. *)
Definition overridden_expenses (m : Manual) (e : Expenses) : Expenses :=
  {| annual_property_tax := override (manual_property_tax m) (annual_property_tax e / 12) * 12;
     annual_insurance := override (manual_insurance m) (annual_insurance e / 12) * 12;
     annual_management := override (manual_management m) (annual_management e / 12) * 12;
     annual_maintenance := override (manual_maintenance m) (annual_maintenance e / 12) * 12;
     annual_capital_reserves :=
       override (manual_capital_reserves m) (annual_capital_reserves e / 12) * 12;
     annual_vacancy := override (manual_vacancy m) (annual_vacancy e / 12) * 12 |}.

Definition overridden_flags (m : Manual) : Overridden :=
  {| ov_property_tax := Qlt_bool 0 (manual_property_tax m);
     ov_insurance := Qlt_bool 0 (manual_insurance m);
     ov_management := Qlt_bool 0 (manual_management m);
     ov_maintenance := Qlt_bool 0 (manual_maintenance m);
     ov_capital_reserves := Qlt_bool 0 (manual_capital_reserves m);
     ov_vacancy := Qlt_bool 0 (manual_vacancy m) |}.

Definition no_flags : Overridden :=
  {| ov_property_tax := false; ov_insurance := false; ov_management := false;
     ov_maintenance := false; ov_capital_reserves := false; ov_vacancy := false |}.

(** [calculate_metrics(property_data, assumptions)]; the first run of the
    block is executed and its values are then overwritten by the second. *)
Definition calculate_metrics (m : Manual) (price_raw : option Q) (a : Assumptions)
  : result Metrics :=
  let price := parse_price price_raw in
  let down_payment := price * (down_payment_pct a / 100) in
  let loan_amount := price - down_payment in
  let monthly_rate := interest_rate a / 100 / 12 in
  let num_payments := (loan_term a * 12)%Z in
  monthly_payment <- Amortization.monthly_payment loan_amount monthly_rate num_payments ;;
  let monthly_rent := estimated_rent a in
  let e := computed_expenses price monthly_rent a in
  _ <- metrics_block price down_payment loan_amount monthly_rate monthly_payment
                     monthly_rent a e no_flags ;;
  metrics_block price down_payment loan_amount monthly_rate monthly_payment
                monthly_rent a (overridden_expenses m e) (overridden_flags m).

(** [safe_int(val, default)] on a parsed value. *)
Definition safe_int (val : option Q) (default : Z) : Z :=
  match val with
  | None => default
  | Some x => int_of_float x
  end.

Definition buy_threshold_cap_rate : Q := 6.
Definition buy_threshold_cash_flow : Q := 300.

Inductive Verdict : Type := Buy | DontBuy | Hold.

(** The four numbers shown under "To make this a Buy". *)
Record Gap : Type := {
  needed_cash_flow : Q;
  needed_cap_rate : Q;
  needed_rent_for_cash_flow : Q;
  needed_rent_for_cap_rate : Q
}.

(** app.py:514, the vacancy term: months as a rate when the mode is months
    and the value is truthy, else the percent rate. *)
Definition vacancy_as_rate (a : Assumptions) : Q :=
  match vacancy_mode a, vacancy_months a with
  | months, Some vm => if Qeq_bool vm 0 then vacancy_rate a / 100 else vm / 12
  | _, _ => vacancy_rate a / 100
  end.

(** app.py:494-514, the recommendation of [run_analysis] and, when it is not
    a Buy, the gap to one. *)
Definition recommendation (price_raw : option Q) (a : Assumptions) (mt : Metrics)
  : Verdict * option Gap :=
  if Qlt_bool buy_threshold_cap_rate (cap_rate mt) &&
     Qlt_bool buy_threshold_cash_flow (monthly_cash_flow mt)
  then (Buy, None)
  else
    let verdict :=
      if Qlt_bool (cap_rate mt) buy_threshold_cap_rate &&
         Qlt_bool (monthly_cash_flow mt) buy_threshold_cash_flow
      then DontBuy else Hold in
    let price_int := inject_Z (safe_int price_raw 0) in
    (verdict,
     Some {| needed_cash_flow := pymax 0 (buy_threshold_cash_flow - monthly_cash_flow mt);
             needed_cap_rate := pymax 0 (buy_threshold_cap_rate - cap_rate mt);
             needed_rent_for_cash_flow := break_even_rent mt + buy_threshold_cash_flow;
             needed_rent_for_cap_rate :=
               ((buy_threshold_cap_rate / 100) * price_int +
                (property_tax_rate a / 100 + insurance_rate a / 100 +
                 maintenance_rate a / 100 + capital_reserves_rate a / 100 +
                 vacancy_as_rate a) * price_int) / 12 |}).

End App.

(* ================================================================== *)
(** ** utils/analysis.py *)

Module Analysis.

(** [calculate_roi(monthly_cash_flow, down_payment, annual_appreciation_rate=0.03)],
    called by [run_analysis] with the total upfront cost as [down_payment]. *)
Definition calculate_roi (monthly_cash_flow down_payment : Q) : result Q :=
  let annual_appreciation_rate := 3 # 100 in
  let annual_cash_flow := monthly_cash_flow * 12 in
  let annual_appreciation := down_payment * annual_appreciation_rate in
  let total_annual_return := annual_cash_flow + annual_appreciation in
  fmap (fun x => x * 100) (pydiv total_annual_return down_payment).

End Analysis.

(* ================================================================== *)
(** ** api.py *)

Module Api.

(** The JSON body of [/api/analyze] after the [float(...)]/[int(...)]
    conversions, with the rent predictor's answer ([None] when the model is
    absent or the prediction failed). *)
Record Request : Type := {
  price : Q;
  down_payment_pct : Q;
  interest_rate : Q;
  loan_term : Z;
  property_tax_rate : Q;
  insurance_rate : Q;
  maintenance_rate : Q;
  capital_reserves_rate : Q;
  vacancy_rate : Q;
  closing_costs_pct : Q;
  predicted_rent : option Q
}.

Inductive Recommendation : Type := StrongBuy | Buy | Hold | DontBuy.

(** The ['results'] object of the response. *)
Record Results : Type := {
  monthlyRent : Q;
  monthlyPayment : Q;
  monthlyCashFlow : Q;
  capRate : Q;
  cashOnCash : Q;
  breakEvenRent : Q;
  rentToPrice : Q;
  totalROI : Q;
  paybackPeriod : Q;
  recommendation : Recommendation
}.

Inductive Response : Type :=
| Success (r : Results)
| Failure (e : exn).

(** [price * 0.008], replaced by a positive prediction. *)
Definition resolve_rent (price : Q) (predicted : option Q) : Q :=
  match predicted with
  | Some p => if Qlt_bool 0 p then p else price * (8 # 1000)
  | None => price * (8 # 1000)
  end.

(** [total_upfront_cost / (monthly_cash_flow * 12) if monthly_cash_flow > 0 else float('inf')] *)
Definition payback (total_upfront_cost monthly_cash_flow : Q) : result pyfloat :=
  if Qlt_bool 0 monthly_cash_flow
  then fmap Fin (pydiv total_upfront_cost (monthly_cash_flow * 12))
  else Ok Inf.

(** [payback_period if payback_period != float('inf') else 999] *)
Definition payback_json (p : pyfloat) : Q :=
  match p with
  | Fin q => q
  | Inf => 999
  end.

Definition recommend (cap_rate cash_on_cash monthly_cash_flow : Q) : Recommendation :=
  if Qle_bool 6 cap_rate && Qle_bool 8 cash_on_cash && Qle_bool 300 monthly_cash_flow
  then StrongBuy
  else if Qle_bool 5 cap_rate && Qle_bool 6 cash_on_cash && Qle_bool 200 monthly_cash_flow
  then Buy
  else if Qle_bool 4 cap_rate && Qle_bool 4 cash_on_cash && Qle_bool 100 monthly_cash_flow
  then Hold
  else DontBuy.

(** The body of the [try] of [analyze_property] (the comparables list apart). *)
Definition analyze_body (d : Request) : result Results :=
  let price := price d in
  let down_payment := price * (down_payment_pct d / 100) in
  let loan_amount := price - down_payment in
  let monthly_rate := interest_rate d / 100 / 12 in
  let num_payments := (loan_term d * 12)%Z in
  monthly_payment <- Amortization.monthly_payment loan_amount monthly_rate num_payments ;;
  let monthly_rent := resolve_rent price (predicted_rent d) in
  let monthly_property_tax := price * (property_tax_rate d / 100) / 12 in
  let monthly_insurance := price * (insurance_rate d / 100) / 12 in
  let monthly_management := monthly_rent * (8 # 100) in
  let monthly_maintenance := monthly_rent * (maintenance_rate d / 100) in
  let monthly_capital_reserves := monthly_rent * (capital_reserves_rate d / 100) in
  let monthly_vacancy := monthly_rent * (vacancy_rate d / 100) in
  let monthly_expenses :=
    monthly_property_tax + monthly_insurance + monthly_management +
    monthly_maintenance + monthly_capital_reserves + monthly_vacancy in
  let monthly_cash_flow := monthly_rent - monthly_payment - monthly_expenses in
  let annual_operating_expenses := monthly_expenses * 12 in
  let noi := (monthly_rent * 12) - annual_operating_expenses in
  cap_rate <- (if Qlt_bool 0 price
               then fmap (fun x => x * 100) (pydiv noi price) else Ok 0) ;;
  let total_upfront_cost := down_payment + price * (closing_costs_pct d / 100) in
  cash_on_cash <- (if Qlt_bool 0 total_upfront_cost
                   then fmap (fun x => x * 100)
                             (pydiv (monthly_cash_flow * 12) total_upfront_cost)
                   else Ok 0) ;;
  let piti := monthly_payment + monthly_property_tax + monthly_insurance in
  let break_even_rent :=
    piti + monthly_management + monthly_maintenance + monthly_capital_reserves +
    monthly_vacancy in
  rent_to_price <- (if Qlt_bool 0 price
                    then fmap (fun x => x * 100) (pydiv monthly_rent price) else Ok 0) ;;
  let appreciation := price * (3 # 100) in
  total_roi <- (if Qlt_bool 0 total_upfront_cost
                then fmap (fun x => x * 100)
                          (pydiv ((monthly_cash_flow * 12) + appreciation) total_upfront_cost)
                else Ok 0) ;;
  payback_period <- payback total_upfront_cost monthly_cash_flow ;;
  Ok {| monthlyRent := monthly_rent;
        monthlyPayment := monthly_payment;
        monthlyCashFlow := monthly_cash_flow;
        capRate := cap_rate;
        cashOnCash := cash_on_cash;
        breakEvenRent := break_even_rent;
        rentToPrice := rent_to_price;
        totalROI := total_roi;
        paybackPeriod := payback_json payback_period;
        recommendation := recommend cap_rate cash_on_cash monthly_cash_flow |}.

(** [analyze_property]: any exception becomes the 400 response. *)
Definition analyze_property (d : Request) : Response :=
  match analyze_body d with
  | Ok r => Success r
  | Raise e => Failure e
  end.

End Api.

(* ================================================================== *)
(** ** dash_app.py: recommendation, gap and scenario metrics *)

Module DashApp.

Definition BUY_THRESHOLD_CAP_RATE : Q := 6.
Definition BUY_THRESHOLD_CASH_FLOW : Q := 300.

Inductive Verdict : Type := Buy | DontBuy | Hold.

Definition investment_recommendation (cap_rate cash_flow : Q) : Verdict :=
  if Qlt_bool BUY_THRESHOLD_CAP_RATE cap_rate && Qlt_bool BUY_THRESHOLD_CASH_FLOW cash_flow
  then Buy
  else if Qlt_bool cap_rate BUY_THRESHOLD_CAP_RATE && Qlt_bool cash_flow BUY_THRESHOLD_CASH_FLOW
  then DontBuy
  else Hold.

Record Needed : Type := {
  needed_cash_flow : Q;
  needed_cap_rate : Q;
  needed_rent_for_cash_flow : Q;
  needed_rent_for_cap_rate : Q
}.

Definition needed_numbers (cap_rate cash_flow break_even_rent price : Q) : Needed :=
  {| needed_cash_flow := pymax 0 (BUY_THRESHOLD_CASH_FLOW - cash_flow);
     needed_cap_rate := pymax 0 (BUY_THRESHOLD_CAP_RATE - cap_rate);
     needed_rent_for_cash_flow := break_even_rent + BUY_THRESHOLD_CASH_FLOW;
     needed_rent_for_cap_rate := ((BUY_THRESHOLD_CAP_RATE / 100) * price) / 12 |}.

(** The financial arguments of [scenario_outputs]; [monthly_rent] is the rent
    after [rent_override] or the prediction has been converted by [float]. *)
Record Scenario : Type := {
  price : option Q;
  down_payment_pct : Q;
  interest_rate : Q;
  loan_term : Z;
  property_tax_rate : Q;
  insurance_rate : Q;
  maintenance_rate : Q;
  capital_reserves_rate : Q;
  vacancy_rate : Q;
  closing_costs_pct : Q;
  monthly_rent : Q
}.

Record Outputs : Type := {
  monthly_payment : Q;
  monthly_cash_flow : Q;
  noi : Q;
  cap_rate : Q;
  break_even_rent : Q;
  rec : Verdict;
  needed : Needed;
  cash_on_cash : Q;
  dscr : Q;
  grm : Q;
  operating_expense_ratio : Q;
  break_even_occupancy : Q;
  rent_to_value : Q
}.

(** [price or 0] *)
Definition price_or_0 (price : option Q) : Q :=
  match price with
  | Some p => p
  | None => 0
  end.

(** dash_app.py:386-431, the investment calculations of [scenario_outputs]. *)
Definition scenario_metrics (s : Scenario) : result Outputs :=
  let price_val := price_or_0 (price s) in
  let down_payment := price_val * (down_payment_pct s / 100) in
  let loan_amount := price_val - down_payment in
  let monthly_rate := (interest_rate s / 100) / 12 in
  let num_payments := (loan_term s * 12)%Z in
  monthly_payment <- Amortization.monthly_payment loan_amount monthly_rate num_payments ;;
  let monthly_rent := monthly_rent s in
  let annual_property_tax := price_val * (property_tax_rate s / 100) in
  let annual_insurance := price_val * (insurance_rate s / 100) in
  let annual_management := monthly_rent * (8 # 100) * 12 in
  let annual_maintenance := monthly_rent * (maintenance_rate s / 100) * 12 in
  let annual_capital_reserves := monthly_rent * (capital_reserves_rate s / 100) * 12 in
  let annual_vacancy := monthly_rent * (vacancy_rate s / 100) * 12 in
  let annual_expenses :=
    annual_property_tax + annual_insurance + annual_management +
    annual_maintenance + annual_capital_reserves + annual_vacancy in
  let monthly_expenses := annual_expenses / 12 in
  let monthly_cash_flow := monthly_rent - monthly_payment - monthly_expenses in
  let noi := (monthly_rent * 12) - annual_expenses in
  cap_rate <- (if Qlt_bool 0 price_val
               then fmap (fun x => x * 100) (pydiv noi price_val) else Ok 0) ;;
  let piti := monthly_payment + (annual_property_tax + annual_insurance) / 12 in
  let monthly_management := annual_management / 12 in
  let monthly_maintenance := annual_maintenance / 12 in
  let monthly_capital_reserves := annual_capital_reserves / 12 in
  let monthly_vacancy := annual_vacancy / 12 in
  let break_even_rent :=
    piti + monthly_management + monthly_maintenance + monthly_capital_reserves +
    monthly_vacancy in
  let total_cash_invested := down_payment + (price_val * (closing_costs_pct s / 100)) in
  cash_on_cash <- (if Qlt_bool 0 total_cash_invested
                   then fmap (fun x => x * 100)
                             (pydiv (monthly_cash_flow * 12) total_cash_invested)
                   else Ok 0) ;;
  let annual_debt_service := monthly_payment * 12 in
  dscr <- (if Qlt_bool 0 annual_debt_service then pydiv noi annual_debt_service else Ok 0) ;;
  grm <- (if Qlt_bool 0 monthly_rent then pydiv price_val (monthly_rent * 12) else Ok 0) ;;
  operating_expense_ratio <-
    (if Qlt_bool 0 monthly_rent then pydiv annual_expenses (monthly_rent * 12) else Ok 0) ;;
  break_even_occupancy <-
    (if Qlt_bool 0 monthly_rent
     then pydiv (annual_expenses + annual_debt_service) (monthly_rent * 12) else Ok 0) ;;
  rent_to_value <- (if Qlt_bool 0 price_val then pydiv monthly_rent price_val else Ok 0) ;;
  Ok {| monthly_payment := monthly_payment;
        monthly_cash_flow := monthly_cash_flow;
        noi := noi;
        cap_rate := cap_rate;
        break_even_rent := break_even_rent;
        rec := investment_recommendation cap_rate monthly_cash_flow;
        needed := needed_numbers cap_rate monthly_cash_flow break_even_rent price_val;
        cash_on_cash := cash_on_cash;
        dscr := dscr;
        grm := grm;
        operating_expense_ratio := operating_expense_ratio;
        break_even_occupancy := break_even_occupancy;
        rent_to_value := rent_to_value |}.

End DashApp.

(* ================================================================== *)
(** ** dash_app.py: the comparables table of [scenario_outputs]

    A pandas frame is a list of column names and a list of rows; a cell is a
    number or a text.  Comparing or subtracting a text cell with a number
    raises [TypeError]; [==] between a cell and a text never raises. *)

Module Comps.

Open Scope string_scope.

Inductive cell : Type :=
| Num (q : Q)
| Str (s : string).

Definition row : Type := string -> cell.

Record DataFrame : Type := {
  columns : list string;
  records : list row
}.

(** A row from its [(column, value)] pairs. *)
Fixpoint mkrow (kv : list (string * cell)) : row :=
  fun c =>
    match kv with
    | [] => Str ""
    | (k, v) :: rest => if String.eqb k c then v else mkrow rest c
    end.

(** [a if a in columns else b if b in columns else ... else None] *)
Fixpoint resolve (cols : list string) (aliases : list string) : option string :=
  match aliases with
  | [] => None
  | a :: rest => if existsb (String.eqb a) cols then Some a else resolve cols rest
  end.

Record Cols : Type := {
  zip_col : option string;
  beds_col : option string;
  baths_col : option string;
  sqft_col : option string;
  price_col : option string;
  year_col : option string;
  address_col : option string
}.

(** dash_app.py:313-319 *)
Definition resolve_cols (df : DataFrame) : Cols :=
  {| zip_col := resolve (columns df) ["zipcode"; "ZipCode"];
     beds_col := resolve (columns df) ["beds"; "Bedrooms"];
     baths_col := resolve (columns df) ["baths"; "Bathrooms"];
     sqft_col := resolve (columns df) ["sqft"; "FinishedSqft"];
     price_col := resolve (columns df) ["price"; "Sale_price"];
     year_col := resolve (columns df) ["year_built"; "Year_Built"; "year"];
     address_col := resolve (columns df) ["address"; "Address"] |}.

(** The subject property of the scenario; [None] is Python's [None]. *)
Record Subject : Type := {
  zipcode : option string;
  beds : option Q;
  baths : option Q;
  sqft : option Q;
  price : option Q
}.

Definition num_of (c : cell) : result Q :=
  match c with
  | Num q => Ok q
  | Str _ => Raise TypeError
  end.

(** [column == text], elementwise. *)
Definition cell_eqb (c : cell) (s : string) : bool :=
  match c with
  | Str s' => String.eqb s' s
  | Num _ => false
  end.

Fixpoint mapM {A B : Type} (f : A -> result B) (l : list A) : result (list B) :=
  match l with
  | [] => Ok []
  | x :: t => y <- f x ;; t' <- mapM f t ;; Ok (y :: t')
  end.

(** [frame[mask]] with a mask that may raise. *)
Fixpoint filterM {A : Type} (p : A -> result bool) (l : list A) : result (list A) :=
  match l with
  | [] => Ok []
  | x :: t => b <- p x ;; t' <- filterM p t ;; Ok (if b then x :: t' else t')
  end.

(** [(frame[col] >= lo) & (frame[col] <= hi)] *)
Definition between (col : string) (lo hi : Q) (r : row) : result bool :=
  q <- num_of (r col) ;; Ok (Qle_bool lo q && Qle_bool q hi).

Fixpoint insert {A : Type} (leb : A -> A -> bool) (x : A) (l : list A) : list A :=
  match l with
  | [] => [x]
  | y :: t => if leb x y then x :: l else y :: insert leb x t
  end.

(** An ascending stable sort. *)
Definition sort_by {A : Type} (leb : A -> A -> bool) (l : list A) : list A :=
  fold_right (insert leb) [] l.

(** [np.percentile(values, p)] with numpy's default linear interpolation, on
    a non-empty list. *)
Definition np_percentile (values : list Q) (p : Q) : Q :=
  let s := sort_by Qle_bool values in
  let h := inject_Z (Z.of_nat (List.length values) - 1) * (p / 100) in
  let lo := Z.to_nat (Qfloor h) in
  let a := nth lo s 0 in
  let b := nth (S lo) s a in
  a + (h - inject_Z (Qfloor h)) * (b - a).

(** dash_app.py:326-335, the four filters in their order. *)
Definition filter_zip (c : Cols) (s : Subject) (rows : list row) : list row :=
  match zip_col c, zipcode s with
  | Some zc, Some z =>
      if String.eqb z "" then rows else filter (fun r => cell_eqb (r zc) z) rows
  | _, _ => rows
  end.

Definition filter_beds (c : Cols) (s : Subject) (rows : list row) : result (list row) :=
  match beds_col c, beds s with
  | Some bc, Some b => filterM (between bc (b - 1) (b + 1)) rows
  | _, _ => Ok rows
  end.

Definition filter_baths (c : Cols) (s : Subject) (rows : list row) : result (list row) :=
  match baths_col c, baths s with
  | Some bc, Some b => filterM (between bc (b - 1) (b + 1)) rows
  | _, _ => Ok rows
  end.

Definition filter_sqft (c : Cols) (s : Subject) (rows : list row) : result (list row) :=
  match sqft_col c, sqft s with
  | Some sc, Some x => filterM (between sc (x * (8 # 10)) (x * (12 # 10))) rows
  | _, _ => Ok rows
  end.

(** dash_app.py:336-341, the outlier band. *)
Definition remove_outliers (c : Cols) (rows : list row) : result (list row) :=
  match price_col c, sqft_col c, rows with
  | Some pc, Some sc, _ :: _ =>
      prices <- mapM (fun r => num_of (r pc)) rows ;;
      let price_low := np_percentile prices 1 in
      sqfts <- mapM (fun r => num_of (r sc)) rows ;;
      let sqft_low := np_percentile sqfts 1 in
      filterM (fun r =>
                 p <- num_of (r pc) ;;
                 q <- num_of (r sc) ;;
                 Ok (Qle_bool price_low p && Qle_bool p 800000 &&
                     Qle_bool sqft_low q && Qle_bool q 6000)) rows
  | _, _, _ => Ok rows
  end.

(** A row with the three sort columns added to it. *)
Record Ranked : Type := {
  comp : row;
  BedDiff : Q;
  BathDiff : Q;
  PriceDiff : Q
}.

(** [(frame[col] - v).abs()] when the column and the value are there, else 0. *)
Definition diff_col (col : option string) (v : option Q) (r : row) : result Q :=
  match col, v with
  | Some c, Some x => q <- num_of (r c) ;; Ok (Qabs (q - x))
  | _, _ => Ok 0
  end.

Definition add_diffs (c : Cols) (s : Subject) (r : row) : result Ranked :=
  bd <- diff_col (beds_col c) (beds s) r ;;
  ba <- diff_col (baths_col c) (baths s) r ;;
  pd <- diff_col (price_col c) (price s) r ;;
  Ok {| comp := r; BedDiff := bd; BathDiff := ba; PriceDiff := pd |}.

(** Ascending order on [(BedDiff, BathDiff, PriceDiff)]. *)
Definition key_leb (a b : Ranked) : bool :=
  if Qlt_bool (BedDiff a) (BedDiff b) then true
  else if Qlt_bool (BedDiff b) (BedDiff a) then false
  else if Qlt_bool (BathDiff a) (BathDiff b) then true
  else if Qlt_bool (BathDiff b) (BathDiff a) then false
  else Qle_bool (PriceDiff a) (PriceDiff b).

(** [sort_values(by=['BedDiff', 'BathDiff', 'PriceDiff'], ascending=[True, True, True])] *)
Definition sort_values (l : list Ranked) : list Ranked := sort_by key_leb l.

Definition opt_col (name : string) (col : option string) : list (string * string) :=
  match col with
  | Some id => [(name, id)]
  | None => []
  end.

(** dash_app.py:353-359, the displayed columns as [(name, id)]. *)
Definition table_cols_of (c : Cols) : list (string * string) :=
  (opt_col "Address" (address_col c) ++ opt_col "Price" (price_col c) ++
   opt_col "Sqft" (sqft_col c) ++ opt_col "Beds" (beds_col c) ++
   opt_col "Baths" (baths_col c) ++ opt_col "Year Built" (year_col c) ++
   opt_col "Zip Code" (zip_col c))%list.

(** One dictionary of [to_dict('records')]. *)
Definition to_record (ids : list string) (r : row) : list (string * cell) :=
  map (fun id => (id, r id)) ids.

Definition no_comps_message : string := "No comparable properties found.".

(** dash_app.py:362 *)
Definition no_comps_marker (cols : list (string * string)) : list (list (string * cell)) :=
  match cols with
  | [] => [[("Notice", Str no_comps_message)]]
  | _ => [map (fun c => (snd c, Str no_comps_message)) cols]
  end.

Definition exn_message (e : exn) : string :=
  match e with
  | ZeroDivisionError => "float division by zero"
  | TypeError => "'>=' not supported between instances of 'str' and 'float'"
  end.

(** dash_app.py:366 *)
Definition comps_error_notice (e : exn) : list (list (string * cell)) :=
  [[("Notice", Str ("Comps error: " ++ exn_message e))]].

Record Output : Type := {
  table_cols : list (string * string);
  table_data : list (list (string * cell));
  filtered : list Ranked
}.

(** The body of the inner [try], dash_app.py:322-362. *)
Definition comps_try (df : DataFrame) (s : Subject) : result Output :=
  let c := resolve_cols df in
  let rows := filter_zip c s (records df) in
  rows <- filter_beds c s rows ;;
  rows <- filter_baths c s rows ;;
  rows <- filter_sqft c s rows ;;
  rows <- remove_outliers c rows ;;
  ranked <- mapM (add_diffs c s) rows ;;
  let ranked := match ranked with [] => ranked | _ :: _ => sort_values ranked end in
  let cols := table_cols_of c in
  let data := map (fun k => to_record (map snd cols) (comp k)) ranked in
  let data := match data with [] => no_comps_marker cols | _ :: _ => data end in
  Ok {| table_cols := cols; table_data := data; filtered := ranked |}.

(** The comparables step with its [except Exception]. *)
Definition scenario_comps (df : DataFrame) (s : Subject) : Output :=
  match comps_try df s with
  | Ok o => o
  | Raise e => {| table_cols := []; table_data := comps_error_notice e; filtered := [] |}
  end.

End Comps.

(* ================================================================== *)
(** ** app.py: the long-term projections of [run_analysis] (lines 538-595) *)

Module Projection.

(** The sidebar values the projection block reads. *)
Record Inputs : Type := {
  price_raw : option Q;
  scenario_down : Q;
  scenario_interest : Q;
  loan_term : Z;
  appreciation_rate : Q;
  rent_growth_rate : Q;
  scenario_rent : Q;
  show_projection : bool;
  projection_years : nat
}.

(** The three plotted series, one entry per year. *)
Record Series : Type := {
  values : list Q;
  rents : list Q;
  equities : list Q
}.

(** The figures of "If I sell this in 5-10 years, what will I make?". *)
Record Sale : Type := {
  projected_sale_price : Q;
  agent_fees : Q;
  closing_costs : Q;
  remaining_loan : Q;
  net_sale_proceeds : Q;
  total_cash_flow : Q;
  total_profit : Q;
  total_roi : Q
}.

(** [sum(list)] *)
Definition pysum (l : list Q) : Q := fold_left Qplus l 0.

(** app.py:543-569 *)
Definition series (price rent balance monthly_rate monthly_payment : Q) (i : Inputs)
  : Series :=
  let years := seq 1 (projection_years i) in
  {| values := map (fun y => price * ((1 + appreciation_rate i / 100) ^ Z.of_nat y)) years;
     rents := map (fun y => rent * ((1 + rent_growth_rate i / 100) ^ Z.of_nat y)) years;
     equities :=
       map (fun y => fst (Amortization.equity_loop (y * 12) monthly_rate monthly_payment
                            0 balance)) years |}.

(** app.py:581-595 *)
Definition sale (price rent balance monthly_rate monthly_payment : Q) (i : Inputs)
  : result Sale :=
  let hold := projection_years i in
  let projected_sale_price := price * ((1 + appreciation_rate i / 100) ^ Z.of_nat hold) in
  let agent_fees := projected_sale_price * (6 # 100) in
  let closing_costs := projected_sale_price * (2 # 100) in
  let bal := Amortization.sale_loop (hold * 12) monthly_rate monthly_payment balance in
  let remaining_loan := pymax bal 0 in
  let net_sale_proceeds := projected_sale_price - agent_fees - closing_costs - remaining_loan in
  let total_cash_flow :=
    pysum (map (fun y => rent * ((1 + rent_growth_rate i / 100) ^ Z.of_nat y) * 12)
               (seq 0 hold)) in
  let total_profit := net_sale_proceeds + total_cash_flow - price * scenario_down i / 100 in
  total_roi <- (if Qlt_bool 0 (price * scenario_down i / 100)
                then fmap (fun x => x * 100)
                          (pydiv total_profit (price * scenario_down i / 100))
                else Ok 0) ;;
  Ok {| projected_sale_price := projected_sale_price;
        agent_fees := agent_fees;
        closing_costs := closing_costs;
        remaining_loan := remaining_loan;
        net_sale_proceeds := net_sale_proceeds;
        total_cash_flow := total_cash_flow;
        total_profit := total_profit;
        total_roi := total_roi |}.

(** The block under [if show_projection and projection_years > 0]; [None]
    when it is skipped. *)
Definition projections (i : Inputs) : result (option (Series * Sale)) :=
  if show_projection i && (0 <? projection_years i)%nat
  then
    let price := App.parse_price (price_raw i) in
    let rent := scenario_rent i in
    let balance := price - (price * scenario_down i / 100) in
    let monthly_rate := scenario_interest i / 100 / 12 in
    monthly_payment <-
      Amortization.monthly_payment balance monthly_rate (loan_term i * 12) ;;
    s <- sale price rent balance monthly_rate monthly_payment i ;;
    Ok (Some (series price rent balance monthly_rate monthly_payment i, s))
  else Ok None.

End Projection.

(* ================================================================== *)
(** ** dash_app.py: the 10-year cash-flow projection of [scenario_outputs]
    (lines 679-685) *)

Module DashProjection.

Definition rent_growth : Q := 2 # 100.

(** [for y in years: rent_proj = rent_proj * (1 + rent_growth);
    cash_flows.append(rent_proj - monthly_payment - monthly_expenses)] *)
Fixpoint project (years : nat) (rent_proj monthly_payment monthly_expenses : Q) : list Q :=
  match years with
  | O => []
  | S k =>
      let rent_proj := rent_proj * (1 + rent_growth) in
      (rent_proj - monthly_payment - monthly_expenses)
        :: project k rent_proj monthly_payment monthly_expenses
  end.

(** [years = list(range(1, 11))] *)
Definition cash_flows (monthly_rent monthly_payment monthly_expenses : Q) : list Q :=
  project 10 monthly_rent monthly_payment monthly_expenses.

End DashProjection.

(* ================================================================== *)
(** ** utils/ml_models.py: [RentPredictor.predict_with_range] *)

Module MlModels.

(** The predictor object: the fitted model as a function of the feature
    dictionary ([None] before training or loading) and the stored MAE. *)
Record RentPredictor (F : Type) : Type := {
  model : option (F -> Q);
  mae : option Q
}.

Arguments model {F} _.
Arguments mae {F} _.

Inductive outcome (A : Type) : Type :=
| Returned (a : A)
| RaisedValueError.

Arguments Returned {A} a.
Arguments RaisedValueError {A}.

Record Range : Type := {
  predicted_rent : Q;
  lower_bound : Q;
  upper_bound : Q;
  confidence_range : Q
}.

Definition default_mae : Q := 28924 # 100.

(** [predict]: raises when there is no model. *)
Definition predict {F : Type} (self : RentPredictor F) (property_data : F) : outcome Q :=
  match model self with
  | None => RaisedValueError
  | Some m => Returned (m property_data)
  end.

(** [predict_with_range]: the range and the object, whose [mae] is set to
    the default when it was [None]. *)
Definition predict_with_range {F : Type} (self : RentPredictor F) (property_data : F)
  : outcome (Range * RentPredictor F) :=
  match model self with
  | None => RaisedValueError
  | Some _ =>
      match predict self property_data with
      | RaisedValueError => RaisedValueError
      | Returned prediction =>
          let mae_value := match mae self with
                           | None => default_mae
                           | Some v => v
                           end in
          let self' := {| model := model self; mae := Some mae_value |} in
          let lower_bound := pymax 0 (prediction - mae_value) in
          let upper_bound := prediction + mae_value in
          Returned ({| predicted_rent := prediction;
                       lower_bound := lower_bound;
                       upper_bound := upper_bound;
                       confidence_range := mae_value |}, self')
      end
  end.

End MlModels.

(* ================================================================== *)
(** ** app.py: [get_zip_code]

    The address is a text of characters below code point 256, of which
    [\d] matches the ten digits [0] to [9] only. *)

Module Zip.

Import Ascii.

(** [\d] *)
Definition is_digit (c : ascii) : bool :=
  ((48 <=? nat_of_ascii c) && (nat_of_ascii c <=? 57))%nat.

(** A match of [\d{n}] at the start of the text. *)
Fixpoint digits_prefix (n : nat) (s : string) : option string :=
  match n with
  | O => Some EmptyString
  | S n' =>
      match s with
      | EmptyString => None
      | String c rest =>
          if is_digit c
          then match digits_prefix n' rest with
               | Some z => Some (String c z)
               | None => None
               end
          else None
      end
  end.

(** [re.search(r'(\d{5})', s)]: the leftmost match. *)
Fixpoint search (s : string) : option string :=
  match digits_prefix 5 s with
  | Some z => Some z
  | None =>
      match s with
      | EmptyString => None
      | String _ rest => search rest
      end
  end.

(** [get_zip_code(address)]; [None] is an address that is not a [str]. *)
Definition get_zip_code (address : option string) : option string :=
  match address with
  | None => None
  | Some a => search a
  end.

End Zip.

(* ================================================================== *)
(** ** app.py: the guard, the metrics and the ROI of [run_analysis]
    (lines 423-425 and 446-449) *)

Module AppRun.

(** [if not property_data.get('price') ...: return] (the address is there),
    then
    [metrics = calculate_metrics(...);
     roi = analysis.calculate_roi(metrics['monthly_cash_flow'],
                                  metrics['total_upfront_cost'])],
    on the assumptions as they reach [calculate_metrics].  The stored price is
    [None] or the text of a number; [Ok None] is the early return. *)
Definition metrics_and_roi (m : App.Manual) (price_raw : option Q) (a : App.Assumptions)
  : result (option (App.Metrics * Q)) :=
  match price_raw with
  | None => Ok None
  | Some _ =>
      metrics <- App.calculate_metrics m price_raw a ;;
      roi <- Analysis.calculate_roi (App.monthly_cash_flow metrics)
                                    (App.total_upfront_cost metrics) ;;
      Ok (Some (metrics, roi))
  end.

End AppRun.

(* ================================================================== *)
(** ** utils/visualization.py: the points of [create_comps_scatter] *)

Module Visualization.

(** The keys of [property_data] the function reads. *)
Record Target : Type := {
  zipcode : option string;
  beds : option Q;
  Bedrooms : option Q;
  bedrooms : option Q;
  baths : option Q;
  Bathrooms : option Q;
  bathrooms : option Q;
  sqft : option Q
}.

(** [a or b] on optional numbers: [a] when it is truthy, else [b]. *)
Definition py_or (a b : option Q) : option Q :=
  match a with
  | Some x => if Qeq_bool x 0 then b else a
  | None => b
  end.

Definition subject (t : Target) : Comps.Subject :=
  {| Comps.zipcode := zipcode t;
     Comps.beds := py_or (py_or (beds t) (Bedrooms t)) (bedrooms t);
     Comps.baths := py_or (py_or (baths t) (Bathrooms t)) (bathrooms t);
     Comps.sqft := sqft t;
     Comps.price := None |}.

(** The frame after the four filters and the outlier band (no [try] here). *)
Definition scatter_rows (df : Comps.DataFrame) (t : Target) : result (list Comps.row) :=
  let c := Comps.resolve_cols df in
  let s := subject t in
  let rows := Comps.filter_zip c s (Comps.records df) in
  rows <- Comps.filter_beds c s rows ;;
  rows <- Comps.filter_baths c s rows ;;
  rows <- Comps.filter_sqft c s rows ;;
  Comps.remove_outliers c rows.

(** Whether the "No comparable properties found" annotation is drawn. *)
Definition no_comps_annotation (df : Comps.DataFrame) (rows : list Comps.row) : bool :=
  match rows, Comps.price_col (Comps.resolve_cols df), Comps.sqft_col (Comps.resolve_cols df) with
  | _ :: _, Some _, Some _ => false
  | _, _, _ => true
  end.

End Visualization.

(* ================================================================== *)
(** ** api.py: the comparables of [analyze_property] (lines 136-157) *)

Module ApiComps.

Open Scope string_scope.

Record ApiComp : Type := {
  address : Comps.cell;
  price : Q;
  beds : Z;
  baths : Q;
  sqft : Q;
  pricePerSqft : Q;
  soldDate : Comps.cell;
  distance : Q
}.

Section Conversions.

(** [float(text)] and [int(text)] of the interpreter: [None] when they raise
    [ValueError]. *)
Variable float_of_text : string -> option Q.
Variable int_of_text : string -> option Z.

(** [float(x)] on a cell; [None] when it raises. *)
Definition to_float (c : Comps.cell) : option Q :=
  match c with
  | Comps.Num q => Some q
  | Comps.Str s => float_of_text s
  end.

(** [int(x)] on a cell. *)
Definition to_int (c : Comps.cell) : option Z :=
  match c with
  | Comps.Num q => Some (int_of_float q)
  | Comps.Str s => int_of_text s
  end.

(** [comp.get(col, default)] *)
Definition get (df : Comps.DataFrame) (r : Comps.row) (col : string) (default : Comps.cell)
  : Comps.cell :=
  if existsb (String.eqb col) (Comps.columns df) then r col else default.

(** [x > 0] on a cell; [None] when it raises [TypeError]. *)
Definition positive (c : Comps.cell) : option bool :=
  match c with
  | Comps.Num q => Some (Qlt_bool 0 q)
  | Comps.Str _ => None
  end.

(** The dictionary appended for one row; [None] when building it raises. *)
Definition convert (df : Comps.DataFrame) (comp : Comps.row) : option ApiComp :=
  match to_float (get df comp "price" (Comps.Num 0)) with
  | None => None
  | Some p =>
  match to_int (get df comp "beds" (Comps.Num 0)) with
  | None => None
  | Some b =>
  match to_float (get df comp "baths" (Comps.Num 0)) with
  | None => None
  | Some ba =>
  match to_float (get df comp "sqft" (Comps.Num 0)) with
  | None => None
  | Some sq =>
  match positive (get df comp "sqft" (Comps.Num 0)) with
  | None => None
  | Some true =>
      match to_float (get df comp "price" (Comps.Num 0)),
            to_float (get df comp "sqft" (Comps.Num 1)) with
      | Some p', Some sq' =>
          match pydiv p' sq' with
          | Ok pps =>
              Some {| address := get df comp "address" (Comps.Str "Unknown");
                      price := p; beds := b; baths := ba; sqft := sq;
                      pricePerSqft := pps;
                      soldDate := get df comp "sale_date" (Comps.Str "Unknown");
                      distance := 5 # 10 |}
          | Raise _ => None
          end
      | _, _ => None
      end
  | Some false =>
      Some {| address := get df comp "address" (Comps.Str "Unknown");
              price := p; beds := b; baths := ba; sqft := sq;
              pricePerSqft := 0;
              soldDate := get df comp "sale_date" (Comps.Str "Unknown");
              distance := 5 # 10 |}
  end end end end end.

(** The loop: the dictionaries appended before the first row that raises. *)
Fixpoint append_rows (df : Comps.DataFrame) (rows : list Comps.row) : list ApiComp :=
  match rows with
  | [] => []
  | r :: t =>
      match convert df r with
      | Some c => c :: append_rows df t
      | None => []
      end
  end.

(** [(beds == b) & (price >= lo) & (price <= hi)] on one row. *)
Definition similar (b : Z) (price : Q) (r : Comps.row) : result bool :=
  let same_beds := match r "beds" with
                   | Comps.Num q => Qeq_bool q (inject_Z b)
                   | Comps.Str _ => false
                   end in
  p <- Comps.num_of (r "price") ;;
  Ok (same_beds && Qle_bool (price * (8 # 10)) p && Qle_bool p (price * (12 # 10))).

(** The comparables list of the response; [None] is [comps_data is None]. *)
Definition comps (comps_data : option Comps.DataFrame) (b : Z) (price : Q) : list ApiComp :=
  match comps_data with
  | None => []
  | Some df =>
      if existsb (String.eqb "beds") (Comps.columns df) &&
         existsb (String.eqb "price") (Comps.columns df)
      then match Comps.filterM (similar b price) (Comps.records df) with
           | Ok rows => append_rows df (firstn 5 rows)
           | Raise _ => []
           end
      else []
  end.

End Conversions.

End ApiComps.

(* ================================================================== *)
(** * Notions used in the statements *)

(** The sum of the six annual expense figures. *)
Definition sum_expenses (e : App.Expenses) : Q :=
  App.annual_property_tax e + App.annual_insurance e + App.annual_management e +
  App.annual_maintenance e + App.annual_capital_reserves e + App.annual_vacancy e.

(** The rent-proportional share of the expenses of [calculate_metrics]:
    8% management, maintenance, capital reserves and vacancy. *)
Definition app_rent_fraction (a : App.Assumptions) : Q :=
  (8 # 100) + App.maintenance_rate a / 100 + App.capital_reserves_rate a / 100 +
  match App.vacancy_mode a, App.vacancy_months a with
  | App.months, Some vm => vm / 12
  | _, _ => App.vacancy_rate a / 100
  end.

(** The same share in [scenario_outputs]. *)
Definition dash_rent_fraction (s : DashApp.Scenario) : Q :=
  (8 # 100) + DashApp.maintenance_rate s / 100 + DashApp.capital_reserves_rate s / 100 +
  DashApp.vacancy_rate s / 100.

(** The assumptions with another rent estimate. *)
Definition app_with_rent (a : App.Assumptions) (rent : Q) : App.Assumptions :=
  {| App.down_payment_pct := App.down_payment_pct a;
     App.interest_rate := App.interest_rate a;
     App.loan_term := App.loan_term a;
     App.property_tax_rate := App.property_tax_rate a;
     App.insurance_rate := App.insurance_rate a;
     App.maintenance_rate := App.maintenance_rate a;
     App.capital_reserves_rate := App.capital_reserves_rate a;
     App.vacancy_mode := App.vacancy_mode a;
     App.vacancy_months := App.vacancy_months a;
     App.vacancy_rate := App.vacancy_rate a;
     App.closing_costs_pct := App.closing_costs_pct a;
     App.estimated_rent := rent |}.

Definition dash_with_rent (s : DashApp.Scenario) (rent : Q) : DashApp.Scenario :=
  {| DashApp.price := DashApp.price s;
     DashApp.down_payment_pct := DashApp.down_payment_pct s;
     DashApp.interest_rate := DashApp.interest_rate s;
     DashApp.loan_term := DashApp.loan_term s;
     DashApp.property_tax_rate := DashApp.property_tax_rate s;
     DashApp.insurance_rate := DashApp.insurance_rate s;
     DashApp.maintenance_rate := DashApp.maintenance_rate s;
     DashApp.capital_reserves_rate := DashApp.capital_reserves_rate s;
     DashApp.vacancy_rate := DashApp.vacancy_rate s;
     DashApp.closing_costs_pct := DashApp.closing_costs_pct s;
     DashApp.monthly_rent := rent |}.

(** The financing part of the assumptions replaced. *)
Definition app_with_financing (a : App.Assumptions) (down rate : Q) (term : Z) (closing : Q)
  : App.Assumptions :=
  {| App.down_payment_pct := down;
     App.interest_rate := rate;
     App.loan_term := term;
     App.property_tax_rate := App.property_tax_rate a;
     App.insurance_rate := App.insurance_rate a;
     App.maintenance_rate := App.maintenance_rate a;
     App.capital_reserves_rate := App.capital_reserves_rate a;
     App.vacancy_mode := App.vacancy_mode a;
     App.vacancy_months := App.vacancy_months a;
     App.vacancy_rate := App.vacancy_rate a;
     App.closing_costs_pct := closing;
     App.estimated_rent := App.estimated_rent a |}.

Definition dash_with_financing (s : DashApp.Scenario) (down rate : Q) (term : Z) (closing : Q)
  : DashApp.Scenario :=
  {| DashApp.price := DashApp.price s;
     DashApp.down_payment_pct := down;
     DashApp.interest_rate := rate;
     DashApp.loan_term := term;
     DashApp.property_tax_rate := DashApp.property_tax_rate s;
     DashApp.insurance_rate := DashApp.insurance_rate s;
     DashApp.maintenance_rate := DashApp.maintenance_rate s;
     DashApp.capital_reserves_rate := DashApp.capital_reserves_rate s;
     DashApp.vacancy_rate := DashApp.vacancy_rate s;
     DashApp.closing_costs_pct := closing;
     DashApp.monthly_rent := DashApp.monthly_rent s |}.

(** Concrete inputs. *)

(** A $120,000 purchase paid in cash (100% down), 1% property tax, no other
    price- or rent-based rate, rent $1,000. *)
Definition cash_purchase : App.Assumptions :=
  {| App.down_payment_pct := 100; App.interest_rate := 5; App.loan_term := 30;
     App.property_tax_rate := 1; App.insurance_rate := 0; App.maintenance_rate := 0;
     App.capital_reserves_rate := 0; App.vacancy_mode := App.percent;
     App.vacancy_months := None; App.vacancy_rate := 0; App.closing_costs_pct := 0;
     App.estimated_rent := 1000 |}.

(** The end-to-end scenario of the specification: $200,000, 20% down, 5%,
    30 years, rent $1,800, tax 1.5%, insurance 0.5%, maintenance 1%, capital
    reserves 1%, vacancy 5% of rent, closing costs 3%. *)
Definition end_to_end : App.Assumptions :=
  {| App.down_payment_pct := 20; App.interest_rate := 5; App.loan_term := 30;
     App.property_tax_rate := 15 # 10; App.insurance_rate := 5 # 10;
     App.maintenance_rate := 1; App.capital_reserves_rate := 1;
     App.vacancy_mode := App.percent; App.vacancy_months := None;
     App.vacancy_rate := 5; App.closing_costs_pct := 3; App.estimated_rent := 1800 |}.

Definition end_to_end_dash : DashApp.Scenario :=
  {| DashApp.price := Some 200000; DashApp.down_payment_pct := 20;
     DashApp.interest_rate := 5; DashApp.loan_term := 30;
     DashApp.property_tax_rate := 15 # 10; DashApp.insurance_rate := 5 # 10;
     DashApp.maintenance_rate := 1; DashApp.capital_reserves_rate := 1;
     DashApp.vacancy_rate := 5; DashApp.closing_costs_pct := 3;
     DashApp.monthly_rent := 1800 |}.

Definition end_to_end_api : Api.Request :=
  {| Api.price := 200000; Api.down_payment_pct := 20; Api.interest_rate := 5;
     Api.loan_term := 30; Api.property_tax_rate := 15 # 10; Api.insurance_rate := 5 # 10;
     Api.maintenance_rate := 1; Api.capital_reserves_rate := 1; Api.vacancy_rate := 5;
     Api.closing_costs_pct := 3; Api.predicted_rent := Some 1800 |}.

(** The month-by-month principal components: [interest = balance * r],
    [principal = payment - interest], [balance -= principal]. *)
Fixpoint principal_schedule (n : nat) (r M balance : Q) : list Q :=
  match n with
  | O => []
  | S n' =>
      let principal := M - balance * r in
      principal :: principal_schedule n' r M (balance - principal)
  end.

Definition Qsum (l : list Q) : Q := fold_right Qplus 0 l.

(** The sum of the percentage-based expense rates of the gap report:
    tax + insurance + maintenance + capital reserves + vacancy as a rate. *)
Definition expense_rate_fraction (a : App.Assumptions) : Q :=
  App.property_tax_rate a / 100 + App.insurance_rate a / 100 +
  App.maintenance_rate a / 100 + App.capital_reserves_rate a / 100 +
  App.vacancy_as_rate a.

Definition dash_expense_rate_fraction (s : DashApp.Scenario) : Q :=
  DashApp.property_tax_rate s / 100 + DashApp.insurance_rate s / 100 +
  DashApp.maintenance_rate s / 100 + DashApp.capital_reserves_rate s / 100 +
  DashApp.vacancy_rate s / 100.

(** The $120,000 cash purchase as a dashboard scenario. *)
Definition cash_purchase_dash : DashApp.Scenario :=
  {| DashApp.price := Some 120000; DashApp.down_payment_pct := 100;
     DashApp.interest_rate := 5; DashApp.loan_term := 30;
     DashApp.property_tax_rate := 1; DashApp.insurance_rate := 0;
     DashApp.maintenance_rate := 0; DashApp.capital_reserves_rate := 0;
     DashApp.vacancy_rate := 0; DashApp.closing_costs_pct := 0;
     DashApp.monthly_rent := 1000 |}.

(** The lexicographic order of the sort keys. *)
Definition key_le (a b : Comps.Ranked) : Prop :=
  Comps.BedDiff a < Comps.BedDiff b \/
  (Comps.BedDiff a == Comps.BedDiff b /\
   (Comps.BathDiff a < Comps.BathDiff b \/
    (Comps.BathDiff a == Comps.BathDiff b /\ Comps.PriceDiff a <= Comps.PriceDiff b))).

(** The zip, beds, baths and sqft criteria of the comparables filter, on the
    columns the frame has and the values the subject gives. *)
Definition in_band (col : option string) (v : option Q) (lo hi : Q -> Q) (r : Comps.row)
  : Prop :=
  forall c x, col = Some c -> v = Some x ->
              exists q, r c = Comps.Num q /\ lo x <= q /\ q <= hi x.

Definition meets_criteria (c : Comps.Cols) (s : Comps.Subject) (r : Comps.row) : Prop :=
  (forall zc z, Comps.zip_col c = Some zc -> Comps.zipcode s = Some z -> z <> EmptyString ->
                r zc = Comps.Str z) /\
  in_band (Comps.beds_col c) (Comps.beds s) (fun b => b - 1) (fun b => b + 1) r /\
  in_band (Comps.baths_col c) (Comps.baths s) (fun b => b - 1) (fun b => b + 1) r /\
  in_band (Comps.sqft_col c) (Comps.sqft s) (fun x => x * (8 # 10)) (fun x => x * (12 # 10)) r.

(** The beds, baths and sqft columns of the frame hold numbers. *)
Definition numeric_columns (df : Comps.DataFrame) : Prop :=
  forall r col,
    In r (Comps.records df) ->
    In (Some col) [Comps.beds_col (Comps.resolve_cols df);
                   Comps.baths_col (Comps.resolve_cols df);
                   Comps.sqft_col (Comps.resolve_cols df)] ->
    exists q, r col = Comps.Num q.

(** Sample frames. *)

(** Four sales; the subject is a 3-bed, 2-bath, 1,500 sqft house at $160,000. *)
Definition four_sales : Comps.DataFrame :=
  {| Comps.columns := ["price"; "beds"; "baths"; "sqft"]%string;
     Comps.records :=
       [Comps.mkrow [("price"%string, Comps.Num 150000); ("beds"%string, Comps.Num 3);
                     ("baths"%string, Comps.Num 2); ("sqft"%string, Comps.Num 1400)];
        Comps.mkrow [("price"%string, Comps.Num 170000); ("beds"%string, Comps.Num 3);
                     ("baths"%string, Comps.Num 2); ("sqft"%string, Comps.Num 1500)];
        Comps.mkrow [("price"%string, Comps.Num 162000); ("beds"%string, Comps.Num 3);
                     ("baths"%string, Comps.Num 2); ("sqft"%string, Comps.Num 1600)];
        Comps.mkrow [("price"%string, Comps.Num 158000); ("beds"%string, Comps.Num 4);
                     ("baths"%string, Comps.Num 2); ("sqft"%string, Comps.Num 1550)]] |}.

Definition subject_house : Comps.Subject :=
  {| Comps.zipcode := None; Comps.beds := Some 3; Comps.baths := Some 2;
     Comps.sqft := Some 1500; Comps.price := Some 160000 |}.

(** One sale in a frame that has no sqft column. *)
Definition no_sqft_frame : Comps.DataFrame :=
  {| Comps.columns := ["price"; "beds"; "baths"]%string;
     Comps.records :=
       [Comps.mkrow [("price"%string, Comps.Num 150000); ("beds"%string, Comps.Num 3);
                     ("baths"%string, Comps.Num 2)]] |}.

(** A subject no sale of [four_sales] is close to: 8 bedrooms. *)
Definition subject_mansion : Comps.Subject :=
  {| Comps.zipcode := None; Comps.beds := Some 8; Comps.baths := Some 2;
     Comps.sqft := Some 1500; Comps.price := Some 160000 |}.

(** The payment of a loan of [P] at the monthly rate [r] over [N] months. *)
Definition annuity (P r : Q) (N : nat) : Q :=
  P * (r * (1 + r) ^ Z.of_nat N) / ((1 + r) ^ Z.of_nat N - 1).

(** The relation a boolean order decides. *)
Definition ordered_by {A : Type} (leb : A -> A -> bool) (a b : A) : Prop :=
  leb a b = true.

(** Every one of the six monthly overrides is set. *)
Definition all_overridden (m : App.Manual) : Prop :=
  0 < App.manual_property_tax m /\ 0 < App.manual_insurance m /\
  0 < App.manual_management m /\ 0 < App.manual_maintenance m /\
  0 < App.manual_capital_reserves m /\ 0 < App.manual_vacancy m.

Definition manual_total (m : App.Manual) : Q :=
  App.manual_property_tax m + App.manual_insurance m + App.manual_management m +
  App.manual_maintenance m + App.manual_capital_reserves m + App.manual_vacancy m.

Definition all_flags : App.Overridden :=
  {| App.ov_property_tax := true; App.ov_insurance := true; App.ov_management := true;
     App.ov_maintenance := true; App.ov_capital_reserves := true; App.ov_vacancy := true |}.

(** Overrides of $250, $80, $150, $100, $100 and $90 a month. *)
Definition sample_overrides : App.Manual :=
  {| App.manual_property_tax := 250; App.manual_insurance := 80;
     App.manual_management := 150; App.manual_maintenance := 100;
     App.manual_capital_reserves := 100; App.manual_vacancy := 90 |}.

(** The order of the four recommendations of api.py. *)
Definition rank (r : Api.Recommendation) : nat :=
  match r with
  | Api.DontBuy => 0
  | Api.Hold => 1
  | Api.Buy => 2
  | Api.StrongBuy => 3
  end.

(** The verdict of app.py as a verdict of dash_app.py. *)
Definition dash_verdict (v : App.Verdict) : DashApp.Verdict :=
  match v with
  | App.Buy => DashApp.Buy
  | App.DontBuy => DashApp.DontBuy
  | App.Hold => DashApp.Hold
  end.

(** The scenario of dash_app.py and the request of api.py that carry the
    assumptions of app.py (percent vacancy). *)
Definition dash_of_app (price_raw : option Q) (a : App.Assumptions) : DashApp.Scenario :=
  {| DashApp.price := price_raw;
     DashApp.down_payment_pct := App.down_payment_pct a;
     DashApp.interest_rate := App.interest_rate a;
     DashApp.loan_term := App.loan_term a;
     DashApp.property_tax_rate := App.property_tax_rate a;
     DashApp.insurance_rate := App.insurance_rate a;
     DashApp.maintenance_rate := App.maintenance_rate a;
     DashApp.capital_reserves_rate := App.capital_reserves_rate a;
     DashApp.vacancy_rate := App.vacancy_rate a;
     DashApp.closing_costs_pct := App.closing_costs_pct a;
     DashApp.monthly_rent := App.estimated_rent a |}.

Definition api_of_app (price_raw : option Q) (a : App.Assumptions) : Api.Request :=
  {| Api.price := App.parse_price price_raw;
     Api.down_payment_pct := App.down_payment_pct a;
     Api.interest_rate := App.interest_rate a;
     Api.loan_term := App.loan_term a;
     Api.property_tax_rate := App.property_tax_rate a;
     Api.insurance_rate := App.insurance_rate a;
     Api.maintenance_rate := App.maintenance_rate a;
     Api.capital_reserves_rate := App.capital_reserves_rate a;
     Api.vacancy_rate := App.vacancy_rate a;
     Api.closing_costs_pct := App.closing_costs_pct a;
     Api.predicted_rent := Some (App.estimated_rent a) |}.

(** A request with a zero-year term. *)
Definition zero_term_api : Api.Request :=
  {| Api.price := 200000; Api.down_payment_pct := 20; Api.interest_rate := 5;
     Api.loan_term := 0; Api.property_tax_rate := 15 # 10; Api.insurance_rate := 5 # 10;
     Api.maintenance_rate := 1; Api.capital_reserves_rate := 1; Api.vacancy_rate := 5;
     Api.closing_costs_pct := 3; Api.predicted_rent := Some 1800 |}.

(** The projection inputs of the sidebar: $200,000, 20% down, 4%, a 15-year
    loan, 3% appreciation, 2% rent growth, rent $1,800, 20 years shown. *)
Definition long_projection : Projection.Inputs :=
  {| Projection.price_raw := Some 200000; Projection.scenario_down := 20;
     Projection.scenario_interest := 4; Projection.loan_term := 15;
     Projection.appreciation_rate := 3; Projection.rent_growth_rate := 2;
     Projection.scenario_rent := 1800; Projection.show_projection := true;
     Projection.projection_years := 20 |}.

(** A predictor that has a model, $0.90 a sqft, and no stored MAE. *)
Definition flat_rate_predictor : MlModels.RentPredictor Q :=
  {| MlModels.model := Some (fun sqft => (9 # 10) * sqft); MlModels.mae := None |}.

(** Every character of the text is a decimal digit. *)
Fixpoint all_digits (s : string) : bool :=
  match s with
  | EmptyString => true
  | String c rest => Zip.is_digit c && all_digits rest
  end.

(** The end-to-end scenario bought with nothing down and no closing costs. *)
Definition nothing_down : App.Assumptions := app_with_financing end_to_end 0 5 30 0.

(** The subject with another price. *)
Definition with_price (s : Comps.Subject) (p : option Q) : Comps.Subject :=
  {| Comps.zipcode := Comps.zipcode s; Comps.beds := Comps.beds s;
     Comps.baths := Comps.baths s; Comps.sqft := Comps.sqft s; Comps.price := p |}.

(** The subject of [subject_house] as the chart's [property_data]. *)
Definition target_house : Visualization.Target :=
  {| Visualization.zipcode := None; Visualization.beds := Some 3;
     Visualization.Bedrooms := None; Visualization.bedrooms := None;
     Visualization.baths := Some 2; Visualization.Bathrooms := None;
     Visualization.bathrooms := None; Visualization.sqft := Some 1500 |}.

(** A [float(text)] or [int(text)] that accepts no text. *)
Definition no_text {A : Type} : string -> option A := fun _ => None.

(** The monthly expenses of [calculate_metrics], after the overrides. *)
Definition app_monthly_expenses (m : App.Manual) (price_raw : option Q) (a : App.Assumptions)
  : Q :=
  sum_expenses
    (App.overridden_expenses m
       (App.computed_expenses (App.parse_price price_raw) (App.estimated_rent a) a)) / 12.

(** The monthly expenses of [analyze_property]. *)
Definition api_monthly_expenses (d : Api.Request) : Q :=
  let rent := Api.resolve_rent (Api.price d) (Api.predicted_rent d) in
  Api.price d * (Api.property_tax_rate d / 100) / 12 +
  Api.price d * (Api.insurance_rate d / 100) / 12 +
  rent * (8 # 100) + rent * (Api.maintenance_rate d / 100) +
  rent * (Api.capital_reserves_rate d / 100) + rent * (Api.vacancy_rate d / 100).

(* ================================================================== *)
(** * Properties *)

(** ** Python arithmetic *)

Lemma Qlt_bool_iff (a b : Q) : Qlt_bool a b = true <-> a < b.
Proof.
  unfold Qlt_bool. rewrite negb_true_iff.
  split; intro H.
  - apply Qnot_le_lt. intro L. apply Qle_bool_iff in L. congruence.
  - destruct (Qle_bool b a) eqn:E; [|reflexivity].
    apply Qle_bool_iff in E. lra.
Qed.

Lemma Qlt_bool_false_iff (a b : Q) : Qlt_bool a b = false <-> b <= a.
Proof.
  unfold Qlt_bool. rewrite negb_false_iff. apply Qle_bool_iff.
Qed.

Lemma pydiv_ok (a b : Q) : ~ b == 0 -> pydiv a b = Ok (a / b).
Proof.
  intro H. unfold pydiv. destruct (Qeq_bool b 0) eqn:E; [|reflexivity].
  apply Qeq_bool_iff in E. contradiction.
Qed.

Lemma pydiv_raises (a b : Q) : b == 0 -> pydiv a b = Raise ZeroDivisionError.
Proof.
  intro H. unfold pydiv. apply Qeq_bool_iff in H. now rewrite H.
Qed.

(** [x / d * 100 if d > 0 else 0] never raises. *)
Lemma guarded_pct_ok (x d : Q) :
  (if Qlt_bool 0 d then fmap (fun v => v * 100) (pydiv x d) else Ok 0)
  = Ok (if Qlt_bool 0 d then x / d * 100 else 0).
Proof.
  destruct (Qlt_bool 0 d) eqn:E; [|reflexivity].
  apply Qlt_bool_iff in E. rewrite pydiv_ok by lra. reflexivity.
Qed.

(** [x / d if d > 0 else 0] never raises. *)
Lemma guarded_div_ok (x d g : Q) :
  (0 < g -> 0 < d) ->
  (if Qlt_bool 0 g then pydiv x d else Ok 0)
  = Ok (if Qlt_bool 0 g then x / d else 0).
Proof.
  intro H. destruct (Qlt_bool 0 g) eqn:E; [|reflexivity].
  apply Qlt_bool_iff in E. rewrite pydiv_ok; [reflexivity|].
  specialize (H E). lra.
Qed.

(** ** The mortgage payment *)

Lemma growth_ne_1 (r : Q) (n : Z) : 0 < r -> n <> 0%Z -> ~ (1 + r) ^ n - 1 == 0.
Proof.
  intros Hr Hn.
  assert (H1 : 1 < 1 + r) by lra.
  destruct n as [|p|p]; [congruence| |].
  - pose proof (Qpower_1_lt (1 + r) (Z.pos p) H1 eq_refl). lra.
  - pose proof (Qpower_1_lt (1 + r) (Z.pos p) H1 eq_refl) as H.
    change (Z.neg p) with (- Z.pos p)%Z. rewrite Qpower_opp.
    assert (Hinv : / (1 + r) ^ Z.pos p < 1).
    { setoid_replace 1 with (/ 1) at 2 by reflexivity.
      apply -> Qinv_lt_contravar; lra. }
    lra.
Qed.

Lemma monthly_payment_positive_case (P r : Q) (n : Z) :
  0 < P -> 0 < r -> n <> 0%Z ->
  Amortization.monthly_payment P r n
  = Ok (P * (r * (1 + r) ^ n) / ((1 + r) ^ n - 1)).
Proof.
  intros HP Hr Hn. unfold Amortization.monthly_payment.
  apply Qlt_bool_iff in HP, Hr. rewrite HP, Hr. cbn [andb].
  apply pydiv_ok. apply growth_ne_1; [now apply Qlt_bool_iff | assumption].
Qed.

Lemma monthly_payment_zero_case (P r : Q) (n : Z) :
  P <= 0 \/ r <= 0 -> Amortization.monthly_payment P r n = Ok 0.
Proof.
  intros H. unfold Amortization.monthly_payment.
  destruct H as [H|H]; apply Qlt_bool_false_iff in H; rewrite H;
    [reflexivity | now rewrite andb_false_r].
Qed.

(** The payment never raises when the term is not zero. *)
Lemma monthly_payment_total (P r : Q) (n : Z) :
  n <> 0%Z -> exists M, Amortization.monthly_payment P r n = Ok M.
Proof.
  intro Hn.
  destruct (Qlt_le_dec 0 P) as [HP|HP]; [destruct (Qlt_le_dec 0 r) as [Hr|Hr]|].
  - eexists. now apply monthly_payment_positive_case.
  - exists 0. apply monthly_payment_zero_case. now right.
  - exists 0. apply monthly_payment_zero_case. now left.
Qed.

(** ** The metrics block of app.py *)

Lemma app_payback_eq (tuc acf : Q) :
  App.payback tuc acf = Ok (if Qlt_bool 0 acf then Fin (tuc / acf) else Inf).
Proof.
  unfold App.payback. destruct (Qlt_bool 0 acf) eqn:E; [|reflexivity].
  apply Qlt_bool_iff in E. rewrite pydiv_ok by lra. reflexivity.
Qed.

(** The block always returns: each of its divisions is guarded. *)
Lemma metrics_block_eq (price dp loan r M rent : Q) (a : App.Assumptions)
      (e : App.Expenses) (ov : App.Overridden) :
  App.metrics_block price dp loan r M rent a e ov =
  let tuc := dp + price * (App.closing_costs_pct a / 100) in
  let mcf := rent - M - sum_expenses e / 12 in
  Ok {| App.monthly_cash_flow := mcf;
        App.cap_rate :=
          if Qlt_bool 0 price then (rent * 12 - sum_expenses e) / price * 100 else 0;
        App.cash_on_cash := if Qlt_bool 0 tuc then mcf * 12 / tuc * 100 else 0;
        App.break_even_rent :=
          M + (App.annual_property_tax e + App.annual_insurance e) / 12 +
          App.annual_management e / 12 + App.annual_maintenance e / 12 +
          App.annual_capital_reserves e / 12 + App.annual_vacancy e / 12;
        App.total_upfront_cost := tuc;
        App.rent_to_price := if Qlt_bool 0 price then rent / price * 100 else 0;
        App.total_roi :=
          if Qlt_bool 0 tuc
          then (mcf * 12 + Amortization.principal_paid_yr1 loan r M + price * (3 # 100))
               / tuc * 100
          else 0;
        App.payback_period := if Qlt_bool 0 (mcf * 12) then Fin (tuc / (mcf * 12)) else Inf;
        App.overridden := ov |}.
Proof.
  unfold App.metrics_block, sum_expenses.
  rewrite !guarded_pct_ok. cbn [bind].
  rewrite app_payback_eq. reflexivity.
Qed.

Lemma calculate_metrics_eq (m : App.Manual) (price_raw : option Q) (a : App.Assumptions)
      (M : Q) :
  let price := App.parse_price price_raw in
  let dp := price * (App.down_payment_pct a / 100) in
  let r := App.interest_rate a / 100 / 12 in
  Amortization.monthly_payment (price - dp) r (App.loan_term a * 12) = Ok M ->
  App.calculate_metrics m price_raw a =
  App.metrics_block price dp (price - dp) r M (App.estimated_rent a) a
    (App.overridden_expenses m (App.computed_expenses price (App.estimated_rent a) a))
    (App.overridden_flags m).
Proof.
  intros price dp r H. unfold App.calculate_metrics.
  fold price. fold dp. fold r. rewrite H. cbn [bind].
  rewrite (metrics_block_eq _ _ _ _ _ _ _ _ App.no_flags). reflexivity.
Qed.

(** ** The metrics of dash_app.py and api.py *)

Lemma scenario_metrics_eq (s : DashApp.Scenario) (M : Q) :
  let price := DashApp.price_or_0 (DashApp.price s) in
  let dp := price * (DashApp.down_payment_pct s / 100) in
  let r := DashApp.interest_rate s / 100 / 12 in
  let rent := DashApp.monthly_rent s in
  let annual_expenses :=
    price * (DashApp.property_tax_rate s / 100) + price * (DashApp.insurance_rate s / 100) +
    rent * (8 # 100) * 12 + rent * (DashApp.maintenance_rate s / 100) * 12 +
    rent * (DashApp.capital_reserves_rate s / 100) * 12 +
    rent * (DashApp.vacancy_rate s / 100) * 12 in
  let mcf := rent - M - annual_expenses / 12 in
  let noi := rent * 12 - annual_expenses in
  let cap := if Qlt_bool 0 price then noi / price * 100 else 0 in
  let ber :=
    M + (price * (DashApp.property_tax_rate s / 100) +
         price * (DashApp.insurance_rate s / 100)) / 12 +
    rent * (8 # 100) * 12 / 12 + rent * (DashApp.maintenance_rate s / 100) * 12 / 12 +
    rent * (DashApp.capital_reserves_rate s / 100) * 12 / 12 +
    rent * (DashApp.vacancy_rate s / 100) * 12 / 12 in
  let tci := dp + price * (DashApp.closing_costs_pct s / 100) in
  Amortization.monthly_payment (price - dp) r (DashApp.loan_term s * 12) = Ok M ->
  DashApp.scenario_metrics s =
  Ok {| DashApp.monthly_payment := M;
        DashApp.monthly_cash_flow := mcf;
        DashApp.noi := noi;
        DashApp.cap_rate := cap;
        DashApp.break_even_rent := ber;
        DashApp.rec := DashApp.investment_recommendation cap mcf;
        DashApp.needed := DashApp.needed_numbers cap mcf ber price;
        DashApp.cash_on_cash := if Qlt_bool 0 tci then mcf * 12 / tci * 100 else 0;
        DashApp.dscr := if Qlt_bool 0 (M * 12) then noi / (M * 12) else 0;
        DashApp.grm := if Qlt_bool 0 rent then price / (rent * 12) else 0;
        DashApp.operating_expense_ratio :=
          if Qlt_bool 0 rent then annual_expenses / (rent * 12) else 0;
        DashApp.break_even_occupancy :=
          if Qlt_bool 0 rent then (annual_expenses + M * 12) / (rent * 12) else 0;
        DashApp.rent_to_value := if Qlt_bool 0 price then rent / price else 0 |}.
Proof.
  intros price dp r rent annual_expenses mcf noi cap ber tci H.
  unfold DashApp.scenario_metrics.
  fold price. fold dp. fold r. rewrite H. cbn [bind].
  rewrite !guarded_pct_ok. cbn [bind].
  rewrite !guarded_div_ok by (intro; lra). cbn [bind].
  reflexivity.
Qed.

Lemma api_payback_eq (tuc mcf : Q) :
  Api.payback tuc mcf = Ok (if Qlt_bool 0 mcf then Fin (tuc / (mcf * 12)) else Inf).
Proof.
  unfold Api.payback. destruct (Qlt_bool 0 mcf) eqn:E; [|reflexivity].
  apply Qlt_bool_iff in E. rewrite pydiv_ok by lra. reflexivity.
Qed.

Lemma analyze_body_eq (d : Api.Request) (M : Q) :
  let price := Api.price d in
  let dp := price * (Api.down_payment_pct d / 100) in
  let r := Api.interest_rate d / 100 / 12 in
  let rent := Api.resolve_rent price (Api.predicted_rent d) in
  let monthly_expenses :=
    price * (Api.property_tax_rate d / 100) / 12 + price * (Api.insurance_rate d / 100) / 12 +
    rent * (8 # 100) + rent * (Api.maintenance_rate d / 100) +
    rent * (Api.capital_reserves_rate d / 100) + rent * (Api.vacancy_rate d / 100) in
  let mcf := rent - M - monthly_expenses in
  let cap := if Qlt_bool 0 price then (rent * 12 - monthly_expenses * 12) / price * 100 else 0 in
  let tuc := dp + price * (Api.closing_costs_pct d / 100) in
  let coc := if Qlt_bool 0 tuc then mcf * 12 / tuc * 100 else 0 in
  Amortization.monthly_payment (price - dp) r (Api.loan_term d * 12) = Ok M ->
  Api.analyze_body d =
  Ok {| Api.monthlyRent := rent;
        Api.monthlyPayment := M;
        Api.monthlyCashFlow := mcf;
        Api.capRate := cap;
        Api.cashOnCash := coc;
        Api.breakEvenRent :=
          M + price * (Api.property_tax_rate d / 100) / 12 +
          price * (Api.insurance_rate d / 100) / 12 +
          rent * (8 # 100) + rent * (Api.maintenance_rate d / 100) +
          rent * (Api.capital_reserves_rate d / 100) + rent * (Api.vacancy_rate d / 100);
        Api.rentToPrice := if Qlt_bool 0 price then rent / price * 100 else 0;
        Api.totalROI :=
          if Qlt_bool 0 tuc then (mcf * 12 + price * (3 # 100)) / tuc * 100 else 0;
        Api.paybackPeriod :=
          Api.payback_json (if Qlt_bool 0 mcf then Fin (tuc / (mcf * 12)) else Inf);
        Api.recommendation := Api.recommend cap coc mcf |}.
Proof.
  intros price dp r rent monthly_expenses mcf cap tuc coc H.
  unfold Api.analyze_body.
  fold price. fold dp. fold r. rewrite H. cbn [bind].
  rewrite !guarded_pct_ok. cbn [bind].
  rewrite api_payback_eq. reflexivity.
Qed.

(** ** C2: the monthly mortgage payment *)

(** C2, the figure of the claim: for a principal of $240,000 at 6% over 30
    years the payment is not within $0.01 of $1,439.32. *)
Lemma payment_240k_not_1439_32 :
  ~ (exists M : Q,
        Amortization.monthly_payment 240000 (6 / 100 / 12) (30 * 12) = Ok M /\
        Qabs (M - (143932 # 100)) <= 1 # 100).
Proof.
  intros [M [H Hb]].
  rewrite monthly_payment_positive_case in H by (try reflexivity; discriminate).
  injection H as <-.
  apply Qle_bool_iff in Hb. vm_compute in Hb. discriminate.
Qed.

(** C2 (amended): with a loan amount P > 0, a monthly rate
    r = annual_rate_pct/100/12 > 0 and a term of n = term_years*12 months,
    term_years not zero, the payment is P*r*(1+r)^n / ((1+r)^n - 1); when the
    loan amount or the rate is not positive, it is exactly 0; and $240,000 at
    6% over 30 years gives $1,438.92 within $0.01. *)
Theorem monthly_payment_formula (P annual_rate_pct : Q) (term_years : Z) :
  let r := annual_rate_pct / 100 / 12 in
  let n := (term_years * 12)%Z in
  (0 < P -> 0 < r -> term_years <> 0%Z ->
   exists M, Amortization.monthly_payment P r n = Ok M /\
             M == P * r * (1 + r) ^ n / ((1 + r) ^ n - 1)) /\
  (P <= 0 \/ r <= 0 -> Amortization.monthly_payment P r n = Ok 0) /\
  (exists M, Amortization.monthly_payment 240000 (6 / 100 / 12) (30 * 12) = Ok M /\
             Qabs (M - (143892 # 100)) <= 1 # 100).
Proof.
  intros r n. split; [|split].
  - intros HP Hr Hn. eexists. split.
    + apply monthly_payment_positive_case; [assumption | assumption | unfold n; lia].
    + rewrite Qmult_assoc. reflexivity.
  - apply monthly_payment_zero_case.
  - eexists. split.
    + apply monthly_payment_positive_case; (try reflexivity); discriminate.
    + apply Qle_bool_iff. vm_compute. reflexivity.
Qed.

Lemma monthly_payment_formula_witness :
  exists M, Amortization.monthly_payment 240000 (6 / 100 / 12) (30 * 12) = Ok M /\
            M == 240000 * (6 / 100 / 12) * (1 + 6 / 100 / 12) ^ (30 * 12)
                 / ((1 + 6 / 100 / 12) ^ (30 * 12) - 1).
Proof.
  apply (proj1 (monthly_payment_formula 240000 6 30)).
  - reflexivity.
  - reflexivity.
  - discriminate.
Defined.

(** ** Cash flow and break-even rent as functions of the rent *)

Lemma override_unset (x : Q) : App.override 0 x = x.
Proof. reflexivity. Qed.

(** Without overrides, [calculate_metrics] returns a cash flow and a
    break-even rent that are affine in the rent. *)
Lemma app_cash_flow_shape (price_raw : option Q) (a : App.Assumptions) (M : Q) :
  let price := App.parse_price price_raw in
  let dp := price * (App.down_payment_pct a / 100) in
  let r := App.interest_rate a / 100 / 12 in
  let fixed := price * (App.property_tax_rate a / 100 + App.insurance_rate a / 100) / 12 in
  Amortization.monthly_payment (price - dp) r (App.loan_term a * 12) = Ok M ->
  exists mt, App.calculate_metrics App.no_manual price_raw a = Ok mt /\
    App.monthly_cash_flow mt ==
      App.estimated_rent a - M - fixed - app_rent_fraction a * App.estimated_rent a /\
    App.break_even_rent mt == M + fixed + app_rent_fraction a * App.estimated_rent a.
Proof.
  intros price dp r fixed HM.
  pose proof (calculate_metrics_eq App.no_manual price_raw a M) as E.
  cbv zeta in E. rewrite (E HM), metrics_block_eq. clear E.
  eexists. split; [reflexivity|].
  cbv zeta.
  cbn [App.monthly_cash_flow App.break_even_rent].
  unfold sum_expenses, App.overridden_expenses, App.computed_expenses, App.no_manual,
    app_rent_fraction, fixed.
  cbn [App.annual_property_tax App.annual_insurance App.annual_management
       App.annual_maintenance App.annual_capital_reserves App.annual_vacancy
       App.manual_property_tax App.manual_insurance App.manual_management
       App.manual_maintenance App.manual_capital_reserves App.manual_vacancy].
  rewrite !override_unset. fold price. clearbody price. clear HM.
  destruct (App.vacancy_mode a), (App.vacancy_months a); split; field.
Qed.

Lemma dash_cash_flow_shape (s : DashApp.Scenario) (M : Q) :
  let price := DashApp.price_or_0 (DashApp.price s) in
  let dp := price * (DashApp.down_payment_pct s / 100) in
  let r := DashApp.interest_rate s / 100 / 12 in
  let fixed :=
    price * (DashApp.property_tax_rate s / 100 + DashApp.insurance_rate s / 100) / 12 in
  Amortization.monthly_payment (price - dp) r (DashApp.loan_term s * 12) = Ok M ->
  exists o, DashApp.scenario_metrics s = Ok o /\
    DashApp.monthly_cash_flow o ==
      DashApp.monthly_rent s - M - fixed - dash_rent_fraction s * DashApp.monthly_rent s /\
    DashApp.break_even_rent o == M + fixed + dash_rent_fraction s * DashApp.monthly_rent s.
Proof.
  intros price dp r fixed HM.
  pose proof (scenario_metrics_eq s M) as E.
  cbv zeta in E. rewrite (E HM). clear E.
  eexists. split; [reflexivity|].
  cbn [DashApp.monthly_cash_flow DashApp.break_even_rent].
  unfold dash_rent_fraction, fixed. fold price. clearbody price. clear HM.
  split; field.
Qed.

(** ** C1: break-even rent fed back as the rent *)

(** C1, as stated, fails: a $120,000 cash purchase with 1% property tax and a
    $1,000 rent has a break-even rent of $180; at a rent of $180 the monthly
    cash flow is $65.60, not 0. *)
Lemma break_even_rent_not_fixed_point :
  exists mt mt',
    App.calculate_metrics App.no_manual (Some 120000) cash_purchase = Ok mt /\
    App.break_even_rent mt == 180 /\
    App.calculate_metrics App.no_manual (Some 120000)
      (app_with_rent cash_purchase (App.break_even_rent mt)) = Ok mt' /\
    App.monthly_cash_flow mt' == 656 # 10 /\
    ~ App.monthly_cash_flow mt' == 0.
Proof.
  eexists. eexists.
  split; [vm_compute; reflexivity|].
  split; [vm_compute; reflexivity|].
  split; [vm_compute; reflexivity|].
  split; [vm_compute; reflexivity|].
  vm_compute. discriminate.
Qed.

(** C1 (amended): without manual overrides, the monthly cash flow at a rent R
    is R minus the break-even rent computed at R, and the cash flow obtained
    by feeding that break-even rent back in as the rent is the
    rent-proportional expense fraction times (R - break-even rent): it is 0
    when R already equals its break-even rent or when no expense is
    proportional to the rent.  This holds for [calculate_metrics] and for
    [scenario_outputs]. *)
Theorem break_even_round_trip :
  (forall (price_raw : option Q) (a : App.Assumptions),
      App.loan_term a <> 0%Z ->
      exists mt mt',
        App.calculate_metrics App.no_manual price_raw a = Ok mt /\
        App.calculate_metrics App.no_manual price_raw
          (app_with_rent a (App.break_even_rent mt)) = Ok mt' /\
        App.monthly_cash_flow mt == App.estimated_rent a - App.break_even_rent mt /\
        App.monthly_cash_flow mt' ==
          app_rent_fraction a * (App.estimated_rent a - App.break_even_rent mt)) /\
  (forall s : DashApp.Scenario,
      DashApp.loan_term s <> 0%Z ->
      exists o o',
        DashApp.scenario_metrics s = Ok o /\
        DashApp.scenario_metrics (dash_with_rent s (DashApp.break_even_rent o)) = Ok o' /\
        DashApp.monthly_cash_flow o == DashApp.monthly_rent s - DashApp.break_even_rent o /\
        DashApp.monthly_cash_flow o' ==
          dash_rent_fraction s * (DashApp.monthly_rent s - DashApp.break_even_rent o)).
Proof.
  split.
  - intros price_raw a Hn.
    destruct (monthly_payment_total
                (App.parse_price price_raw -
                 App.parse_price price_raw * (App.down_payment_pct a / 100))
                (App.interest_rate a / 100 / 12) (App.loan_term a * 12)) as [M HM]; [lia|].
    destruct (app_cash_flow_shape price_raw a M HM) as [mt [E [Hcf Hbe]]].
    destruct (app_cash_flow_shape price_raw (app_with_rent a (App.break_even_rent mt)) M HM)
      as [mt' [E' [Hcf' _]]].
    exists mt, mt'. repeat split; try assumption.
    + rewrite Hcf, Hbe. ring.
    + rewrite Hcf'. cbn [app_with_rent App.estimated_rent App.property_tax_rate
                         App.insurance_rate].
      change (app_rent_fraction (app_with_rent a (App.break_even_rent mt)))
        with (app_rent_fraction a).
      rewrite Hbe. ring.
  - intros s Hn.
    destruct (monthly_payment_total
                (DashApp.price_or_0 (DashApp.price s) -
                 DashApp.price_or_0 (DashApp.price s) * (DashApp.down_payment_pct s / 100))
                (DashApp.interest_rate s / 100 / 12) (DashApp.loan_term s * 12))
      as [M HM]; [lia|].
    destruct (dash_cash_flow_shape s M HM) as [o [E [Hcf Hbe]]].
    destruct (dash_cash_flow_shape (dash_with_rent s (DashApp.break_even_rent o)) M HM)
      as [o' [E' [Hcf' _]]].
    exists o, o'. repeat split; try assumption.
    + rewrite Hcf, Hbe. ring.
    + rewrite Hcf'. cbn [dash_with_rent DashApp.monthly_rent DashApp.property_tax_rate
                         DashApp.insurance_rate DashApp.price].
      change (dash_rent_fraction (dash_with_rent s (DashApp.break_even_rent o)))
        with (dash_rent_fraction s).
      rewrite Hbe. ring.
Qed.

Lemma break_even_round_trip_witness :
  exists mt mt',
    App.calculate_metrics App.no_manual (Some 200000) end_to_end = Ok mt /\
    App.calculate_metrics App.no_manual (Some 200000)
      (app_with_rent end_to_end (App.break_even_rent mt)) = Ok mt' /\
    App.monthly_cash_flow mt == App.estimated_rent end_to_end - App.break_even_rent mt /\
    App.monthly_cash_flow mt' ==
      app_rent_fraction end_to_end *
      (App.estimated_rent end_to_end - App.break_even_rent mt).
Proof.
  apply (proj1 break_even_round_trip (Some 200000) end_to_end).
  discriminate.
Defined.

(** ** C10: cash flow is increasing in the rent *)

(** C10: with the price, the financing and the expense rates fixed and no
    manual override, a higher rent gives a strictly higher monthly cash flow
    whenever the rent-proportional expense fractions sum to less than 1, in
    [calculate_metrics] and in [scenario_outputs]. *)
Theorem cash_flow_increasing_in_rent :
  (forall (price_raw : option Q) (a : App.Assumptions) (rent1 rent2 : Q),
      App.loan_term a <> 0%Z ->
      app_rent_fraction a < 1 ->
      rent1 < rent2 ->
      exists mt1 mt2,
        App.calculate_metrics App.no_manual price_raw (app_with_rent a rent1) = Ok mt1 /\
        App.calculate_metrics App.no_manual price_raw (app_with_rent a rent2) = Ok mt2 /\
        App.monthly_cash_flow mt1 < App.monthly_cash_flow mt2) /\
  (forall (s : DashApp.Scenario) (rent1 rent2 : Q),
      DashApp.loan_term s <> 0%Z ->
      dash_rent_fraction s < 1 ->
      rent1 < rent2 ->
      exists o1 o2,
        DashApp.scenario_metrics (dash_with_rent s rent1) = Ok o1 /\
        DashApp.scenario_metrics (dash_with_rent s rent2) = Ok o2 /\
        DashApp.monthly_cash_flow o1 < DashApp.monthly_cash_flow o2).
Proof.
  split.
  - intros price_raw a rent1 rent2 Hn Hk Hlt.
    destruct (monthly_payment_total
                (App.parse_price price_raw -
                 App.parse_price price_raw * (App.down_payment_pct a / 100))
                (App.interest_rate a / 100 / 12) (App.loan_term a * 12)) as [M HM]; [lia|].
    destruct (app_cash_flow_shape price_raw (app_with_rent a rent1) M HM) as [mt1 [E1 [H1 _]]].
    destruct (app_cash_flow_shape price_raw (app_with_rent a rent2) M HM) as [mt2 [E2 [H2 _]]].
    exists mt1, mt2. repeat split; try assumption.
    rewrite H1, H2.
    change (app_rent_fraction (app_with_rent a rent1)) with (app_rent_fraction a).
    change (app_rent_fraction (app_with_rent a rent2)) with (app_rent_fraction a).
    cbn [app_with_rent App.estimated_rent App.property_tax_rate App.insurance_rate].
    nra.
  - intros s rent1 rent2 Hn Hk Hlt.
    destruct (monthly_payment_total
                (DashApp.price_or_0 (DashApp.price s) -
                 DashApp.price_or_0 (DashApp.price s) * (DashApp.down_payment_pct s / 100))
                (DashApp.interest_rate s / 100 / 12) (DashApp.loan_term s * 12))
      as [M HM]; [lia|].
    destruct (dash_cash_flow_shape (dash_with_rent s rent1) M HM) as [o1 [E1 [H1 _]]].
    destruct (dash_cash_flow_shape (dash_with_rent s rent2) M HM) as [o2 [E2 [H2 _]]].
    exists o1, o2. repeat split; try assumption.
    rewrite H1, H2.
    change (dash_rent_fraction (dash_with_rent s rent1)) with (dash_rent_fraction s).
    change (dash_rent_fraction (dash_with_rent s rent2)) with (dash_rent_fraction s).
    cbn [dash_with_rent DashApp.monthly_rent DashApp.property_tax_rate
         DashApp.insurance_rate DashApp.price].
    nra.
Qed.

Lemma cash_flow_increasing_in_rent_witness :
  exists mt1 mt2,
    App.calculate_metrics App.no_manual (Some 200000) (app_with_rent end_to_end 1800)
    = Ok mt1 /\
    App.calculate_metrics App.no_manual (Some 200000) (app_with_rent end_to_end 1900)
    = Ok mt2 /\
    App.monthly_cash_flow mt1 < App.monthly_cash_flow mt2.
Proof.
  apply (proj1 cash_flow_increasing_in_rent (Some 200000) end_to_end 1800 1900).
  - discriminate.
  - reflexivity.
  - reflexivity.
Defined.

(** ** C7: the cap rate does not depend on the financing *)

(** C7: for a fixed price, rent, expense rates and overrides, changing the
    down payment, the interest rate, the loan term or the closing costs
    leaves the cap rate unchanged: it is NOI / price * 100 (0 when the price
    is not positive), NOI being the annual rent minus the operating expenses,
    debt service excluded.  This holds for [calculate_metrics] and for
    [scenario_outputs]. *)
Theorem cap_rate_financing_invariant :
  (forall (m : App.Manual) (price_raw : option Q) (a : App.Assumptions)
          (down1 rate1 : Q) (term1 : Z) (closing1 : Q)
          (down2 rate2 : Q) (term2 : Z) (closing2 : Q),
      term1 <> 0%Z -> term2 <> 0%Z ->
      exists mt1 mt2,
        App.calculate_metrics m price_raw (app_with_financing a down1 rate1 term1 closing1)
        = Ok mt1 /\
        App.calculate_metrics m price_raw (app_with_financing a down2 rate2 term2 closing2)
        = Ok mt2 /\
        App.cap_rate mt1 == App.cap_rate mt2 /\
        (0 < App.parse_price price_raw ->
         App.cap_rate mt1 ==
           (App.estimated_rent a * 12 -
            sum_expenses (App.overridden_expenses m
                            (App.computed_expenses (App.parse_price price_raw)
                                                   (App.estimated_rent a) a)))
           / App.parse_price price_raw * 100)) /\
  (forall (s : DashApp.Scenario)
          (down1 rate1 : Q) (term1 : Z) (closing1 : Q)
          (down2 rate2 : Q) (term2 : Z) (closing2 : Q),
      term1 <> 0%Z -> term2 <> 0%Z ->
      exists o1 o2,
        DashApp.scenario_metrics (dash_with_financing s down1 rate1 term1 closing1) = Ok o1 /\
        DashApp.scenario_metrics (dash_with_financing s down2 rate2 term2 closing2) = Ok o2 /\
        DashApp.cap_rate o1 == DashApp.cap_rate o2 /\
        (0 < DashApp.price_or_0 (DashApp.price s) ->
         DashApp.cap_rate o1 == DashApp.noi o1 / DashApp.price_or_0 (DashApp.price s) * 100) /\
        DashApp.noi o1 == DashApp.noi o2).
Proof.
  split.
  - intros m price_raw a down1 rate1 term1 closing1 down2 rate2 term2 closing2 Hn1 Hn2.
    destruct (monthly_payment_total
                (App.parse_price price_raw - App.parse_price price_raw * (down1 / 100))
                (rate1 / 100 / 12) (term1 * 12)) as [M1 HM1]; [lia|].
    destruct (monthly_payment_total
                (App.parse_price price_raw - App.parse_price price_raw * (down2 / 100))
                (rate2 / 100 / 12) (term2 * 12)) as [M2 HM2]; [lia|].
    pose proof (calculate_metrics_eq m price_raw
                  (app_with_financing a down1 rate1 term1 closing1) M1 HM1) as E1.
    pose proof (calculate_metrics_eq m price_raw
                  (app_with_financing a down2 rate2 term2 closing2) M2 HM2) as E2.
    rewrite metrics_block_eq in E1, E2.
    eexists. eexists. split; [exact E1|]. split; [exact E2|].
    cbn [App.cap_rate]. split.
    + reflexivity.
    + intro Hp. apply Qlt_bool_iff in Hp. rewrite Hp. reflexivity.
  - intros s down1 rate1 term1 closing1 down2 rate2 term2 closing2 Hn1 Hn2.
    destruct (monthly_payment_total
                (DashApp.price_or_0 (DashApp.price s) -
                 DashApp.price_or_0 (DashApp.price s) * (down1 / 100))
                (rate1 / 100 / 12) (term1 * 12)) as [M1 HM1]; [lia|].
    destruct (monthly_payment_total
                (DashApp.price_or_0 (DashApp.price s) -
                 DashApp.price_or_0 (DashApp.price s) * (down2 / 100))
                (rate2 / 100 / 12) (term2 * 12)) as [M2 HM2]; [lia|].
    pose proof (scenario_metrics_eq (dash_with_financing s down1 rate1 term1 closing1)
                  M1 HM1) as E1.
    pose proof (scenario_metrics_eq (dash_with_financing s down2 rate2 term2 closing2)
                  M2 HM2) as E2.
    eexists. eexists. split; [exact E1|]. split; [exact E2|].
    cbn [DashApp.cap_rate DashApp.noi]. split; [reflexivity|]. split; [|reflexivity].
    intro Hp. apply Qlt_bool_iff in Hp.
    cbn [dash_with_financing DashApp.price]. rewrite Hp. reflexivity.
Qed.

Lemma cap_rate_financing_invariant_witness :
  exists mt1 mt2,
    App.calculate_metrics App.no_manual (Some 200000)
      (app_with_financing end_to_end 20 5 30 3) = Ok mt1 /\
    App.calculate_metrics App.no_manual (Some 200000)
      (app_with_financing end_to_end 35 7 15 2) = Ok mt2 /\
    App.cap_rate mt1 == App.cap_rate mt2 /\
    (0 < App.parse_price (Some 200000) ->
     App.cap_rate mt1 ==
       (App.estimated_rent end_to_end * 12 -
        sum_expenses (App.overridden_expenses App.no_manual
                        (App.computed_expenses (App.parse_price (Some 200000))
                                               (App.estimated_rent end_to_end) end_to_end)))
       / App.parse_price (Some 200000) * 100).
Proof.
  apply (proj1 cap_rate_financing_invariant App.no_manual (Some 200000) end_to_end
               20 5 30%Z 3 35 7 15%Z 2); discriminate.
Defined.

(** ** C5: the payback period and its sentinel *)

(** C5, as stated, fails for a 0-year term, which [analyze_property] accepts:
    for $200,000 with 20% down at 5% the payment line divides by zero, so
    that no payback period is computed; [analyze_property] answers with its
    error response and [calculate_metrics] raises to its caller. *)
Lemma zero_term_raises_before_payback :
  Api.analyze_property zero_term_api = Api.Failure ZeroDivisionError /\
  App.calculate_metrics App.no_manual (Some 200000) (app_with_financing end_to_end 20 5 0 3)
  = Raise ZeroDivisionError.
Proof.
  split; vm_compute; reflexivity.
Qed.

(** C5 (amended): the guarded division of the payback step never raises, and
    no step after the payment line does: whenever the payment line has
    returned a payment [M], [calculate_metrics] (without a hold period) and
    [analyze_property] (once the fields of the request are converted)
    return; their monthly cash flow is rent - [M] - monthly expenses and
    their total upfront cost is down payment + closing costs; the payback
    period is the "never recovers" sentinel ([float('inf')]; sent as 999 by
    [analyze_property]) whenever that cash flow is not positive, and
    total upfront cost / annual cash flow when it is positive.  The payment
    line returns 0 when the loan or the rate is not positive; with a 0-year
    term, a positive loan and a positive rate it raises
    [ZeroDivisionError], and what it raises leaves [calculate_metrics] and
    becomes the error response of [analyze_property]. *)
Theorem payback_period_sentinel :
  (forall tuc acf : Q,
      App.payback tuc acf = Ok (if Qlt_bool 0 acf then Fin (tuc / acf) else Inf)) /\
  (forall tuc mcf : Q,
      Api.payback tuc mcf = Ok (if Qlt_bool 0 mcf then Fin (tuc / (mcf * 12)) else Inf)) /\
  (forall (m : App.Manual) (price_raw : option Q) (a : App.Assumptions) (M : Q),
      let price := App.parse_price price_raw in
      let down_payment := price * (App.down_payment_pct a / 100) in
      Amortization.monthly_payment (price - down_payment) (App.interest_rate a / 100 / 12)
                                   (App.loan_term a * 12) = Ok M ->
      exists mt,
        App.calculate_metrics m price_raw a = Ok mt /\
        App.monthly_cash_flow mt = App.estimated_rent a - M - app_monthly_expenses m price_raw a /\
        App.total_upfront_cost mt = down_payment + price * (App.closing_costs_pct a / 100) /\
        (App.monthly_cash_flow mt <= 0 -> App.payback_period mt = Inf) /\
        (App.monthly_cash_flow mt * 12 <= 0 -> App.payback_period mt = Inf) /\
        (0 < App.monthly_cash_flow mt * 12 ->
         App.payback_period mt =
           Fin (App.total_upfront_cost mt / (App.monthly_cash_flow mt * 12)))) /\
  (forall (d : Api.Request) (M : Q),
      let price := Api.price d in
      let down_payment := price * (Api.down_payment_pct d / 100) in
      Amortization.monthly_payment (price - down_payment) (Api.interest_rate d / 100 / 12)
                                   (Api.loan_term d * 12) = Ok M ->
      exists r,
        Api.analyze_property d = Api.Success r /\
        Api.monthlyCashFlow r =
          Api.resolve_rent price (Api.predicted_rent d) - M - api_monthly_expenses d /\
        (Api.monthlyCashFlow r <= 0 -> Api.paybackPeriod r = 999) /\
        (0 < Api.monthlyCashFlow r ->
         Api.paybackPeriod r =
           (down_payment + price * (Api.closing_costs_pct d / 100))
           / (Api.monthlyCashFlow r * 12))) /\
  (forall (P r : Q) (t : Z),
      (P <= 0 \/ r <= 0 -> Amortization.monthly_payment P r (t * 12) = Ok 0) /\
      (t = 0%Z -> 0 < P -> 0 < r ->
       Amortization.monthly_payment P r (t * 12) = Raise ZeroDivisionError)) /\
  (forall (m : App.Manual) (price_raw : option Q) (a : App.Assumptions) (e : exn),
      let price := App.parse_price price_raw in
      Amortization.monthly_payment (price - price * (App.down_payment_pct a / 100))
                                   (App.interest_rate a / 100 / 12)
                                   (App.loan_term a * 12) = Raise e ->
      App.calculate_metrics m price_raw a = Raise e) /\
  (forall (d : Api.Request) (e : exn),
      Amortization.monthly_payment
        (Api.price d - Api.price d * (Api.down_payment_pct d / 100))
        (Api.interest_rate d / 100 / 12) (Api.loan_term d * 12) = Raise e ->
      Api.analyze_property d = Api.Failure e).
Proof.
  split; [exact app_payback_eq|].
  split; [exact api_payback_eq|].
  split; [|split; [|split; [|split]]].
  - intros m price_raw a M price down_payment HM.
    pose proof (calculate_metrics_eq m price_raw a M HM) as E.
    rewrite metrics_block_eq in E. fold price in E. fold down_payment in E.
    eexists. split; [exact E|].
    cbn [App.monthly_cash_flow App.payback_period App.total_upfront_cost].
    split; [reflexivity|]. split; [reflexivity|].
    repeat split.
    + intro H.
      match goal with
      | |- (if Qlt_bool 0 (?x * 12) then _ else _) = _ =>
          assert (H' : x * 12 <= 0) by lra; apply Qlt_bool_false_iff in H'; now rewrite H'
      end.
    + intro H. apply Qlt_bool_false_iff in H. now rewrite H.
    + intro H. apply Qlt_bool_iff in H. now rewrite H.
  - intros d M price down_payment HM.
    pose proof (analyze_body_eq d M HM) as E.
    unfold Api.analyze_property. rewrite E.
    eexists. split; [reflexivity|].
    cbn [Api.monthlyCashFlow Api.paybackPeriod].
    split; [reflexivity|].
    split.
    + intro H. apply Qlt_bool_false_iff in H. now rewrite H.
    + intro H. apply Qlt_bool_iff in H. now rewrite H.
  - intros P r t. split.
    + apply monthly_payment_zero_case.
    + intros -> HP Hr. unfold Amortization.monthly_payment.
      apply Qlt_bool_iff in HP, Hr. rewrite HP, Hr. cbn [andb].
      apply pydiv_raises. cbn. ring.
  - intros m price_raw a e price HM.
    unfold App.calculate_metrics. fold price. now rewrite HM.
  - intros d e HM.
    unfold Api.analyze_property, Api.analyze_body. now rewrite HM.
Qed.

Lemma payback_period_sentinel_witness :
  (exists mt,
      App.calculate_metrics App.no_manual (Some 120000) cash_purchase = Ok mt /\
      App.payback_period mt =
        Fin (App.total_upfront_cost mt / (App.monthly_cash_flow mt * 12))) /\
  (exists mt,
      App.calculate_metrics App.no_manual (Some 120000) (app_with_rent cash_purchase 100)
      = Ok mt /\
      App.payback_period mt = Inf).
Proof.
  split.
  - destruct (proj1 (proj2 (proj2 payback_period_sentinel))
                App.no_manual (Some 120000) cash_purchase 0) as [mt [E [_ [_ [_ [_ H]]]]]];
      [reflexivity|].
    exists mt. split; [exact E|]. apply H.
    vm_compute in E. injection E as <-. reflexivity.
  - destruct (proj1 (proj2 (proj2 payback_period_sentinel))
                App.no_manual (Some 120000) (app_with_rent cash_purchase 100) 0)
      as [mt [E [_ [_ [H _]]]]]; [reflexivity|].
    exists mt. split; [exact E|]. apply H.
    vm_compute in E. injection E as <-. discriminate.
Defined.

(** ** C6: the minimum rent for the cap-rate threshold *)

Lemma int_of_float_inject_Z (z : Z) : int_of_float (inject_Z z) = z.
Proof.
  unfold int_of_float.
  destruct (Qlt_bool (inject_Z z) 0); [apply Qceiling_Z | apply Qfloor_Z].
Qed.

(** C6, as stated, fails in the dashboard: for the $120,000 cash purchase
    with a 1% tax rate, [scenario_outputs] reports a minimum rent of $600,
    where the formula of the claim gives (7200 + 1200) / 12 = $700. *)
Lemma dash_min_rent_ignores_expense_rates :
  exists o,
    DashApp.scenario_metrics cash_purchase_dash = Ok o /\
    DashApp.needed_rent_for_cap_rate (DashApp.needed o) == 600 /\
    (DashApp.BUY_THRESHOLD_CAP_RATE / 100 * 120000 +
     dash_expense_rate_fraction cash_purchase_dash * 120000) / 12 == 700 /\
    ~ DashApp.needed_rent_for_cap_rate (DashApp.needed o) ==
      (DashApp.BUY_THRESHOLD_CAP_RATE / 100 * 120000 +
       dash_expense_rate_fraction cash_purchase_dash * 120000) / 12.
Proof.
  eexists. split; [vm_compute; reflexivity|].
  split; [vm_compute; reflexivity|].
  split; [vm_compute; reflexivity|].
  vm_compute. discriminate.
Qed.

(** C6 (amended): when [run_analysis] of app.py does not recommend a Buy, the
    minimum rent it reports for the cap-rate threshold is
    (6/100 * price + f * price) / 12, with price the integer [safe_int] reads
    (the price itself when it is a whole number) and f the sum of the tax,
    insurance, maintenance, capital-reserves and vacancy rates as fractions;
    [needed_numbers] of dash_app.py reports (6/100 * price) / 12. *)
Theorem min_rent_for_cap_rate :
  (forall (price_raw : option Q) (a : App.Assumptions) (mt : App.Metrics),
      Qlt_bool App.buy_threshold_cap_rate (App.cap_rate mt) &&
      Qlt_bool App.buy_threshold_cash_flow (App.monthly_cash_flow mt) = false ->
      exists v g,
        App.recommendation price_raw a mt = (v, Some g) /\
        App.needed_rent_for_cap_rate g ==
          (App.buy_threshold_cap_rate / 100 * inject_Z (App.safe_int price_raw 0) +
           expense_rate_fraction a * inject_Z (App.safe_int price_raw 0)) / 12 /\
        (forall z : Z, price_raw = Some (inject_Z z) ->
           App.needed_rent_for_cap_rate g ==
             (App.buy_threshold_cap_rate / 100 * inject_Z z +
              expense_rate_fraction a * inject_Z z) / 12)) /\
  (forall cap_rate cash_flow break_even_rent price : Q,
      DashApp.needed_rent_for_cap_rate
        (DashApp.needed_numbers cap_rate cash_flow break_even_rent price)
      == (DashApp.BUY_THRESHOLD_CAP_RATE / 100 * price) / 12).
Proof.
  split.
  - intros price_raw a mt Hnb. unfold App.recommendation. rewrite Hnb.
    eexists. eexists. split; [reflexivity|].
    cbn [App.needed_rent_for_cap_rate]. split; [reflexivity|].
    intros z ->. cbn [App.safe_int]. rewrite int_of_float_inject_Z. reflexivity.
  - intros. reflexivity.
Qed.

Lemma min_rent_for_cap_rate_witness :
  exists mt v g,
    App.calculate_metrics App.no_manual (Some 120000) (app_with_rent cash_purchase 100)
    = Ok mt /\
    App.recommendation (Some 120000) cash_purchase mt = (v, Some g) /\
    App.needed_rent_for_cap_rate g == 700.
Proof.
  assert (E : exists mt,
             App.calculate_metrics App.no_manual (Some 120000)
               (app_with_rent cash_purchase 100) = Ok mt)
    by (eexists; vm_compute; reflexivity).
  destruct E as [mt E]. exists mt.
  destruct (proj1 min_rent_for_cap_rate (Some 120000) cash_purchase mt)
    as [v [g [R [_ H]]]].
  { vm_compute in E. injection E as <-. reflexivity. }
  exists v, g. split; [exact E|]. split; [exact R|].
  rewrite (H 120000%Z eq_refl). vm_compute. reflexivity.
Defined.

(** ** Amortization: the month-by-month iteration *)

(** One more month at the end of the loop. *)
Lemma amortize_S (n : nat) (r M paid bal : Q) :
  Amortization.amortize (S n) r M paid bal =
  let '(p, b) := Amortization.amortize n r M paid bal in
  (p + (M - b * r), b - (M - b * r)).
Proof.
  revert paid bal. induction n as [|n IH]; intros paid bal.
  - reflexivity.
  - change (Amortization.amortize (S (S n)) r M paid bal)
      with (Amortization.amortize (S n) r M
              (paid + Amortization.month_principal r M bal)
              (bal - Amortization.month_principal r M bal)).
    rewrite IH. reflexivity.
Qed.

(** The principal paid so far and the balance always add up to the loan. *)
Lemma amortize_conservation (n : nat) (r M paid bal : Q) :
  fst (Amortization.amortize n r M paid bal) + snd (Amortization.amortize n r M paid bal)
  == paid + bal.
Proof.
  revert paid bal. induction n as [|n IH]; intros paid bal.
  - reflexivity.
  - cbn [Amortization.amortize]. rewrite IH. ring.
Qed.

(** The amount paid is the sum of the monthly principal components. *)
Lemma amortize_paid_sum (n : nat) (r M paid bal : Q) :
  fst (Amortization.amortize n r M paid bal) == paid + Qsum (principal_schedule n r M bal).
Proof.
  revert paid bal. induction n as [|n IH]; intros paid bal.
  - cbn. ring.
  - cbn [Amortization.amortize principal_schedule Qsum fold_right].
    rewrite IH. unfold Amortization.month_principal, Qsum. ring.
Qed.

(** The balance after [k] months, for any payment. *)
Lemma balance_recurrence (k : nat) (r M paid P : Q) :
  0 < r ->
  snd (Amortization.amortize k r M paid P)
  == P * (1 + r) ^ Z.of_nat k - M * ((1 + r) ^ Z.of_nat k - 1) / r.
Proof.
  intro Hr. induction k as [|k IH].
  - cbn. field. lra.
  - rewrite amortize_S.
    destruct (Amortization.amortize k r M paid P) as [p b]. cbn [snd] in *.
    rewrite Nat2Z.inj_succ. unfold Z.succ.
    rewrite Qpower_plus by lra. rewrite IH.
    change ((1 + r) ^ 1) with (1 + r). field. lra.
Qed.

Section Annuity.

(** A loan of [P] at the monthly rate [r] over [N] months. *)
Variables (P r : Q) (N : nat).
Hypothesis HP : 0 < P.
Hypothesis Hr : 0 < r.
Hypothesis HN : (0 < N)%nat.

Lemma annuity_payment : Amortization.monthly_payment P r (Z.of_nat N) = Ok (annuity P r N).
Proof.
  apply monthly_payment_positive_case; [assumption | assumption | lia].
Qed.

Lemma growth_gt_1 : 1 < (1 + r) ^ Z.of_nat N.
Proof. apply Qpower_1_lt; [lra | lia]. Qed.

Lemma growth_pos (k : nat) : 0 < (1 + r) ^ Z.of_nat k.
Proof. apply Qpower_0_lt. lra. Qed.

Lemma annuity_payment_pos : 0 < (annuity P r N).
Proof.
  unfold annuity. pose proof growth_gt_1 as H.
  set (g := (1 + r) ^ Z.of_nat N) in *. clearbody g.
  apply Qlt_shift_div_l; [lra|].
  assert (0 < P * (r * g)) by (repeat apply Qmult_lt_0_compat; lra). lra.
Qed.

(** The balance after [k] months of the annuity. *)
Lemma annuity_balance (k : nat) (paid : Q) :
  snd (Amortization.amortize k r (annuity P r N) paid P)
  == P * ((1 + r) ^ Z.of_nat N - (1 + r) ^ Z.of_nat k) / ((1 + r) ^ Z.of_nat N - 1).
Proof.
  rewrite balance_recurrence by assumption. unfold annuity.
  pose proof growth_gt_1 as H. field. split; lra.
Qed.

(** The principal component of month [k + 1]. *)
Lemma annuity_principal (k : nat) (paid : Q) :
  (annuity P r N) - snd (Amortization.amortize k r (annuity P r N) paid P) * r
  == P * r * (1 + r) ^ Z.of_nat k / ((1 + r) ^ Z.of_nat N - 1).
Proof.
  rewrite annuity_balance. unfold annuity.
  pose proof growth_gt_1 as H. field. lra.
Qed.

Lemma annuity_principal_pos (k : nat) (paid : Q) :
  0 < (annuity P r N) - snd (Amortization.amortize k r (annuity P r N) paid P) * r.
Proof.
  rewrite annuity_principal.
  pose proof growth_gt_1 as H. pose proof (growth_pos k) as H0.
  set (g := (1 + r) ^ Z.of_nat N) in *. clearbody g.
  set (gk := (1 + r) ^ Z.of_nat k) in *. clearbody gk.
  apply Qlt_shift_div_l; [lra|].
  assert (0 < P * r * gk) by (repeat apply Qmult_lt_0_compat; lra). lra.
Qed.

(** The balance decreases every month. *)
Lemma annuity_balance_decreasing (k : nat) (paid : Q) :
  snd (Amortization.amortize (S k) r (annuity P r N) paid P) < snd (Amortization.amortize k r (annuity P r N) paid P).
Proof.
  pose proof (annuity_principal_pos k paid) as H.
  rewrite amortize_S.
  destruct (Amortization.amortize k r (annuity P r N) paid P) as [p b]. cbn [snd] in *. lra.
Qed.

(** It stays non-negative up to the last payment. *)
Lemma annuity_balance_nonneg (k : nat) (paid : Q) :
  (k <= N)%nat -> 0 <= snd (Amortization.amortize k r (annuity P r N) paid P).
Proof.
  intro Hk. rewrite annuity_balance.
  pose proof growth_gt_1 as H.
  assert (Hle : (1 + r) ^ Z.of_nat k <= (1 + r) ^ Z.of_nat N)
    by (apply Qpower_le_compat_l; [lia | lra]).
  set (g := (1 + r) ^ Z.of_nat N) in *. clearbody g.
  set (gk := (1 + r) ^ Z.of_nat k) in *. clearbody gk.
  apply Qle_shift_div_l; [lra|].
  assert (0 <= P * (g - gk)) by (apply Qmult_le_0_compat; lra). lra.
Qed.

Lemma annuity_balance_final (paid : Q) :
  snd (Amortization.amortize N r (annuity P r N) paid P) == 0.
Proof.
  rewrite annuity_balance. pose proof growth_gt_1 as H. field. lra.
Qed.

(** One month past the term the unclamped balance is minus one payment. *)
Lemma annuity_balance_overshoot (paid : Q) :
  snd (Amortization.amortize (S N) r (annuity P r N) paid P) == - (annuity P r N).
Proof.
  rewrite annuity_balance. unfold annuity.
  rewrite Nat2Z.inj_succ. unfold Z.succ. rewrite Qpower_plus by lra.
  change ((1 + r) ^ 1) with (1 + r).
  pose proof growth_gt_1 as H. field. lra.
Qed.

End Annuity.

(** ** The equity loop and its [break] *)

(** While the balance has not gone negative the loop is the plain iteration. *)
Lemma equity_loop_no_break (k : nat) (r M eq bal : Q) :
  (forall j, (1 <= j <= k)%nat -> 0 <= snd (Amortization.amortize j r M eq bal)) ->
  Amortization.equity_loop k r M eq bal = Amortization.amortize k r M eq bal.
Proof.
  revert eq bal. induction k as [|k IH]; intros eq bal H.
  - reflexivity.
  - cbn [Amortization.equity_loop Amortization.amortize].
    assert (H1 : 0 <= bal - Amortization.month_principal r M bal)
      by (apply (H 1%nat); lia).
    apply Qlt_bool_false_iff in H1. rewrite H1.
    apply IH. intros j Hj. apply (H (S j)). lia.
Qed.

(** It stops right after the first month that leaves a negative balance. *)
Lemma equity_loop_break (n k : nat) (r M eq bal : Q) :
  (forall j, (1 <= j <= n)%nat -> 0 <= snd (Amortization.amortize j r M eq bal)) ->
  snd (Amortization.amortize (S n) r M eq bal) < 0 ->
  (n < k)%nat ->
  Amortization.equity_loop k r M eq bal = Amortization.amortize (S n) r M eq bal.
Proof.
  revert k eq bal. induction n as [|n IH]; intros k eq bal Hpos Hneg Hk.
  - destruct k as [|k]; [lia|].
    cbn [Amortization.equity_loop Amortization.amortize snd] in *.
    apply Qlt_bool_iff in Hneg. rewrite Hneg. reflexivity.
  - destruct k as [|k]; [lia|].
    cbn [Amortization.equity_loop].
    assert (H1 : 0 <= bal - Amortization.month_principal r M bal)
      by (apply (Hpos 1%nat); lia).
    apply Qlt_bool_false_iff in H1. rewrite H1.
    change (Amortization.amortize (S (S n)) r M eq bal)
      with (Amortization.amortize (S n) r M
              (eq + Amortization.month_principal r M bal)
              (bal - Amortization.month_principal r M bal)).
    apply IH.
    + intros j Hj. apply (Hpos (S j)). lia.
    + exact Hneg.
    + lia.
Qed.

(** For a loan of [N] months and a horizon of more than [N] months, the
    equity loop ends one month past the term: the balance is minus one
    payment and the equity is the loan plus one payment. *)
Lemma equity_loop_overshoot (P r : Q) (N k : nat) :
  0 < P -> 0 < r -> (0 < N)%nat -> (N < k)%nat ->
  exists M e b,
    Amortization.monthly_payment P r (Z.of_nat N) = Ok M /\
    Amortization.equity_loop k r M 0 P = (e, b) /\
    0 < M /\ b == - M /\ b < 0 /\ e == P + M /\ P < e.
Proof.
  intros HP Hr HN Hk.
  pose proof (annuity_payment P r N HP Hr HN) as HM.
  pose proof (annuity_payment_pos P r N HP Hr HN) as HMpos.
  pose proof (annuity_balance_overshoot P r N Hr HN 0) as Hov.
  pose proof (annuity_balance_nonneg P r N HP Hr HN) as Hnn.
  set (M := annuity P r N) in *.
  assert (E : Amortization.equity_loop k r M 0 P = Amortization.amortize (S N) r M 0 P).
  { apply equity_loop_break; [|lra|assumption].
    intros j Hj. apply Hnn. lia. }
  pose proof (amortize_conservation (S N) r M 0 P) as Hc.
  destruct (Amortization.amortize (S N) r M 0 P) as [e b] eqn:Ea. cbn [fst snd] in *.
  exists M, e, b. repeat split; try assumption; lra.
Qed.

(** Within the term, the iteration satisfies the three amortization
    properties, and the equity loop does not break. *)
Lemma amortization_within_term (P r : Q) (N n : nat) :
  0 < P -> 0 < r -> (0 < N)%nat -> (n <= N)%nat ->
  exists M paid bal,
    Amortization.monthly_payment P r (Z.of_nat N) = Ok M /\
    Amortization.amortize n r M 0 P = (paid, bal) /\
    Amortization.equity_loop n r M 0 P = (paid, bal) /\
    paid == P - bal /\
    0 <= bal /\
    snd (Amortization.amortize (S n) r M 0 P) < bal.
Proof.
  intros HP Hr HN Hn.
  pose proof (annuity_payment P r N HP Hr HN) as HM.
  pose proof (annuity_balance_nonneg P r N HP Hr HN) as Hnn.
  pose proof (annuity_balance_decreasing P r N HP Hr HN n 0) as Hdec.
  set (M := annuity P r N) in *.
  assert (E : Amortization.equity_loop n r M 0 P = Amortization.amortize n r M 0 P).
  { apply equity_loop_no_break. intros j Hj. apply Hnn. lia. }
  pose proof (amortize_conservation n r M 0 P) as Hc.
  specialize (Hnn n 0 Hn).
  destruct (Amortization.amortize n r M 0 P) as [paid bal] eqn:Ea. cbn [fst snd] in *.
  exists M, paid, bal. repeat split; try assumption. lra.
Qed.

(** The principal paid over the first months of an annuity is positive. *)
Lemma annuity_principal_paid_pos (P r : Q) (N k : nat) :
  0 < P -> 0 < r -> (0 < N)%nat -> (0 < k)%nat ->
  0 < Qsum (principal_schedule k r (annuity P r N) P).
Proof.
  intros HP Hr HN Hk.
  set (M := annuity P r N).
  assert (Hlt : snd (Amortization.amortize k r M 0 P) < P).
  { induction k as [|k IH]; [lia|].
    pose proof (annuity_balance_decreasing P r N HP Hr HN k 0) as Hd. fold M in Hd.
    destruct k as [|k].
    - cbn [Amortization.amortize snd] in Hd. exact Hd.
    - assert (Hk' : (0 < S k)%nat) by lia. specialize (IH Hk'). lra. }
  pose proof (amortize_conservation k r M 0 P) as Hc.
  pose proof (amortize_paid_sum k r M 0 P) as Hs.
  lra.
Qed.

(** ** C4: the amortization iteration *)

(** C4, the equity loop of app.py:561-569 at price $200,000, 20% down, 4%
    interest, a 15-year loan and the 16th projection year (192 months): the
    loop runs one month past the 180 payments, its balance ends negative, at
    minus one payment, and the equity it reports exceeds the $160,000
    borrowed by one payment. *)
Theorem equity_loop_balance_goes_negative :
  exists M e b,
    Amortization.monthly_payment (200000 - 200000 * 20 / 100) (4 / 100 / 12) (15 * 12)
    = Ok M /\
    Amortization.equity_loop (16 * 12) (4 / 100 / 12) M 0 (200000 - 200000 * 20 / 100)
    = (e, b) /\
    0 < M /\ b == - M /\ b < 0 /\ e == (200000 - 200000 * 20 / 100) + M /\
    200000 - 200000 * 20 / 100 < e.
Proof.
  apply (equity_loop_overshoot (200000 - 200000 * 20 / 100) (4 / 100 / 12) 180 192).
  - reflexivity.
  - reflexivity.
  - lia.
  - lia.
Qed.

(** ** C3: the first-year total ROI *)

(** C3, as stated, fails for [analyze_property]: in the end-to-end scenario
    its total ROI leaves out the principal paid in year one, which is
    positive. *)
Lemma api_total_roi_omits_principal :
  exists res M,
    Api.analyze_property end_to_end_api = Api.Success res /\
    Amortization.monthly_payment (200000 - 200000 * (20 / 100)) (5 / 100 / 12) (30 * 12)
    = Ok M /\
    ~ Api.totalROI res ==
      (Api.monthlyCashFlow res * 12 +
       Qsum (principal_schedule 12 (5 / 100 / 12) M (200000 - 200000 * (20 / 100))) +
       200000 * (3 # 100))
      / (200000 * (20 / 100) + 200000 * (3 / 100)) * 100.
Proof.
  pose proof (annuity_payment (200000 - 200000 * (20 / 100)) (5 / 100 / 12) 360
                eq_refl eq_refl ltac:(lia)) as HM.
  pose proof (annuity_principal_paid_pos (200000 - 200000 * (20 / 100)) (5 / 100 / 12)
                360 12 eq_refl eq_refl ltac:(lia) ltac:(lia)) as HS.
  change (Z.of_nat 360) with (30 * 12)%Z in *.
  set (M := annuity (200000 - 200000 * (20 / 100)) (5 / 100 / 12) 360) in *.
  clearbody M.
  pose proof (analyze_body_eq end_to_end_api M HM) as E.
  unfold Api.analyze_property. rewrite E. clear E.
  eexists. exists M. split; [reflexivity|]. split; [exact HM|].
  cbn [Api.totalROI Api.monthlyCashFlow end_to_end_api Api.price Api.down_payment_pct
       Api.closing_costs_pct].
  change (Qlt_bool 0 (200000 * (20 / 100) + 200000 * (3 / 100))) with true. cbv iota.
  set (paid := Qsum (principal_schedule 12 (5 / 100 / 12) M
                       (200000 - 200000 * (20 / 100)))) in *.
  clearbody paid.
  match goal with |- ~ (?x * 12 + _) / _ * 100 == _ => set (mcf := x) end.
  clearbody mcf. clear HM.
  setoid_replace (200000 * (20 / 100) + 200000 * (3 / 100)) with 46000 by reflexivity.
  intro H.
  assert (Hx : forall x y : Q, x / 46000 * 100 == y / 46000 * 100 -> x == y).
  { intros x y Hxy.
    setoid_replace x with (x / 46000 * 100 * 460) by field.
    rewrite Hxy. field. }
  apply Hx in H. lra.
Qed.

(** C3 (amended): in [calculate_metrics] of app.py, whenever the total
    upfront cost is positive, the first-year total ROI is
    (annual cash flow + principal paid in year one + price * 0.03)
    / total upfront cost * 100, the principal paid being the sum of the
    principal components of the first 12 amortization months (0 when there is
    no loan or no interest).  [analyze_property] of api.py computes
    (annual cash flow + price * 0.03) / total upfront cost * 100, and
    [calculate_roi] of utils/analysis.py
    (annual cash flow + 0.03 * down_payment) / down_payment * 100. *)
Theorem total_roi_formula :
  (forall (m : App.Manual) (price_raw : option Q) (a : App.Assumptions),
      let price := App.parse_price price_raw in
      let loan := price - price * (App.down_payment_pct a / 100) in
      let r := App.interest_rate a / 100 / 12 in
      let tuc := price * (App.down_payment_pct a / 100) +
                 price * (App.closing_costs_pct a / 100) in
      App.loan_term a <> 0%Z ->
      0 < tuc ->
      exists mt M,
        App.calculate_metrics m price_raw a = Ok mt /\
        Amortization.monthly_payment loan r (App.loan_term a * 12) = Ok M /\
        App.total_upfront_cost mt = tuc /\
        App.total_roi mt ==
          (App.monthly_cash_flow mt * 12 +
           (if Qlt_bool 0 loan && Qlt_bool 0 r
            then Qsum (principal_schedule 12 r M loan) else 0) +
           price * (3 # 100)) / tuc * 100) /\
  (forall d : Api.Request,
      let tuc := Api.price d * (Api.down_payment_pct d / 100) +
                 Api.price d * (Api.closing_costs_pct d / 100) in
      Api.loan_term d <> 0%Z ->
      0 < tuc ->
      exists res,
        Api.analyze_property d = Api.Success res /\
        Api.totalROI res ==
          (Api.monthlyCashFlow res * 12 + Api.price d * (3 # 100)) / tuc * 100) /\
  (forall monthly_cash_flow down_payment : Q,
      ~ down_payment == 0 ->
      exists roi,
        Analysis.calculate_roi monthly_cash_flow down_payment = Ok roi /\
        roi == (monthly_cash_flow * 12 + down_payment * (3 # 100)) / down_payment * 100).
Proof.
  split; [|split].
  - intros m price_raw a price loan r tuc Hn Htuc.
    destruct (monthly_payment_total loan r (App.loan_term a * 12)) as [M HM]; [lia|].
    pose proof (calculate_metrics_eq m price_raw a M HM) as E.
    rewrite metrics_block_eq in E.
    eexists. exists M. split; [exact E|]. split; [exact HM|].
    cbn [App.total_upfront_cost App.total_roi App.monthly_cash_flow].
    split; [reflexivity|].
    fold price. fold tuc. apply Qlt_bool_iff in Htuc. rewrite Htuc.
    unfold Amortization.principal_paid_yr1. fold loan. fold r.
    destruct (Qlt_bool 0 loan && Qlt_bool 0 r); [|reflexivity].
    rewrite amortize_paid_sum. rewrite Qplus_0_l. reflexivity.
  - intros d tuc Hn Htuc.
    destruct (monthly_payment_total
                (Api.price d - Api.price d * (Api.down_payment_pct d / 100))
                (Api.interest_rate d / 100 / 12) (Api.loan_term d * 12)) as [M HM]; [lia|].
    pose proof (analyze_body_eq d M HM) as E.
    unfold Api.analyze_property. rewrite E.
    eexists. split; [reflexivity|].
    cbn [Api.totalROI Api.monthlyCashFlow].
    fold tuc. apply Qlt_bool_iff in Htuc. rewrite Htuc. reflexivity.
  - intros mcf dp Hdp. unfold Analysis.calculate_roi.
    rewrite pydiv_ok by assumption. eexists. split; [reflexivity|]. reflexivity.
Qed.

Lemma total_roi_formula_witness :
  exists mt M,
    App.calculate_metrics App.no_manual (Some 200000) end_to_end = Ok mt /\
    Amortization.monthly_payment (200000 - 200000 * (20 / 100)) (5 / 100 / 12) (30 * 12)
    = Ok M /\
    App.total_upfront_cost mt = 200000 * (20 / 100) + 200000 * (3 / 100) /\
    App.total_roi mt ==
      (App.monthly_cash_flow mt * 12 +
       (if Qlt_bool 0 (200000 - 200000 * (20 / 100)) && Qlt_bool 0 (5 / 100 / 12)
        then Qsum (principal_schedule 12 (5 / 100 / 12) M (200000 - 200000 * (20 / 100)))
        else 0) +
       200000 * (3 # 100)) / (200000 * (20 / 100) + 200000 * (3 / 100)) * 100.
Proof.
  apply (proj1 total_roi_formula App.no_manual (Some 200000) end_to_end).
  - discriminate.
  - reflexivity.
Defined.

(** ** Sorting *)

Section Sorting.

Context {A : Type} (leb : A -> A -> bool).
Hypothesis leb_total : forall a b, leb a b = false -> leb b a = true.
Hypothesis leb_trans : forall a b c, leb a b = true -> leb b c = true -> leb a c = true.

Lemma insert_In (x y : A) (l : list A) :
  In y (Comps.insert leb x l) <-> y = x \/ In y l.
Proof.
  induction l as [|z l IH]; cbn.
  - intuition.
  - destruct (leb x z); cbn; [intuition|]. rewrite IH. intuition.
Qed.

Lemma sort_by_In (y : A) (l : list A) : In y (Comps.sort_by leb l) <-> In y l.
Proof.
  induction l as [|x l IH]; cbn; [reflexivity|].
  rewrite insert_In, IH. intuition.
Qed.

Lemma insert_sorted (x : A) (l : list A) :
  StronglySorted (ordered_by leb) l -> StronglySorted (ordered_by leb) (Comps.insert leb x l).
Proof.
  induction 1 as [|z l Hs IH Hall]; cbn.
  - constructor; constructor.
  - destruct (leb x z) eqn:E.
    + constructor; [constructor; assumption|].
      constructor; [exact E|].
      rewrite Forall_forall in *. intros y Hy. apply (leb_trans x z y E), Hall, Hy.
    + constructor; [exact IH|].
      rewrite Forall_forall in *. intros y Hy.
      apply insert_In in Hy. destruct Hy as [->|Hy].
      * apply leb_total, E.
      * apply Hall, Hy.
Qed.

Lemma sort_by_sorted (l : list A) : StronglySorted (ordered_by leb) (Comps.sort_by leb l).
Proof.
  induction l as [|x l IH]; cbn; [constructor | apply insert_sorted, IH].
Qed.

Lemma sorted_positions (l : list A) (i j : nat) (a b : A) :
  StronglySorted (ordered_by leb) l -> (i < j)%nat ->
  nth_error l i = Some a -> nth_error l j = Some b -> leb a b = true.
Proof.
  intros Hs. revert i j. induction Hs as [|z l Hs IH Hall]; intros i j Hij Ha Hb.
  - destruct i; discriminate.
  - destruct j as [|j]; [lia|]. cbn in Hb.
    destruct i as [|i].
    + cbn in Ha. injection Ha as ->.
      rewrite Forall_forall in Hall. apply Hall. eapply nth_error_In, Hb.
    + cbn in Ha. apply (IH i j); [lia | assumption | assumption].
Qed.

End Sorting.

(** ** The sort keys *)

Lemma key_leb_iff (a b : Comps.Ranked) : Comps.key_leb a b = true <-> key_le a b.
Proof.
  unfold Comps.key_leb, key_le.
  destruct (Qlt_bool (Comps.BedDiff a) (Comps.BedDiff b)) eqn:E1.
  { apply Qlt_bool_iff in E1. intuition. }
  apply Qlt_bool_false_iff in E1.
  destruct (Qlt_bool (Comps.BedDiff b) (Comps.BedDiff a)) eqn:E2.
  { apply Qlt_bool_iff in E2. split; [discriminate|]. intros [H|[H _]]; lra. }
  apply Qlt_bool_false_iff in E2.
  destruct (Qlt_bool (Comps.BathDiff a) (Comps.BathDiff b)) eqn:E3.
  { apply Qlt_bool_iff in E3. split; [|reflexivity]. intros _. right. split; [lra|]. now left. }
  apply Qlt_bool_false_iff in E3.
  destruct (Qlt_bool (Comps.BathDiff b) (Comps.BathDiff a)) eqn:E4.
  { apply Qlt_bool_iff in E4. split; [discriminate|].
    intros [H|[_ [H|[H _]]]]; lra. }
  apply Qlt_bool_false_iff in E4.
  rewrite Qle_bool_iff. split.
  - intro H. right. split; [lra|]. right. split; [lra | assumption].
  - intros [H|[_ [H|[_ H]]]]; [lra | lra | assumption].
Qed.

Lemma key_leb_total (a b : Comps.Ranked) :
  Comps.key_leb a b = false -> Comps.key_leb b a = true.
Proof.
  intro H. apply key_leb_iff.
  assert (Hn : ~ key_le a b) by (rewrite <- key_leb_iff; congruence).
  unfold key_le in *.
  destruct (Qlt_le_dec (Comps.BedDiff b) (Comps.BedDiff a)) as [L|L]; [now left|].
  destruct (Qlt_le_dec (Comps.BedDiff a) (Comps.BedDiff b)) as [L'|L'].
  { exfalso. apply Hn. now left. }
  right. split; [lra|].
  destruct (Qlt_le_dec (Comps.BathDiff b) (Comps.BathDiff a)) as [K|K]; [now left|].
  destruct (Qlt_le_dec (Comps.BathDiff a) (Comps.BathDiff b)) as [K'|K'].
  { exfalso. apply Hn. right. split; [lra|]. now left. }
  right. split; [lra|].
  destruct (Qlt_le_dec (Comps.PriceDiff a) (Comps.PriceDiff b)) as [J|J]; [|assumption].
  exfalso. apply Hn. right. split; [lra|]. right. split; lra.
Qed.

Lemma key_leb_trans (a b c : Comps.Ranked) :
  Comps.key_leb a b = true -> Comps.key_leb b c = true -> Comps.key_leb a c = true.
Proof.
  rewrite !key_leb_iff. unfold key_le.
  intros [H1|[H1 [H2|[H2 H3]]]] [K1|[K1 [K2|[K2 K3]]]];
    try (left; lra);
    try (right; split; [lra|]; left; lra);
    right; split; [lra|]; right; split; lra.
Qed.

Lemma sort_values_sorted (l : list Comps.Ranked) :
  StronglySorted (ordered_by Comps.key_leb) (Comps.sort_values l).
Proof.
  apply sort_by_sorted; [exact key_leb_total | exact key_leb_trans].
Qed.

(** ** The comparables step *)

Lemma bind_Ok_inv {A B : Type} (c : result A) (k : A -> result B) (b : B) :
  bind c k = Ok b -> exists a, c = Ok a /\ k a = Ok b.
Proof.
  destruct c as [a|e]; cbn; [|discriminate]. intro H. now exists a.
Qed.

Lemma mapM_In {A B : Type} (f : A -> result B) (l : list A) (l' : list B) (y : B) :
  Comps.mapM f l = Ok l' -> In y l' -> exists x, In x l /\ f x = Ok y.
Proof.
  revert l'. induction l as [|x l IH]; intros l' H Hy; cbn in H.
  - injection H as <-. destruct Hy.
  - apply bind_Ok_inv in H. destruct H as [z [Hz H]].
    apply bind_Ok_inv in H. destruct H as [t [Ht H]].
    injection H as <-. destruct Hy as [<-|Hy].
    + exists x. split; [now left | assumption].
    + destruct (IH t Ht Hy) as [x' [Hx' Hf]]. exists x'. split; [now right | assumption].
Qed.

Lemma sort_values_nil_or_sorted (l : list Comps.Ranked) :
  match l with [] => l | _ :: _ => Comps.sort_values l end = Comps.sort_values l.
Proof. destruct l; reflexivity. Qed.

(** What a successful run of the [try] body returns. *)
Lemma comps_try_Ok (df : Comps.DataFrame) (s : Comps.Subject) (o : Comps.Output) :
  Comps.comps_try df s = Ok o ->
  exists rows ranked,
    Comps.mapM (Comps.add_diffs (Comps.resolve_cols df) s) rows = Ok ranked /\
    Comps.filtered o = Comps.sort_values ranked /\
    Comps.table_cols o = Comps.table_cols_of (Comps.resolve_cols df) /\
    Comps.table_data o =
      match Comps.filtered o with
      | [] => Comps.no_comps_marker (Comps.table_cols o)
      | _ :: _ =>
          map (fun k => Comps.to_record (map snd (Comps.table_cols o)) (Comps.comp k))
              (Comps.filtered o)
      end.
Proof.
  unfold Comps.comps_try. intro H.
  apply bind_Ok_inv in H. destruct H as [rows1 [_ H]].
  apply bind_Ok_inv in H. destruct H as [rows2 [_ H]].
  apply bind_Ok_inv in H. destruct H as [rows3 [_ H]].
  apply bind_Ok_inv in H. destruct H as [rows4 [_ H]].
  apply bind_Ok_inv in H. destruct H as [ranked [Hr H]].
  injection H as <-. cbn [Comps.filtered Comps.table_cols Comps.table_data].
  exists rows4, ranked. rewrite sort_values_nil_or_sorted.
  repeat split; try assumption.
  destruct (Comps.sort_values ranked); reflexivity.
Qed.

Lemma diff_col_spec (col : option string) (v : option Q) (r : Comps.row) (d : Q) :
  Comps.diff_col col v r = Ok d ->
  forall c x, col = Some c -> v = Some x ->
              exists q, r c = Comps.Num q /\ d = Qabs (q - x).
Proof.
  intros H c x -> ->. cbn in H.
  destruct (r c) as [q|t]; cbn in H; [|discriminate].
  injection H as <-. now exists q.
Qed.

(** ** C8: the ranking of the comparables *)

(** C8: the comparables are ranked in ascending lexicographic order of
    (|beds diff|, |baths diff|, |price diff|): of two ranked rows with equal
    bed and bath differences, the one with the smaller price difference is
    the earlier one.  The three keys are the absolute differences from the
    subject whenever the column and the subject's value are there, and the
    displayed rows are the ranked ones in the same order. *)
Theorem comps_ranked_lexicographically (df : Comps.DataFrame) (s : Comps.Subject) :
  let out := Comps.scenario_comps df s in
  (forall i j a b,
      nth_error (Comps.filtered out) i = Some a ->
      nth_error (Comps.filtered out) j = Some b ->
      Comps.BedDiff a == Comps.BedDiff b ->
      Comps.BathDiff a == Comps.BathDiff b ->
      Comps.PriceDiff a < Comps.PriceDiff b ->
      (i < j)%nat) /\
  (forall i j a b,
      (i < j)%nat ->
      nth_error (Comps.filtered out) i = Some a ->
      nth_error (Comps.filtered out) j = Some b ->
      key_le a b) /\
  (forall a,
      In a (Comps.filtered out) ->
      (forall c x, Comps.beds_col (Comps.resolve_cols df) = Some c -> Comps.beds s = Some x ->
                   exists q, Comps.comp a c = Comps.Num q /\ Comps.BedDiff a = Qabs (q - x)) /\
      (forall c x, Comps.baths_col (Comps.resolve_cols df) = Some c -> Comps.baths s = Some x ->
                   exists q, Comps.comp a c = Comps.Num q /\ Comps.BathDiff a = Qabs (q - x)) /\
      (forall c x, Comps.price_col (Comps.resolve_cols df) = Some c -> Comps.price s = Some x ->
                   exists q, Comps.comp a c = Comps.Num q /\ Comps.PriceDiff a = Qabs (q - x))) /\
  (Comps.filtered out <> [] ->
   Comps.table_data out =
     map (fun k => Comps.to_record (map snd (Comps.table_cols out)) (Comps.comp k))
         (Comps.filtered out)).
Proof.
  intro out. unfold out, Comps.scenario_comps.
  destruct (Comps.comps_try df s) as [o|e] eqn:E.
  2:{ cbn [Comps.filtered]. repeat split.
      - intros i j a b Ha. destruct i; discriminate.
      - intros i j a b _ Ha. destruct i; discriminate.
      - destruct H.
      - destruct H.
      - destruct H.
      - intro H. now destruct H. }
  destruct (comps_try_Ok df s o E) as [rows [ranked [Hm [Hf [Hc Hd]]]]].
  assert (Hsorted : forall i j a b,
             (i < j)%nat ->
             nth_error (Comps.filtered o) i = Some a ->
             nth_error (Comps.filtered o) j = Some b ->
             key_le a b).
  { intros i j a b Hij Ha Hb. apply key_leb_iff.
    rewrite Hf in Ha, Hb.
    exact (sorted_positions Comps.key_leb (Comps.sort_values ranked) i j a b
             (sort_values_sorted ranked) Hij Ha Hb). }
  split; [|split; [exact Hsorted|split]].
  - intros i j a b Ha Hb Hbed Hbath Hprice.
    destruct (Nat.lt_ge_cases i j) as [Hij|Hji]; [assumption|exfalso].
    destruct (Nat.eq_dec i j) as [->|Hne].
    + rewrite Ha in Hb. injection Hb as ->. lra.
    + assert (Hlt : (j < i)%nat) by lia.
      pose proof (Hsorted j i b a Hlt Hb Ha) as Hk. unfold key_le in Hk.
      destruct Hk as [H|[_ [H|[_ H]]]]; lra.
  - intros a Ha. rewrite Hf in Ha.
    apply (proj1 (sort_by_In Comps.key_leb a ranked)) in Ha.
    destruct (mapM_In _ _ _ _ Hm Ha) as [r [_ Hr]].
    unfold Comps.add_diffs in Hr.
    apply bind_Ok_inv in Hr. destruct Hr as [bd [Hbd Hr]].
    apply bind_Ok_inv in Hr. destruct Hr as [ba [Hba Hr]].
    apply bind_Ok_inv in Hr. destruct Hr as [pd [Hpd Hr]].
    injection Hr as <-. cbn [Comps.comp Comps.BedDiff Comps.BathDiff Comps.PriceDiff].
    repeat split.
    + exact (diff_col_spec _ _ _ _ Hbd).
    + exact (diff_col_spec _ _ _ _ Hba).
    + exact (diff_col_spec _ _ _ _ Hpd).
  - intro Hne. rewrite Hd. destruct (Comps.filtered o); [congruence | reflexivity].
Qed.

Lemma comps_ranked_lexicographically_witness :
  exists a b,
    nth_error (Comps.filtered (Comps.scenario_comps four_sales subject_house)) 0 = Some a /\
    nth_error (Comps.filtered (Comps.scenario_comps four_sales subject_house)) 1 = Some b /\
    Comps.comp a "price"%string = Comps.Num 162000 /\
    Comps.comp b "price"%string = Comps.Num 170000 /\
    Comps.PriceDiff a < Comps.PriceDiff b /\
    (0 < 1)%nat.
Proof.
  eexists. eexists.
  split; [vm_compute; reflexivity|].
  split; [vm_compute; reflexivity|].
  split; [reflexivity|]. split; [reflexivity|]. split; [reflexivity|].
  eapply (proj1 (comps_ranked_lexicographically four_sales subject_house)).
  - vm_compute. reflexivity.
  - vm_compute. reflexivity.
  - reflexivity.
  - reflexivity.
  - reflexivity.
Defined.

(** ** The filters of the comparables step *)

Lemma filterM_between (col : string) (lo hi : Q) (rows : list Comps.row) :
  (forall r, In r rows -> exists q, r col = Comps.Num q) ->
  exists rows',
    Comps.filterM (Comps.between col lo hi) rows = Ok rows' /\
    forall r, In r rows' ->
              In r rows /\ exists q, r col = Comps.Num q /\ lo <= q /\ q <= hi.
Proof.
  induction rows as [|x rows IH]; intro Hnum.
  - exists []. split; [reflexivity|]. intros r [].
  - destruct IH as [rows' [E Hin]].
    { intros r Hr. apply Hnum. now right. }
    destruct (Hnum x (or_introl eq_refl)) as [q Hq].
    cbn [Comps.filterM]. unfold Comps.between at 1. rewrite Hq. cbn [Comps.num_of bind].
    rewrite E. cbn [bind].
    destruct (Qle_bool lo q && Qle_bool q hi) eqn:B.
    + exists (x :: rows'). split; [reflexivity|].
      intros r [<-|Hr].
      * split; [now left|]. exists q. apply andb_true_iff in B. destruct B as [B1 B2].
        apply Qle_bool_iff in B1, B2. auto.
      * destruct (Hin r Hr) as [H1 H2]. split; [now right | assumption].
    + exists rows'. split; [reflexivity|].
      intros r Hr. destruct (Hin r Hr) as [H1 H2]. split; [now right | assumption].
Qed.

Lemma filter_zip_spec (c : Comps.Cols) (s : Comps.Subject) (rows : list Comps.row)
      (r : Comps.row) :
  In r (Comps.filter_zip c s rows) ->
  In r rows /\
  forall zc z, Comps.zip_col c = Some zc -> Comps.zipcode s = Some z -> z <> EmptyString ->
               r zc = Comps.Str z.
Proof.
  unfold Comps.filter_zip.
  destruct (Comps.zip_col c) as [zc|]; [|intro H; split; [assumption | discriminate]].
  destruct (Comps.zipcode s) as [z|]; [|intro H; split; [assumption | discriminate]].
  destruct (String.eqb z "") eqn:Ez.
  - apply String.eqb_eq in Ez. intro H. split; [assumption|].
    intros zc' z' _ Hz Hne. injection Hz as <-. contradiction.
  - intro H. apply filter_In in H. destruct H as [Hin Hz]. split; [assumption|].
    intros zc' z' Hc Hz' _. injection Hc as <-. injection Hz' as <-.
    unfold Comps.cell_eqb in Hz. destruct (r zc) as [q|t]; [discriminate|].
    apply String.eqb_eq in Hz. now subst.
Qed.

(** One of the three numeric filters, whatever its bounds. *)
Lemma band_filter_spec (col : option string) (v : option Q) (lo hi : Q -> Q)
      (rows : list Comps.row) :
  (forall r c, In r rows -> col = Some c -> exists q, r c = Comps.Num q) ->
  exists rows',
    match col, v with
    | Some c, Some x => Comps.filterM (Comps.between c (lo x) (hi x)) rows
    | _, _ => Ok rows
    end = Ok rows' /\
    forall r, In r rows' -> In r rows /\ in_band col v lo hi r.
Proof.
  intro Hnum. unfold in_band.
  destruct col as [c|]; [destruct v as [x|]|].
  - destruct (filterM_between c (lo x) (hi x) rows) as [rows' [E H]].
    { intros r Hr. now apply (Hnum r c). }
    exists rows'. split; [exact E|].
    intros r Hr. destruct (H r Hr) as [H1 H2]. split; [assumption|].
    intros c' x' Hc Hx. injection Hc as <-. injection Hx as <-. exact H2.
  - exists rows. split; [reflexivity|]. intros r Hr. split; [assumption | discriminate].
  - exists rows. split; [reflexivity|]. intros r Hr. split; [assumption | discriminate].
Qed.

Lemma no_elements_nil {A : Type} (l : list A) : (forall x, ~ In x l) -> l = [].
Proof.
  destruct l as [|x l]; [reflexivity|]. intro H. exfalso. apply (H x). now left.
Qed.

Lemma remove_outliers_nil (c : Comps.Cols) : Comps.remove_outliers c [] = Ok [].
Proof.
  unfold Comps.remove_outliers.
  destruct (Comps.price_col c), (Comps.sqft_col c); reflexivity.
Qed.

(** The marker and the error notice are never the same table. *)
Lemma marker_is_not_error (cols : list (string * string)) (e : exn) :
  Comps.no_comps_marker cols <> Comps.comps_error_notice e.
Proof.
  unfold Comps.no_comps_marker, Comps.comps_error_notice.
  destruct cols as [|[name id] cols]; cbn; intro H; injection H; intros; discriminate.
Qed.

(** ** C9: the "no comparables" result *)

(** C9, as stated, fails for a missing column: a frame without a sqft column
    does not give the "no comparables" result; the sqft filter is skipped and
    the sale that matches on beds and baths is returned. *)
Lemma missing_column_still_returns_rows :
  Comps.sqft_col (Comps.resolve_cols no_sqft_frame) = None /\
  Comps.table_data (Comps.scenario_comps no_sqft_frame subject_house) =
    [[("price"%string, Comps.Num 150000); ("beds"%string, Comps.Num 3);
      ("baths"%string, Comps.Num 2)]] /\
  Comps.table_data (Comps.scenario_comps no_sqft_frame subject_house) <>
    Comps.no_comps_marker (Comps.table_cols (Comps.scenario_comps no_sqft_frame subject_house)).
Proof.
  split; [reflexivity|]. split; [vm_compute; reflexivity|].
  vm_compute. discriminate.
Qed.

(** C9 (amended): when no row of the frame satisfies the zip, beds, baths and
    sqft criteria on the columns the frame has (its numeric columns holding
    numbers), the comparables step returns the explicit
    "No comparable properties found." table, which is never the "Comps error"
    notice; and no exception leaves the step: a run that raises returns the
    "Comps error" notice, any other run returns the marker or the ranked
    rows.  A missing column does not give the marker: its filter is
    skipped. *)
Theorem no_comparables_result (df : Comps.DataFrame) (s : Comps.Subject) :
  let c := Comps.resolve_cols df in
  let out := Comps.scenario_comps df s in
  (numeric_columns df ->
   (forall r, In r (Comps.records df) -> ~ meets_criteria c s r) ->
   Comps.table_data out = Comps.no_comps_marker (Comps.table_cols_of c) /\
   Comps.table_cols out = Comps.table_cols_of c /\
   Comps.filtered out = [] /\
   forall e, Comps.table_data out <> Comps.comps_error_notice e) /\
  ((exists e, Comps.comps_try df s = Raise e /\
              Comps.table_data out = Comps.comps_error_notice e /\
              Comps.table_cols out = [] /\ Comps.filtered out = []) \/
   (exists o, Comps.comps_try df s = Ok o /\ out = o /\
              (Comps.table_data o = Comps.no_comps_marker (Comps.table_cols o) \/
               (Comps.filtered o <> [] /\
                Comps.table_data o =
                  map (fun k => Comps.to_record (map snd (Comps.table_cols o)) (Comps.comp k))
                      (Comps.filtered o))))).
Proof.
  intros c out. split.
  - intros Hnum Hnone.
    assert (Hcols : forall r col, In r (Comps.records df) ->
               In (Some col) [Comps.beds_col c; Comps.baths_col c; Comps.sqft_col c] ->
               exists q, r col = Comps.Num q) by exact Hnum.
    set (rows0 := Comps.filter_zip c s (Comps.records df)).
    assert (H0 : forall r, In r rows0 ->
               In r (Comps.records df) /\
               forall zc z, Comps.zip_col c = Some zc -> Comps.zipcode s = Some z ->
                            z <> EmptyString -> r zc = Comps.Str z)
      by (intros r Hr; now apply filter_zip_spec).
    destruct (band_filter_spec (Comps.beds_col c) (Comps.beds s)
                (fun b => b - 1) (fun b => b + 1) rows0) as [rows1 [E1 H1]].
    { intros r col Hr Hc. apply Hcols; [now apply H0 | rewrite Hc; now left]. }
    destruct (band_filter_spec (Comps.baths_col c) (Comps.baths s)
                (fun b => b - 1) (fun b => b + 1) rows1) as [rows2 [E2 H2]].
    { intros r col Hr Hc. apply Hcols; [now apply H0, H1 | rewrite Hc; right; now left]. }
    destruct (band_filter_spec (Comps.sqft_col c) (Comps.sqft s)
                (fun x => x * (8 # 10)) (fun x => x * (12 # 10)) rows2) as [rows3 [E3 H3]].
    { intros r col Hr Hc.
      apply Hcols; [now apply H0, H1, H2 | rewrite Hc; right; right; now left]. }
    assert (Hnil : rows3 = []).
    { apply no_elements_nil. intros r Hr.
      destruct (H3 r Hr) as [Hr2 Hsq]. destruct (H2 r Hr2) as [Hr1 Hba].
      destruct (H1 r Hr1) as [Hr0 Hbe]. destruct (H0 r Hr0) as [Hrec Hz].
      apply (Hnone r Hrec). unfold meets_criteria. auto. }
    subst rows3.
    assert (E : Comps.comps_try df s =
                Ok {| Comps.table_cols := Comps.table_cols_of c;
                      Comps.table_data := Comps.no_comps_marker (Comps.table_cols_of c);
                      Comps.filtered := [] |}).
    { unfold Comps.comps_try. fold c. fold rows0.
      change (Comps.filter_beds c s rows0)
        with (match Comps.beds_col c, Comps.beds s with
              | Some bc, Some b => Comps.filterM (Comps.between bc (b - 1) (b + 1)) rows0
              | _, _ => Ok rows0
              end).
      rewrite E1. cbn [bind].
      change (Comps.filter_baths c s rows1)
        with (match Comps.baths_col c, Comps.baths s with
              | Some bc, Some b => Comps.filterM (Comps.between bc (b - 1) (b + 1)) rows1
              | _, _ => Ok rows1
              end).
      rewrite E2. cbn [bind].
      change (Comps.filter_sqft c s rows2)
        with (match Comps.sqft_col c, Comps.sqft s with
              | Some sc, Some x =>
                  Comps.filterM (Comps.between sc (x * (8 # 10)) (x * (12 # 10))) rows2
              | _, _ => Ok rows2
              end).
      rewrite E3. cbn [bind].
      rewrite remove_outliers_nil. cbn [bind Comps.mapM map]. reflexivity. }
    unfold out, Comps.scenario_comps. rewrite E.
    cbn [Comps.table_data Comps.table_cols Comps.filtered].
    repeat split. intro e. apply marker_is_not_error.
  - unfold out, Comps.scenario_comps.
    destruct (Comps.comps_try df s) as [o|e] eqn:E.
    + right. exists o. split; [reflexivity|]. split; [reflexivity|].
      destruct (comps_try_Ok df s o E) as [rows [ranked [_ [_ [_ Hd]]]]].
      destruct (Comps.filtered o) as [|k l] eqn:Ef.
      * now left.
      * right. split; [discriminate | exact Hd].
    + left. exists e. cbn. auto.
Qed.

Lemma no_comparables_result_witness :
  Comps.table_data (Comps.scenario_comps four_sales subject_mansion) =
    Comps.no_comps_marker (Comps.table_cols_of (Comps.resolve_cols four_sales)) /\
  Comps.table_cols (Comps.scenario_comps four_sales subject_mansion) =
    Comps.table_cols_of (Comps.resolve_cols four_sales) /\
  Comps.filtered (Comps.scenario_comps four_sales subject_mansion) = [] /\
  forall e, Comps.table_data (Comps.scenario_comps four_sales subject_mansion) <>
            Comps.comps_error_notice e.
Proof.
  apply (proj1 (no_comparables_result four_sales subject_mansion)).
  - intros r col Hr Hcol.
    cbn in Hr. cbn in Hcol.
    destruct Hcol as [Hc|[Hc|[Hc|[]]]]; injection Hc as <-;
      destruct Hr as [<-|[<-|[<-|[<-|[]]]]]; eexists; reflexivity.
  - intros r Hr [_ [Hb _]].
    destruct (Hb "beds"%string 8 eq_refl eq_refl) as [q [Hq [Hlo _]]].
    cbn in Hr.
    destruct Hr as [<-|[<-|[<-|[<-|[]]]]]; cbn in Hq; injection Hq as <-;
      apply Hlo; reflexivity.
Defined.

(* ================================================================== *)
(** * Further properties of the metrics *)

(** ** Manual overrides *)

Lemma override_set (manual computed : Q) : 0 < manual -> App.override manual computed = manual.
Proof.
  intro H. unfold App.override. apply Qlt_bool_iff in H. now rewrite H.
Qed.

(** X1: when the six manual monthly values are set, the cash flow, the
    break-even rent and the cap rate of [calculate_metrics] are those of the
    manual values alone: the computed expenses, and with them the expense
    rates, play no part, and the six [overridden] flags are raised. *)
Theorem manual_overrides_take_precedence
        (m : App.Manual) (price_raw : option Q) (a : App.Assumptions) :
  all_overridden m ->
  App.loan_term a <> 0%Z ->
  exists mt M,
    App.calculate_metrics m price_raw a = Ok mt /\
    Amortization.monthly_payment
      (App.parse_price price_raw - App.parse_price price_raw * (App.down_payment_pct a / 100))
      (App.interest_rate a / 100 / 12) (App.loan_term a * 12) = Ok M /\
    App.monthly_cash_flow mt == App.estimated_rent a - M - manual_total m /\
    App.break_even_rent mt == M + manual_total m /\
    (0 < App.parse_price price_raw ->
     App.cap_rate mt ==
       (App.estimated_rent a * 12 - 12 * manual_total m) / App.parse_price price_raw * 100) /\
    App.overridden mt = all_flags.
Proof.
  intros (H1 & H2 & H3 & H4 & H5 & H6) Hn.
  destruct (monthly_payment_total
              (App.parse_price price_raw -
               App.parse_price price_raw * (App.down_payment_pct a / 100))
              (App.interest_rate a / 100 / 12) (App.loan_term a * 12)) as [M HM]; [lia|].
  pose proof (calculate_metrics_eq m price_raw a M HM) as E.
  rewrite metrics_block_eq in E.
  eexists. exists M. split; [exact E|]. split; [exact HM|].
  cbn [App.monthly_cash_flow App.break_even_rent App.cap_rate App.overridden].
  unfold sum_expenses, App.overridden_expenses, manual_total.
  cbn [App.annual_property_tax App.annual_insurance App.annual_management
       App.annual_maintenance App.annual_capital_reserves App.annual_vacancy].
  rewrite !override_set by assumption.
  repeat split.
  - field.
  - field.
  - intro Hp. pose proof Hp as Hb. apply Qlt_bool_iff in Hb. rewrite Hb. field. lra.
  - unfold App.overridden_flags, all_flags.
    apply Qlt_bool_iff in H1, H2, H3, H4, H5, H6.
    now rewrite H1, H2, H3, H4, H5, H6.
Qed.

Lemma manual_overrides_take_precedence_witness :
  exists mt M,
    App.calculate_metrics sample_overrides (Some 200000) end_to_end = Ok mt /\
    Amortization.monthly_payment
      (App.parse_price (Some 200000) -
       App.parse_price (Some 200000) * (App.down_payment_pct end_to_end / 100))
      (App.interest_rate end_to_end / 100 / 12) (App.loan_term end_to_end * 12) = Ok M /\
    App.monthly_cash_flow mt == App.estimated_rent end_to_end - M - manual_total sample_overrides /\
    App.break_even_rent mt == M + manual_total sample_overrides /\
    (0 < App.parse_price (Some 200000) ->
     App.cap_rate mt ==
       (App.estimated_rent end_to_end * 12 - 12 * manual_total sample_overrides)
       / App.parse_price (Some 200000) * 100) /\
    App.overridden mt = all_flags.
Proof.
  apply manual_overrides_take_precedence.
  - repeat split.
  - discriminate.
Defined.

(** X2: when management, maintenance, capital reserves and vacancy are
    overridden, the break-even rent of [calculate_metrics] no longer depends
    on the rent: every rent gives the same break-even rent [B], the monthly
    cash flow at a rent is that rent minus [B], and at the rent [B] it is
    exactly 0. *)
Theorem break_even_fixed_point_with_overrides
        (m : App.Manual) (price_raw : option Q) (a : App.Assumptions) :
  0 < App.manual_management m -> 0 < App.manual_maintenance m ->
  0 < App.manual_capital_reserves m -> 0 < App.manual_vacancy m ->
  App.loan_term a <> 0%Z ->
  exists B,
    (forall rent, exists mt,
        App.calculate_metrics m price_raw (app_with_rent a rent) = Ok mt /\
        App.break_even_rent mt == B /\
        App.monthly_cash_flow mt == rent - B) /\
    (exists mt,
        App.calculate_metrics m price_raw (app_with_rent a B) = Ok mt /\
        App.break_even_rent mt == B /\
        App.monthly_cash_flow mt == 0).
Proof.
  intros H3 H4 H5 H6 Hn.
  destruct (monthly_payment_total
              (App.parse_price price_raw -
               App.parse_price price_raw * (App.down_payment_pct a / 100))
              (App.interest_rate a / 100 / 12) (App.loan_term a * 12)) as [M HM]; [lia|].
  set (price := App.parse_price price_raw) in *.
  exists (M +
          (App.override (App.manual_property_tax m)
                        (price * (App.property_tax_rate a / 100) / 12) +
           App.override (App.manual_insurance m)
                        (price * (App.insurance_rate a / 100) / 12)) +
          App.manual_management m + App.manual_maintenance m +
          App.manual_capital_reserves m + App.manual_vacancy m).
  assert (Hall : forall rent, exists mt,
             App.calculate_metrics m price_raw (app_with_rent a rent) = Ok mt /\
             App.break_even_rent mt ==
               M +
               (App.override (App.manual_property_tax m)
                             (price * (App.property_tax_rate a / 100) / 12) +
                App.override (App.manual_insurance m)
                             (price * (App.insurance_rate a / 100) / 12)) +
               App.manual_management m + App.manual_maintenance m +
               App.manual_capital_reserves m + App.manual_vacancy m /\
             App.monthly_cash_flow mt ==
               rent -
               (M +
                (App.override (App.manual_property_tax m)
                              (price * (App.property_tax_rate a / 100) / 12) +
                 App.override (App.manual_insurance m)
                              (price * (App.insurance_rate a / 100) / 12)) +
                App.manual_management m + App.manual_maintenance m +
                App.manual_capital_reserves m + App.manual_vacancy m)).
  { intro rent.
    pose proof (calculate_metrics_eq m price_raw (app_with_rent a rent) M HM) as E.
    rewrite metrics_block_eq in E.
    eexists. split; [exact E|].
    cbn [App.monthly_cash_flow App.break_even_rent].
    unfold sum_expenses, App.overridden_expenses, App.computed_expenses.
    cbn [App.annual_property_tax App.annual_insurance App.annual_management
         App.annual_maintenance App.annual_capital_reserves App.annual_vacancy
         app_with_rent App.estimated_rent
         App.property_tax_rate App.insurance_rate App.maintenance_rate
         App.capital_reserves_rate App.vacancy_mode App.vacancy_months App.vacancy_rate].
    fold price.
    rewrite !(override_set (App.manual_management m)) by assumption.
    rewrite !(override_set (App.manual_maintenance m)) by assumption.
    rewrite !(override_set (App.manual_capital_reserves m)) by assumption.
    rewrite !(override_set (App.manual_vacancy m)) by assumption.
    set (tax := App.override (App.manual_property_tax m) _).
    set (ins := App.override (App.manual_insurance m) _).
    split; field. }
  split; [exact Hall|].
  match goal with
  | |- exists mt, App.calculate_metrics m price_raw (app_with_rent a ?B) = _ /\ _ =>
      destruct (Hall B) as [mt [E [Hb Hc]]]
  end.
  exists mt. split; [exact E|]. split; [exact Hb|]. rewrite Hc. ring.
Qed.

Lemma break_even_fixed_point_with_overrides_witness :
  exists mt1 mt2,
    App.calculate_metrics sample_overrides (Some 200000) (app_with_rent end_to_end 1800)
    = Ok mt1 /\
    App.calculate_metrics sample_overrides (Some 200000) (app_with_rent end_to_end 2500)
    = Ok mt2 /\
    App.break_even_rent mt1 == App.break_even_rent mt2.
Proof.
  destruct (break_even_fixed_point_with_overrides sample_overrides (Some 200000) end_to_end)
    as [B [H _]]; try reflexivity; [discriminate|].
  destruct (H 1800) as [mt1 [E1 [B1 _]]].
  destruct (H 2500) as [mt2 [E2 [B2 _]]].
  exists mt1, mt2. split; [exact E1|]. split; [exact E2|].
  now rewrite B1, B2.
Defined.

(** ** Where the metrics can fail *)

Lemma monthly_payment_zero_term (P r : Q) :
  0 < P -> 0 < r -> Amortization.monthly_payment P r 0 = Raise ZeroDivisionError.
Proof.
  intros HP Hr. unfold Amortization.monthly_payment.
  apply Qlt_bool_iff in HP, Hr. rewrite HP, Hr. cbn [andb].
  apply pydiv_raises. cbn. ring.
Qed.

(** X3: in the three metrics computations the payment line is the only step
    that can fail (in [calculate_metrics] without a hold period, in
    [analyze_property] once the fields of the request are converted): each
    raises exactly what the payment line raises, [analyze_property] as its
    error response, and returns its result whenever the payment line returns.
    The payment line returns 0 when the loan or the rate is not positive,
    whatever the term, and raises [ZeroDivisionError] for a 0-year term with
    a positive loan and a positive rate. *)
Theorem payment_line_is_the_only_failure :
  (forall (m : App.Manual) (price_raw : option Q) (a : App.Assumptions),
      let price := App.parse_price price_raw in
      let payment :=
        Amortization.monthly_payment (price - price * (App.down_payment_pct a / 100))
          (App.interest_rate a / 100 / 12) (App.loan_term a * 12) in
      (forall e, App.calculate_metrics m price_raw a = Raise e <-> payment = Raise e) /\
      ((exists mt, App.calculate_metrics m price_raw a = Ok mt) <->
       (exists M, payment = Ok M))) /\
  (forall d : Api.Request,
      let payment :=
        Amortization.monthly_payment
          (Api.price d - Api.price d * (Api.down_payment_pct d / 100))
          (Api.interest_rate d / 100 / 12) (Api.loan_term d * 12) in
      (forall e, Api.analyze_property d = Api.Failure e <-> payment = Raise e) /\
      ((exists res, Api.analyze_property d = Api.Success res) <->
       (exists M, payment = Ok M))) /\
  (forall s : DashApp.Scenario,
      let price := DashApp.price_or_0 (DashApp.price s) in
      let payment :=
        Amortization.monthly_payment (price - price * (DashApp.down_payment_pct s / 100))
          (DashApp.interest_rate s / 100 / 12) (DashApp.loan_term s * 12) in
      (forall e, DashApp.scenario_metrics s = Raise e <-> payment = Raise e) /\
      ((exists o, DashApp.scenario_metrics s = Ok o) <-> (exists M, payment = Ok M))) /\
  (forall (P r : Q) (t : Z),
      (P <= 0 \/ r <= 0 -> Amortization.monthly_payment P r (t * 12) = Ok 0) /\
      (t = 0%Z -> 0 < P -> 0 < r ->
       Amortization.monthly_payment P r (t * 12) = Raise ZeroDivisionError)).
Proof.
  split; [|split; [|split]].
  - intros m price_raw a price payment.
    destruct payment as [M|e0] eqn:HM; unfold payment in HM.
    + rewrite (calculate_metrics_eq m price_raw a M HM), metrics_block_eq. split.
      * intro e. split; discriminate.
      * split; intros _; eexists; reflexivity.
    + assert (E : App.calculate_metrics m price_raw a = Raise e0).
      { unfold App.calculate_metrics. fold price. now rewrite HM. }
      rewrite E. split.
      * intro e. split; intro H; injection H as <-; reflexivity.
      * split; intros [x Hx]; discriminate.
  - intros d payment.
    destruct payment as [M|e0] eqn:HM; unfold payment in HM.
    + unfold Api.analyze_property. rewrite (analyze_body_eq d M HM). split.
      * intro e. split; discriminate.
      * split; intros _; eexists; reflexivity.
    + assert (E : Api.analyze_property d = Api.Failure e0).
      { unfold Api.analyze_property, Api.analyze_body. now rewrite HM. }
      rewrite E. split.
      * intro e. split; intro H; injection H as <-; reflexivity.
      * split; intros [x Hx]; discriminate.
  - intros s price payment.
    destruct payment as [M|e0] eqn:HM; unfold payment in HM.
    + rewrite (scenario_metrics_eq s M HM). split.
      * intro e. split; discriminate.
      * split; intros _; eexists; reflexivity.
    + assert (E : DashApp.scenario_metrics s = Raise e0).
      { unfold DashApp.scenario_metrics. fold price. now rewrite HM. }
      rewrite E. split.
      * intro e. split; intro H; injection H as <-; reflexivity.
      * split; intros [x Hx]; discriminate.
  - intros P r t. split.
    + apply monthly_payment_zero_case.
    + intros -> HP Hr. now apply monthly_payment_zero_term.
Qed.

Lemma payment_line_is_the_only_failure_witness :
  Api.analyze_property zero_term_api = Api.Failure ZeroDivisionError /\
  exists res, Api.analyze_property end_to_end_api = Api.Success res.
Proof.
  split.
  - apply (proj2 (proj1 (proj1 (proj2 payment_line_is_the_only_failure) zero_term_api)
                        ZeroDivisionError)).
    apply (proj2 (proj2 (proj2 (proj2 payment_line_is_the_only_failure))
                    (200000 - 200000 * (20 / 100)) (5 / 100 / 12) 0%Z));
      reflexivity.
  - apply (proj2 (proj2 (proj1 (proj2 payment_line_is_the_only_failure) end_to_end_api))).
    eexists. vm_compute. reflexivity.
Defined.

(** ** The three entry points agree *)

(** X4: on the same price, rent, financing and expense rates (percent
    vacancy, no manual override, a positive rent, a loan term other than 0),
    [calculate_metrics], [scenario_outputs] and [analyze_property] return the
    same monthly cash flow, cap rate, cash-on-cash return and break-even
    rent. *)
Theorem entry_points_agree (price_raw : option Q) (a : App.Assumptions) :
  App.vacancy_mode a = App.percent ->
  0 < App.estimated_rent a ->
  App.loan_term a <> 0%Z ->
  exists mt o res,
    App.calculate_metrics App.no_manual price_raw a = Ok mt /\
    DashApp.scenario_metrics (dash_of_app price_raw a) = Ok o /\
    Api.analyze_property (api_of_app price_raw a) = Api.Success res /\
    App.monthly_cash_flow mt == DashApp.monthly_cash_flow o /\
    App.monthly_cash_flow mt == Api.monthlyCashFlow res /\
    App.cap_rate mt == DashApp.cap_rate o /\
    App.cap_rate mt == Api.capRate res /\
    App.cash_on_cash mt == DashApp.cash_on_cash o /\
    App.cash_on_cash mt == Api.cashOnCash res /\
    App.break_even_rent mt == DashApp.break_even_rent o /\
    App.break_even_rent mt == Api.breakEvenRent res.
Proof.
  intros Hmode Hrent Hn.
  destruct (monthly_payment_total
              (App.parse_price price_raw -
               App.parse_price price_raw * (App.down_payment_pct a / 100))
              (App.interest_rate a / 100 / 12) (App.loan_term a * 12)) as [M HM]; [lia|].
  pose proof (calculate_metrics_eq App.no_manual price_raw a M HM) as E1.
  rewrite metrics_block_eq in E1.
  pose proof (scenario_metrics_eq (dash_of_app price_raw a) M HM) as E2.
  pose proof (analyze_body_eq (api_of_app price_raw a) M HM) as E3.
  eexists. eexists. eexists.
  split; [exact E1|]. split; [exact E2|].
  split; [unfold Api.analyze_property; rewrite E3; reflexivity|].
  cbn [App.monthly_cash_flow App.cap_rate App.cash_on_cash App.break_even_rent
       DashApp.monthly_cash_flow DashApp.cap_rate DashApp.cash_on_cash
       DashApp.break_even_rent Api.monthlyCashFlow Api.capRate Api.cashOnCash
       Api.breakEvenRent].
  cbn [dash_of_app api_of_app DashApp.price DashApp.down_payment_pct
       DashApp.property_tax_rate DashApp.insurance_rate DashApp.maintenance_rate
       DashApp.capital_reserves_rate DashApp.vacancy_rate DashApp.closing_costs_pct
       DashApp.monthly_rent Api.price Api.down_payment_pct Api.property_tax_rate
       Api.insurance_rate Api.maintenance_rate Api.capital_reserves_rate Api.vacancy_rate
       Api.closing_costs_pct Api.predicted_rent Api.resolve_rent].
  apply Qlt_bool_iff in Hrent. rewrite Hrent.
  change (DashApp.price_or_0 price_raw) with (App.parse_price price_raw).
  unfold sum_expenses, App.overridden_expenses, App.computed_expenses, App.no_manual.
  cbn [App.annual_property_tax App.annual_insurance App.annual_management
       App.annual_maintenance App.annual_capital_reserves App.annual_vacancy
       App.manual_property_tax App.manual_insurance App.manual_management
       App.manual_maintenance App.manual_capital_reserves App.manual_vacancy].
  rewrite !override_unset. rewrite Hmode.
  set (price := App.parse_price price_raw). clearbody price.
  set (tuc := price * (App.down_payment_pct a / 100) +
              price * (App.closing_costs_pct a / 100)).
  clear E1 E2 E3 HM.
  repeat split; try field.
  - destruct (Qlt_bool 0 price) eqn:Ep; [|reflexivity].
    apply Qlt_bool_iff in Ep. field. lra.
  - destruct (Qlt_bool 0 price) eqn:Ep; [|reflexivity].
    apply Qlt_bool_iff in Ep. field. lra.
  - destruct (Qlt_bool 0 tuc) eqn:Et; [|reflexivity].
    apply Qlt_bool_iff in Et. field. lra.
  - destruct (Qlt_bool 0 tuc) eqn:Et; [|reflexivity].
    apply Qlt_bool_iff in Et. field. lra.
Qed.

Lemma entry_points_agree_witness :
  exists mt o res,
    App.calculate_metrics App.no_manual (Some 200000) end_to_end = Ok mt /\
    DashApp.scenario_metrics (dash_of_app (Some 200000) end_to_end) = Ok o /\
    Api.analyze_property (api_of_app (Some 200000) end_to_end) = Api.Success res /\
    App.monthly_cash_flow mt == DashApp.monthly_cash_flow o /\
    App.monthly_cash_flow mt == Api.monthlyCashFlow res /\
    App.cap_rate mt == DashApp.cap_rate o /\
    App.cap_rate mt == Api.capRate res /\
    App.cash_on_cash mt == DashApp.cash_on_cash o /\
    App.cash_on_cash mt == Api.cashOnCash res /\
    App.break_even_rent mt == DashApp.break_even_rent o /\
    App.break_even_rent mt == Api.breakEvenRent res.
Proof.
  apply entry_points_agree; [reflexivity | reflexivity | discriminate].
Defined.

(** ** Coverage ratios of the dashboard *)

Lemma ratio_ge_1 (x d : Q) : 0 < d -> (1 <= x / d <-> d <= x).
Proof.
  intro Hd. split; intro H.
  - assert (E : x == x / d * d) by (field; lra).
    assert (L : 1 * d <= x / d * d) by (apply Qmult_le_compat_r; lra).
    rewrite Qmult_1_l in L. apply (Qle_trans _ _ _ L). rewrite <- E. apply Qle_refl.
  - apply Qle_shift_div_l; lra.
Qed.

Lemma ratio_le_1 (x d : Q) : 0 < d -> (x / d <= 1 <-> x <= d).
Proof.
  intro Hd. split; intro H.
  - assert (E : x == x / d * d) by (field; lra).
    assert (L : x / d * d <= 1 * d) by (apply Qmult_le_compat_r; lra).
    rewrite Qmult_1_l in L. apply (fun H => Qle_trans _ _ _ H L). rewrite <- E. apply Qle_refl.
  - apply Qle_shift_div_r; lra.
Qed.

(** X5: in [scenario_outputs] the annual cash flow is the NOI minus the
    annual debt service; with a mortgage payment, the debt service coverage
    ratio is at least 1 exactly when the monthly cash flow is not negative,
    and with a positive rent the break-even occupancy is at most 1 in exactly
    that case, and is the operating expense ratio plus debt service over
    gross rent. *)
Theorem dash_coverage_ratios (s : DashApp.Scenario) :
  DashApp.loan_term s <> 0%Z ->
  exists o,
    DashApp.scenario_metrics s = Ok o /\
    DashApp.monthly_cash_flow o * 12 == DashApp.noi o - DashApp.monthly_payment o * 12 /\
    (0 < DashApp.monthly_payment o ->
     (1 <= DashApp.dscr o <-> 0 <= DashApp.monthly_cash_flow o)) /\
    (0 < DashApp.monthly_rent s ->
     (DashApp.break_even_occupancy o <= 1 <-> 0 <= DashApp.monthly_cash_flow o) /\
     DashApp.break_even_occupancy o ==
       DashApp.operating_expense_ratio o +
       DashApp.monthly_payment o * 12 / (DashApp.monthly_rent s * 12)).
Proof.
  intro Hn.
  destruct (monthly_payment_total
              (DashApp.price_or_0 (DashApp.price s) -
               DashApp.price_or_0 (DashApp.price s) * (DashApp.down_payment_pct s / 100))
              (DashApp.interest_rate s / 100 / 12) (DashApp.loan_term s * 12))
    as [M HM]; [lia|].
  pose proof (scenario_metrics_eq s M HM) as E. cbv zeta in E.
  eexists. split; [exact E|]. clear E HM.
  cbn [DashApp.monthly_cash_flow DashApp.noi DashApp.monthly_payment DashApp.dscr
       DashApp.break_even_occupancy DashApp.operating_expense_ratio].
  set (price := DashApp.price_or_0 (DashApp.price s)). clearbody price.
  set (rent := DashApp.monthly_rent s). clearbody rent.
  set (ae := price * (DashApp.property_tax_rate s / 100) +
             price * (DashApp.insurance_rate s / 100) +
             rent * (8 # 100) * 12 + rent * (DashApp.maintenance_rate s / 100) * 12 +
             rent * (DashApp.capital_reserves_rate s / 100) * 12 +
             rent * (DashApp.vacancy_rate s / 100) * 12).
  clearbody ae.
  split; [field|]. split.
  - intro HMpos.
    assert (Hd : 0 < M * 12) by lra.
    pose proof Hd as Hb. apply Qlt_bool_iff in Hb. rewrite Hb.
    rewrite (ratio_ge_1 (rent * 12 - ae) (M * 12) Hd).
    split; intro H.
    + setoid_replace (rent - M - ae / 12) with ((rent * 12 - ae - M * 12) / 12) by field.
      apply Qle_shift_div_l; lra.
    + assert (H' : 0 <= (rent - M - ae / 12) * 12) by (apply Qmult_le_0_compat; lra).
      setoid_replace ((rent - M - ae / 12) * 12) with (rent * 12 - ae - M * 12) in H'
        by field.
      lra.
  - intro Hrent.
    assert (Hd : 0 < rent * 12) by lra.
    pose proof Hrent as Hb. apply Qlt_bool_iff in Hb. rewrite Hb.
    split; [|field; lra].
    rewrite (ratio_le_1 (ae + M * 12) (rent * 12) Hd).
    split; intro H.
    + setoid_replace (rent - M - ae / 12) with ((rent * 12 - ae - M * 12) / 12) by field.
      apply Qle_shift_div_l; lra.
    + assert (H' : 0 <= (rent - M - ae / 12) * 12) by (apply Qmult_le_0_compat; lra).
      setoid_replace ((rent - M - ae / 12) * 12) with (rent * 12 - ae - M * 12) in H'
        by field.
      lra.
Qed.

Lemma dash_coverage_ratios_witness :
  exists o,
    DashApp.scenario_metrics end_to_end_dash = Ok o /\
    DashApp.monthly_cash_flow o * 12 == DashApp.noi o - DashApp.monthly_payment o * 12 /\
    (0 < DashApp.monthly_payment o ->
     (1 <= DashApp.dscr o <-> 0 <= DashApp.monthly_cash_flow o)) /\
    (0 < DashApp.monthly_rent end_to_end_dash ->
     (DashApp.break_even_occupancy o <= 1 <-> 0 <= DashApp.monthly_cash_flow o) /\
     DashApp.break_even_occupancy o ==
       DashApp.operating_expense_ratio o +
       DashApp.monthly_payment o * 12 / (DashApp.monthly_rent end_to_end_dash * 12)).
Proof.
  apply dash_coverage_ratios. discriminate.
Defined.

(** ** Payback period and cash-on-cash return *)

(** X6: in [calculate_metrics], with a positive total upfront cost, a
    positive cash flow gives a finite payback period whose product with the
    cash-on-cash percentage is 100 (payback = 100 / cash-on-cash), and a cash
    flow that is not positive gives the infinite payback together with a
    cash-on-cash return that is not positive. *)
Theorem payback_is_inverse_cash_on_cash
        (m : App.Manual) (price_raw : option Q) (a : App.Assumptions) :
  App.loan_term a <> 0%Z ->
  0 < App.parse_price price_raw * (App.down_payment_pct a / 100) +
      App.parse_price price_raw * (App.closing_costs_pct a / 100) ->
  exists mt,
    App.calculate_metrics m price_raw a = Ok mt /\
    (0 < App.monthly_cash_flow mt ->
     exists years, App.payback_period mt = Fin years /\
                   0 < years /\ years * App.cash_on_cash mt == 100) /\
    (App.monthly_cash_flow mt <= 0 ->
     App.payback_period mt = Inf /\ App.cash_on_cash mt <= 0).
Proof.
  intros Hn Htuc.
  destruct (monthly_payment_total
              (App.parse_price price_raw -
               App.parse_price price_raw * (App.down_payment_pct a / 100))
              (App.interest_rate a / 100 / 12) (App.loan_term a * 12)) as [M HM]; [lia|].
  pose proof (calculate_metrics_eq m price_raw a M HM) as E.
  rewrite metrics_block_eq in E. cbv zeta in E.
  eexists. split; [exact E|]. clear E HM.
  cbn [App.monthly_cash_flow App.payback_period App.cash_on_cash].
  set (tuc := App.parse_price price_raw * (App.down_payment_pct a / 100) +
              App.parse_price price_raw * (App.closing_costs_pct a / 100)) in *.
  clearbody tuc.
  match goal with |- (0 < ?x -> _) /\ _ => set (mcf := x) end. clearbody mcf.
  pose proof Htuc as Hb. apply Qlt_bool_iff in Hb. rewrite Hb.
  split; intro H.
  - assert (Hacf : 0 < mcf * 12) by lra.
    pose proof Hacf as Hc. apply Qlt_bool_iff in Hc. rewrite Hc.
    eexists. split; [reflexivity|]. split.
    + apply Qlt_shift_div_l; lra.
    + field. split; lra.
  - assert (Hacf : mcf * 12 <= 0) by lra.
    pose proof Hacf as Hc. apply Qlt_bool_false_iff in Hc. rewrite Hc.
    split; [reflexivity|].
    setoid_replace (mcf * 12 / tuc * 100) with (- ((- mcf * 1200) / tuc)) by (field; lra).
    assert (0 <= (- mcf * 1200) / tuc) by (apply Qle_shift_div_l; lra). lra.
Qed.

Lemma payback_is_inverse_cash_on_cash_witness :
  exists mt,
    App.calculate_metrics App.no_manual (Some 200000) end_to_end = Ok mt /\
    (0 < App.monthly_cash_flow mt ->
     exists years, App.payback_period mt = Fin years /\
                   0 < years /\ years * App.cash_on_cash mt == 100) /\
    (App.monthly_cash_flow mt <= 0 ->
     App.payback_period mt = Inf /\ App.cash_on_cash mt <= 0).
Proof.
  apply payback_is_inverse_cash_on_cash; [discriminate | reflexivity].
Defined.

(** ** The recommendation ladders *)

Lemma Qle_bool_false_iff (a b : Q) : Qle_bool a b = false <-> b < a.
Proof.
  split; intro H.
  - apply Qnot_le_lt. intro L. apply Qle_bool_iff in L. congruence.
  - destruct (Qle_bool a b) eqn:E; [|reflexivity]. apply Qle_bool_iff in E. lra.
Qed.

Ltac bool_facts :=
  repeat match goal with
         | H : (_ && _)%bool = true |- _ => apply andb_true_iff in H; destruct H
         | H : (_ && _)%bool = false |- _ => apply andb_false_iff in H; destruct H
         | H : Qle_bool _ _ = true |- _ => apply Qle_bool_iff in H
         | H : Qle_bool _ _ = false |- _ => apply Qle_bool_false_iff in H
         | H : Qlt_bool _ _ = true |- _ => apply Qlt_bool_iff in H
         | H : Qlt_bool _ _ = false |- _ => apply Qlt_bool_false_iff in H
         end.

(** X7: the ladder of [analyze_property] is monotone: raising the cap rate,
    the cash-on-cash return or the monthly cash flow never lowers the
    recommendation (Don't Buy < Hold < Buy < Strong Buy). *)
Theorem api_ladder_monotone (cap coc cf cap' coc' cf' : Q) :
  cap <= cap' -> coc <= coc' -> cf <= cf' ->
  (rank (Api.recommend cap coc cf) <= rank (Api.recommend cap' coc' cf'))%nat.
Proof.
  intros H1 H2 H3. unfold Api.recommend.
  destruct (Qle_bool 6 cap && Qle_bool 8 coc && Qle_bool 300 cf) eqn:S;
  destruct (Qle_bool 5 cap && Qle_bool 6 coc && Qle_bool 200 cf) eqn:B;
  destruct (Qle_bool 4 cap && Qle_bool 4 coc && Qle_bool 100 cf) eqn:H;
  destruct (Qle_bool 6 cap' && Qle_bool 8 coc' && Qle_bool 300 cf') eqn:S';
  destruct (Qle_bool 5 cap' && Qle_bool 6 coc' && Qle_bool 200 cf') eqn:B';
  destruct (Qle_bool 4 cap' && Qle_bool 4 coc' && Qle_bool 100 cf') eqn:H';
  cbn [rank]; try lia; exfalso; bool_facts; lra.
Qed.

Lemma api_ladder_monotone_witness :
  (rank (Api.recommend 5 7 250) <= rank (Api.recommend (65 # 10) 9 320))%nat.
Proof.
  apply api_ladder_monotone; discriminate.
Defined.

(** X8: the two recommendation rules are compatible at their ends: a Strong
    Buy of [analyze_property] is never a Don't Buy of
    [investment_recommendation], and a Buy of [investment_recommendation]
    with a cash-on-cash return of at least 8% is a Strong Buy of
    [analyze_property]. *)
Theorem ladders_compatible (cap coc cf : Q) :
  (Api.recommend cap coc cf = Api.StrongBuy ->
   DashApp.investment_recommendation cap cf <> DashApp.DontBuy) /\
  (DashApp.investment_recommendation cap cf = DashApp.Buy -> 8 <= coc ->
   Api.recommend cap coc cf = Api.StrongBuy).
Proof.
  unfold Api.recommend, DashApp.investment_recommendation,
    DashApp.BUY_THRESHOLD_CAP_RATE, DashApp.BUY_THRESHOLD_CASH_FLOW.
  split.
  - destruct (Qle_bool 6 cap && Qle_bool 8 coc && Qle_bool 300 cf) eqn:S.
    + intros _.
      destruct (Qlt_bool 6 cap && Qlt_bool 300 cf) eqn:B; [discriminate|].
      destruct (Qlt_bool cap 6 && Qlt_bool cf 300) eqn:D; [|discriminate].
      exfalso. bool_facts; lra.
    + destruct (Qle_bool 5 cap && Qle_bool 6 coc && Qle_bool 200 cf);
        [discriminate|].
      destruct (Qle_bool 4 cap && Qle_bool 4 coc && Qle_bool 100 cf); discriminate.
  - destruct (Qlt_bool 6 cap && Qlt_bool 300 cf) eqn:B.
    + intros _ Hcoc.
      destruct (Qle_bool 6 cap && Qle_bool 8 coc && Qle_bool 300 cf) eqn:S;
        [reflexivity|].
      exfalso. bool_facts; lra.
    + destruct (Qlt_bool cap 6 && Qlt_bool cf 300); discriminate.
Qed.

Lemma ladders_compatible_witness :
  Api.recommend 7 9 350 = Api.StrongBuy /\
  DashApp.investment_recommendation 7 350 <> DashApp.DontBuy.
Proof.
  split.
  - apply (proj2 (ladders_compatible 7 9 350)); [reflexivity | discriminate].
  - apply (proj1 (ladders_compatible 7 9 350)). reflexivity.
Defined.

(** ** The gap to a Buy *)

Lemma pymax_0_spec (x : Q) : 0 <= pymax 0 x /\ x <= pymax 0 x /\ (pymax 0 x == 0 <-> x <= 0).
Proof.
  unfold pymax. destruct (Qlt_bool 0 x) eqn:E; bool_facts.
  - split; [lra|]. split; [lra|]. split; intro H; lra.
  - split; [lra|]. split; [lra|]. split; intro H; [lra | reflexivity].
Qed.

(** X9: the gap numbers of [needed_numbers] are never negative, close the
    gap exactly (the cash flow plus the needed cash flow reaches $300, the
    cap rate plus the needed cap rate reaches 6%), and are 0 exactly when the
    threshold is already met; a Buy needs nothing more and a Don't Buy lacks
    both. *)
Theorem needed_numbers_close_the_gap (cap_rate cash_flow break_even_rent price : Q) :
  let n := DashApp.needed_numbers cap_rate cash_flow break_even_rent price in
  0 <= DashApp.needed_cash_flow n /\
  0 <= DashApp.needed_cap_rate n /\
  300 <= cash_flow + DashApp.needed_cash_flow n /\
  6 <= cap_rate + DashApp.needed_cap_rate n /\
  (DashApp.needed_cash_flow n == 0 <-> 300 <= cash_flow) /\
  (DashApp.needed_cap_rate n == 0 <-> 6 <= cap_rate) /\
  (DashApp.investment_recommendation cap_rate cash_flow = DashApp.Buy ->
   DashApp.needed_cash_flow n == 0 /\ DashApp.needed_cap_rate n == 0) /\
  (DashApp.investment_recommendation cap_rate cash_flow = DashApp.DontBuy ->
   0 < DashApp.needed_cash_flow n /\ 0 < DashApp.needed_cap_rate n).
Proof.
  intro n. unfold n, DashApp.needed_numbers.
  cbn [DashApp.needed_cash_flow DashApp.needed_cap_rate].
  unfold DashApp.investment_recommendation,
    DashApp.BUY_THRESHOLD_CASH_FLOW, DashApp.BUY_THRESHOLD_CAP_RATE.
  destruct (pymax_0_spec (300 - cash_flow)) as (A1 & A2 & A3).
  destruct (pymax_0_spec (6 - cap_rate)) as (B1 & B2 & B3).
  assert (A4 : pymax 0 (300 - cash_flow) == 0 <-> 300 <= cash_flow).
  { rewrite A3. split; intro H; lra. }
  assert (B4 : pymax 0 (6 - cap_rate) == 0 <-> 6 <= cap_rate).
  { rewrite B3. split; intro H; lra. }
  split; [exact A1|]. split; [exact B1|]. split; [lra|]. split; [lra|].
  split; [exact A4|]. split; [exact B4|]. split.
  - destruct (Qlt_bool 6 cap_rate && Qlt_bool 300 cash_flow) eqn:E.
    + intros _. bool_facts. split; [apply A4 | apply B4]; lra.
    + destruct (Qlt_bool cap_rate 6 && Qlt_bool cash_flow 300); discriminate.
  - destruct (Qlt_bool 6 cap_rate && Qlt_bool 300 cash_flow) eqn:E; [discriminate|].
    destruct (Qlt_bool cap_rate 6 && Qlt_bool cash_flow 300) eqn:D; [|discriminate].
    intros _. clear E. bool_facts. split.
    + destruct (Qlt_le_dec 0 (pymax 0 (300 - cash_flow))) as [L|L]; [assumption|].
      assert (Z : pymax 0 (300 - cash_flow) == 0) by lra. apply A4 in Z. lra.
    + destruct (Qlt_le_dec 0 (pymax 0 (6 - cap_rate))) as [L|L]; [assumption|].
      assert (Z : pymax 0 (6 - cap_rate) == 0) by lra. apply B4 in Z. lra.
Qed.

Lemma needed_numbers_close_the_gap_witness :
  0 < DashApp.needed_cash_flow (DashApp.needed_numbers 5 250 1500 200000) /\
  0 < DashApp.needed_cap_rate (DashApp.needed_numbers 5 250 1500 200000).
Proof.
  apply (proj2 (proj2 (proj2 (proj2 (proj2 (proj2 (proj2
           (needed_numbers_close_the_gap 5 250 1500 200000)))))))).
  reflexivity.
Defined.

(** X10: [run_analysis] of app.py and the dashboard give the same verdict
    for the same cap rate and cash flow; app.py shows a gap exactly when the
    verdict is not a Buy, and its needed cash flow, needed cap rate and
    minimum rent for cash flow are those of [needed_numbers]. *)
Theorem app_and_dash_recommend_alike
        (price_raw : option Q) (a : App.Assumptions) (mt : App.Metrics) :
  let n := DashApp.needed_numbers (App.cap_rate mt) (App.monthly_cash_flow mt)
             (App.break_even_rent mt) (App.parse_price price_raw) in
  dash_verdict (fst (App.recommendation price_raw a mt)) =
    DashApp.investment_recommendation (App.cap_rate mt) (App.monthly_cash_flow mt) /\
  (snd (App.recommendation price_raw a mt) = None <->
   fst (App.recommendation price_raw a mt) = App.Buy) /\
  (forall g, snd (App.recommendation price_raw a mt) = Some g ->
             App.needed_cash_flow g = DashApp.needed_cash_flow n /\
             App.needed_cap_rate g = DashApp.needed_cap_rate n /\
             App.needed_rent_for_cash_flow g = DashApp.needed_rent_for_cash_flow n).
Proof.
  intro n. unfold App.recommendation, DashApp.investment_recommendation,
    App.buy_threshold_cap_rate, App.buy_threshold_cash_flow,
    DashApp.BUY_THRESHOLD_CAP_RATE, DashApp.BUY_THRESHOLD_CASH_FLOW.
  destruct (Qlt_bool 6 (App.cap_rate mt) && Qlt_bool 300 (App.monthly_cash_flow mt)) eqn:E;
    cbn [fst snd].
  - split; [reflexivity|]. split; [split; reflexivity|].
    intros g0 Hg. discriminate.
  - destruct (Qlt_bool (App.cap_rate mt) 6 && Qlt_bool (App.monthly_cash_flow mt) 300);
      cbn [dash_verdict]; (split; [reflexivity|]);
      (split; [split; discriminate|]);
      intros g0 Hg; injection Hg as <-; cbn; auto.
Qed.

Lemma app_and_dash_recommend_alike_witness :
  exists mt g,
    App.calculate_metrics App.no_manual (Some 120000) (app_with_rent cash_purchase 100)
    = Ok mt /\
    snd (App.recommendation (Some 120000) cash_purchase mt) = Some g /\
    App.needed_cash_flow g =
      DashApp.needed_cash_flow
        (DashApp.needed_numbers (App.cap_rate mt) (App.monthly_cash_flow mt)
           (App.break_even_rent mt) (App.parse_price (Some 120000))).
Proof.
  eexists. eexists.
  split; [vm_compute; reflexivity|].
  split; [vm_compute; reflexivity|].
  eapply (proj1 (proj2 (proj2 (app_and_dash_recommend_alike (Some 120000) cash_purchase _))
                  _ _)).
  Unshelve. vm_compute. reflexivity.
Defined.

(** ** The remaining loan of the sale estimate *)

Lemma sale_loop_S (n : nat) (r M bal : Q) :
  Amortization.sale_loop (S n) r M bal =
  let b := Amortization.sale_loop n r M bal in
  let b' := b - Amortization.month_principal r M b in
  if Qlt_bool b' 0 then 0 else b'.
Proof.
  revert bal. induction n as [|n IH]; intro bal.
  - reflexivity.
  - change (Amortization.sale_loop (S (S n)) r M bal)
      with (Amortization.sale_loop (S n) r M
              (if Qlt_bool (bal - Amortization.month_principal r M bal) 0 then 0
               else bal - Amortization.month_principal r M bal)).
    rewrite IH. reflexivity.
Qed.

Lemma sale_loop_within_term (P r : Q) (N n : nat) :
  0 < P -> 0 < r -> (0 < N)%nat -> (n <= N)%nat ->
  Amortization.sale_loop n r (annuity P r N) P
  == snd (Amortization.amortize n r (annuity P r N) 0 P).
Proof.
  intros HP Hr HN. induction n as [|n IH]; intro Hn.
  - reflexivity.
  - rewrite sale_loop_S, amortize_S. cbv zeta.
    assert (Hn' : (n <= N)%nat) by lia. specialize (IH Hn').
    pose proof (annuity_balance_nonneg P r N HP Hr HN (S n) 0 Hn) as Hnn.
    rewrite amortize_S in Hnn.
    destruct (Amortization.amortize n r (annuity P r N) 0 P) as [p b]. cbn [snd] in *.
    unfold Amortization.month_principal.
    assert (E : Amortization.sale_loop n r (annuity P r N) P -
                (annuity P r N - Amortization.sale_loop n r (annuity P r N) P * r)
                == b - (annuity P r N - b * r)) by (rewrite IH; reflexivity).
    assert (Hb : Qlt_bool (Amortization.sale_loop n r (annuity P r N) P -
                           (annuity P r N -
                            Amortization.sale_loop n r (annuity P r N) P * r)) 0 = false).
    { apply Qlt_bool_false_iff. rewrite E. exact Hnn. }
    rewrite Hb. exact E.
Qed.

Lemma sale_loop_after_term (P r : Q) (N n : nat) :
  0 < P -> 0 < r -> (0 < N)%nat -> (N <= n)%nat ->
  Amortization.sale_loop n r (annuity P r N) P == 0.
Proof.
  intros HP Hr HN Hn. induction Hn as [|n Hn IH].
  - rewrite sale_loop_within_term by (assumption || lia).
    now apply annuity_balance_final.
  - rewrite sale_loop_S. cbv zeta.
    pose proof (annuity_payment_pos P r N HP Hr HN) as HM.
    unfold Amortization.month_principal.
    assert (Hb : Qlt_bool (Amortization.sale_loop n r (annuity P r N) P -
                           (annuity P r N -
                            Amortization.sale_loop n r (annuity P r N) P * r)) 0 = true).
    { apply Qlt_bool_iff. rewrite IH. lra. }
    rewrite Hb. reflexivity.
Qed.

(** X11: for a loan of [N] monthly payments at a positive rate, the
    remaining balance the sale estimate computes after [n] months is the
    amortized balance P * ((1+r)^N - (1+r)^n) / ((1+r)^N - 1) up to the term
    and exactly 0 from the term on; it always lies between 0 and the loan, so
    that [max(bal, 0)] changes nothing. *)
Theorem remaining_loan_is_clamped_balance (P r : Q) (N n : nat) :
  0 < P -> 0 < r -> (0 < N)%nat ->
  let bal := Amortization.sale_loop n r (annuity P r N) P in
  Amortization.monthly_payment P r (Z.of_nat N) = Ok (annuity P r N) /\
  ((n <= N)%nat ->
   bal == P * ((1 + r) ^ Z.of_nat N - (1 + r) ^ Z.of_nat n) / ((1 + r) ^ Z.of_nat N - 1)) /\
  ((N <= n)%nat -> bal == 0) /\
  0 <= bal /\ bal <= P /\
  pymax bal 0 == bal.
Proof.
  intros HP Hr HN bal.
  split; [now apply annuity_payment|].
  assert (Hin : (n <= N)%nat -> bal == snd (Amortization.amortize n r (annuity P r N) 0 P))
    by (intro; now apply sale_loop_within_term).
  assert (Hout : (N <= n)%nat -> bal == 0)
    by (intro; now apply sale_loop_after_term).
  assert (Hbounds : 0 <= bal /\ bal <= P).
  { destruct (Nat.le_gt_cases n N) as [Hle|Hgt].
    - rewrite (Hin Hle). split.
      + now apply annuity_balance_nonneg.
      + rewrite annuity_balance by assumption.
        pose proof (growth_gt_1 r N Hr HN) as Hg.
        assert (H1 : 1 <= (1 + r) ^ Z.of_nat n) by (apply Qpower_1_le; [lra | lia]).
        set (g := (1 + r) ^ Z.of_nat N) in *. clearbody g.
        set (gn := (1 + r) ^ Z.of_nat n) in *. clearbody gn.
        apply Qle_shift_div_r; [lra|].
        assert (0 <= P * (gn - 1)) by (apply Qmult_le_0_compat; lra). lra.
    - rewrite Hout by lia. lra. }
  split; [|split; [exact Hout|]].
  - intro Hle. rewrite (Hin Hle). now apply annuity_balance.
  - destruct Hbounds as [H0 H1]. split; [exact H0|]. split; [exact H1|].
    unfold pymax. destruct (Qlt_bool bal 0) eqn:E; [|reflexivity].
    apply Qlt_bool_iff in E. lra.
Qed.

Lemma remaining_loan_is_clamped_balance_witness :
  Amortization.sale_loop 192 (4 / 100 / 12) (annuity 160000 (4 / 100 / 12) 180) 160000 == 0.
Proof.
  apply (proj1 (proj2 (proj2 (remaining_loan_is_clamped_balance
                                160000 (4 / 100 / 12) 180 192 eq_refl eq_refl ltac:(lia))))).
  lia.
Defined.

(** ** The amortization schedule *)

Lemma principal_schedule_nth (n k : nat) (r M paid bal : Q) :
  (k < n)%nat ->
  nth k (principal_schedule n r M bal) 0 = M - snd (Amortization.amortize k r M paid bal) * r.
Proof.
  revert n paid bal. induction k as [|k IH]; intros n paid bal Hk.
  - destruct n as [|n]; [lia|]. reflexivity.
  - destruct n as [|n]; [lia|].
    cbn [principal_schedule nth Amortization.amortize].
    apply IH. lia.
Qed.

(** X12: in the month-by-month schedule of a loan of [N] payments at a
    positive rate, the principal component of month k+1 is the first one
    times (1+r)^k, so each month repays more principal than the one before;
    the components of the [N] months add up to the loan, which leaves a
    balance of exactly 0; and when the term is at least a year, the principal
    paid in year one that [calculate_metrics] uses is positive and at most
    the loan. *)
Theorem amortization_schedule_facts (P r : Q) (N : nat) :
  0 < P -> 0 < r -> (0 < N)%nat ->
  let M := annuity P r N in
  Amortization.monthly_payment P r (Z.of_nat N) = Ok M /\
  0 < M - P * r /\
  (forall n k, (k < n)%nat ->
     nth k (principal_schedule n r M P) 0 == (M - P * r) * (1 + r) ^ Z.of_nat k) /\
  Qsum (principal_schedule N r M P) == P /\
  snd (Amortization.amortize N r M 0 P) == 0 /\
  ((12 <= N)%nat ->
   0 < Amortization.principal_paid_yr1 P r M /\
   Amortization.principal_paid_yr1 P r M <= P).
Proof.
  intros HP Hr HN M.
  pose proof (growth_gt_1 r N Hr HN) as Hg.
  split; [now apply annuity_payment|].
  assert (H0 : M - P * r == P * r / ((1 + r) ^ Z.of_nat N - 1)).
  { unfold M, annuity. field. lra. }
  split.
  { rewrite H0. set (g := (1 + r) ^ Z.of_nat N) in *. clearbody g.
    apply Qlt_shift_div_l; [lra|].
    assert (0 < P * r) by (apply Qmult_lt_0_compat; lra). lra. }
  split.
  { intros n k Hk. rewrite (principal_schedule_nth n k r M 0 P Hk).
    unfold M. rewrite (annuity_principal P r N Hr HN k 0).
    fold M. rewrite H0. field. lra. }
  pose proof (amortize_conservation N r M 0 P) as Hc.
  pose proof (amortize_paid_sum N r M 0 P) as Hs.
  pose proof (annuity_balance_final P r N Hr HN 0) as Hf. fold M in Hf.
  split; [lra|]. split; [exact Hf|].
  intro H12. unfold Amortization.principal_paid_yr1.
  pose proof HP as HbP. pose proof Hr as Hbr.
  apply Qlt_bool_iff in HbP, Hbr. rewrite HbP, Hbr. cbn [andb].
  pose proof (amortize_conservation 12 r M 0 P) as Hc12.
  pose proof (amortize_paid_sum 12 r M 0 P) as Hs12.
  pose proof (annuity_principal_paid_pos P r N 12 HP Hr HN ltac:(lia)) as Hpos.
  fold M in Hpos.
  pose proof (annuity_balance_nonneg P r N HP Hr HN 12 0 H12) as Hnn. fold M in Hnn.
  split; lra.
Qed.

Lemma amortization_schedule_facts_witness :
  0 < Amortization.principal_paid_yr1 160000 (5 / 100 / 12)
        (annuity 160000 (5 / 100 / 12) 360) /\
  Amortization.principal_paid_yr1 160000 (5 / 100 / 12)
    (annuity 160000 (5 / 100 / 12) 360) <= 160000.
Proof.
  apply (proj2 (proj2 (proj2 (proj2 (proj2
           (amortization_schedule_facts 160000 (5 / 100 / 12) 360
              eq_refl eq_refl ltac:(lia))))))).
  lia.
Defined.

(** ** The long-term projections of app.py *)

Lemma nth_error_map_seq {A : Type} (f : nat -> A) (a n y : nat) :
  nth_error (map f (seq a n)) y = if (y <? n)%nat then Some (f (a + y)%nat) else None.
Proof.
  revert a y. induction n as [|n IH]; intros a y.
  - destruct y; reflexivity.
  - destruct y as [|y]; cbn [seq map nth_error].
    + rewrite Nat.add_0_r. reflexivity.
    + rewrite IH. rewrite Nat.add_succ_r. reflexivity.
Qed.

Lemma sale_loop_bounds (P r : Q) (N n : nat) :
  0 < P -> 0 < r -> (0 < N)%nat ->
  0 <= Amortization.sale_loop n r (annuity P r N) P /\
  Amortization.sale_loop n r (annuity P r N) P <= P.
Proof.
  intros HP Hr HN.
  destruct (Nat.le_gt_cases n N) as [Hle|Hgt].
  - rewrite (sale_loop_within_term P r N n HP Hr HN Hle). split.
    + now apply annuity_balance_nonneg.
    + rewrite annuity_balance by assumption.
      pose proof (growth_gt_1 r N Hr HN) as Hg.
      assert (H1 : 1 <= (1 + r) ^ Z.of_nat n) by (apply Qpower_1_le; [lra | lia]).
      set (g := (1 + r) ^ Z.of_nat N) in *. clearbody g.
      set (gn := (1 + r) ^ Z.of_nat n) in *. clearbody gn.
      apply Qle_shift_div_r; [lra|].
      assert (0 <= P * (gn - 1)) by (apply Qmult_le_0_compat; lra). lra.
  - rewrite (sale_loop_after_term P r N n HP Hr HN) by lia. lra.
Qed.

Lemma payment_of_term (P r : Q) (t : Z) :
  0 < P -> 0 < r -> (0 < t)%Z ->
  Amortization.monthly_payment P r (t * 12) = Ok (annuity P r (Z.to_nat (t * 12))) /\
  (0 < Z.to_nat (t * 12))%nat.
Proof.
  intros HP Hr Ht. split; [|lia].
  rewrite <- (Z2Nat.id (t * 12)) at 1 by lia.
  apply annuity_payment; [assumption | assumption | lia].
Qed.

(** X13: in the sale estimate of [run_analysis], with a loan and a positive
    rate, the net sale proceeds are 92% of the projected sale price minus the
    remaining loan, the remaining loan lies between 0 and the amount
    borrowed, and once the holding period reaches the loan term the remaining
    loan is 0, so that the net proceeds are 92% of the sale price. *)
Theorem sale_proceeds (i : Projection.Inputs) :
  let price := App.parse_price (Projection.price_raw i) in
  let balance := price - price * Projection.scenario_down i / 100 in
  Projection.show_projection i = true ->
  (0 < Projection.projection_years i)%nat ->
  0 < balance ->
  0 < Projection.scenario_interest i / 100 / 12 ->
  (0 < Projection.loan_term i)%Z ->
  exists se sa,
    Projection.projections i = Ok (Some (se, sa)) /\
    Projection.projected_sale_price sa =
      price * (1 + Projection.appreciation_rate i / 100)
              ^ Z.of_nat (Projection.projection_years i) /\
    Projection.net_sale_proceeds sa ==
      (92 # 100) * Projection.projected_sale_price sa - Projection.remaining_loan sa /\
    0 <= Projection.remaining_loan sa /\
    Projection.remaining_loan sa <= balance /\
    ((Projection.loan_term i <= Z.of_nat (Projection.projection_years i))%Z ->
     Projection.remaining_loan sa == 0 /\
     Projection.net_sale_proceeds sa == (92 # 100) * Projection.projected_sale_price sa).
Proof.
  intros price balance Hshow Hyears Hbal Hr Ht.
  destruct (payment_of_term balance (Projection.scenario_interest i / 100 / 12)
              (Projection.loan_term i) Hbal Hr Ht) as [HM HN].
  set (N := Z.to_nat (Projection.loan_term i * 12)) in *.
  set (r := Projection.scenario_interest i / 100 / 12) in *.
  unfold Projection.projections. rewrite Hshow.
  assert (Hy : (0 <? Projection.projection_years i)%nat = true) by (apply Nat.ltb_lt; lia).
  rewrite Hy. cbn [andb]. fold price. fold balance. fold r. rewrite HM. cbn [bind].
  unfold Projection.sale. rewrite guarded_pct_ok. cbn [bind].
  eexists. eexists. split; [reflexivity|].
  cbn [Projection.projected_sale_price Projection.net_sale_proceeds
       Projection.remaining_loan].
  destruct (sale_loop_bounds balance r N (Projection.projection_years i * 12) Hbal Hr HN)
    as [B0 B1].
  set (bal := Amortization.sale_loop (Projection.projection_years i * 12) r
                (annuity balance r N) balance) in *.
  assert (Hmax : pymax bal 0 == bal).
  { unfold pymax. destruct (Qlt_bool bal 0) eqn:E; [|reflexivity].
    apply Qlt_bool_iff in E. lra. }
  split; [reflexivity|]. split; [ring|]. split; [lra|]. split; [lra|].
  intro Hlong.
  assert (Hz : bal == 0).
  { unfold bal. apply sale_loop_after_term; try assumption. unfold N. lia. }
  split; [lra|]. rewrite Hmax, Hz. ring.
Qed.

Lemma sale_proceeds_witness :
  exists se sa,
    Projection.projections long_projection = Ok (Some (se, sa)) /\
    Projection.remaining_loan sa == 0 /\
    Projection.net_sale_proceeds sa == (92 # 100) * Projection.projected_sale_price sa.
Proof.
  destruct (sale_proceeds long_projection) as (se & sa & E & _ & _ & _ & _ & H);
    [reflexivity | cbn; lia | reflexivity | reflexivity | cbn; lia |].
  exists se, sa. split; [exact E|]. apply H. cbn. lia.
Defined.

(** X14: the value and rent series of the projections have one entry per
    projected year, the entry of year y being price * (1 + appreciation)^y
    and rent * (1 + growth)^y; and for every projected year within the loan
    term the equity entry is the principal repaid by then,
    loan * ((1+r)^(12y) - 1) / ((1+r)^N - 1), between 0 and the loan. *)
Theorem projection_series (i : Projection.Inputs) :
  let price := App.parse_price (Projection.price_raw i) in
  let balance := price - price * Projection.scenario_down i / 100 in
  let r := Projection.scenario_interest i / 100 / 12 in
  let N := (Projection.loan_term i * 12)%Z in
  Projection.show_projection i = true ->
  (0 < Projection.projection_years i)%nat ->
  0 < balance -> 0 < r -> (0 < Projection.loan_term i)%Z ->
  exists se sa,
    Projection.projections i = Ok (Some (se, sa)) /\
    List.length (Projection.values se) = Projection.projection_years i /\
    List.length (Projection.rents se) = Projection.projection_years i /\
    List.length (Projection.equities se) = Projection.projection_years i /\
    (forall y, (y < Projection.projection_years i)%nat ->
       nth_error (Projection.values se) y =
         Some (price * (1 + Projection.appreciation_rate i / 100) ^ Z.of_nat (1 + y)) /\
       nth_error (Projection.rents se) y =
         Some (Projection.scenario_rent i *
               (1 + Projection.rent_growth_rate i / 100) ^ Z.of_nat (1 + y))) /\
    (forall y, (y < Projection.projection_years i)%nat ->
       (Z.of_nat (1 + y) <= Projection.loan_term i)%Z ->
       exists e, nth_error (Projection.equities se) y = Some e /\
                 e == balance * ((1 + r) ^ Z.of_nat ((1 + y) * 12) - 1) / ((1 + r) ^ N - 1) /\
                 0 <= e /\ e <= balance).
Proof.
  intros price balance r N Hshow Hyears Hbal Hr Ht.
  destruct (payment_of_term balance r (Projection.loan_term i) Hbal Hr Ht) as [HM HN].
  unfold Projection.projections. rewrite Hshow.
  assert (Hy : (0 <? Projection.projection_years i)%nat = true) by (apply Nat.ltb_lt; lia).
  rewrite Hy. cbn [andb]. fold price. fold balance. fold r. rewrite HM. cbn [bind].
  unfold Projection.sale. rewrite guarded_pct_ok. cbn [bind].
  eexists. eexists. split; [reflexivity|].
  unfold Projection.series.
  cbn [Projection.values Projection.rents Projection.equities].
  rewrite !length_map, !length_seq.
  split; [reflexivity|]. split; [reflexivity|]. split; [reflexivity|]. split.
  - intros y Hlt. rewrite !nth_error_map_seq.
    apply Nat.ltb_lt in Hlt. rewrite Hlt. split; reflexivity.
  - intros y Hlt Hterm. rewrite nth_error_map_seq.
    pose proof Hlt as Hlt'. apply Nat.ltb_lt in Hlt'. rewrite Hlt'.
    eexists. split; [reflexivity|].
    set (Nn := Z.to_nat (Projection.loan_term i * 12)) in *.
    assert (Hk : ((1 + y) * 12 <= Nn)%nat) by (unfold Nn; lia).
    assert (HNn : Z.of_nat Nn = N) by (unfold Nn, N; lia).
    rewrite equity_loop_no_break.
    2:{ intros j Hj. apply annuity_balance_nonneg; try assumption. lia. }
    pose proof (amortize_conservation ((1 + y) * 12) r (annuity balance r Nn) 0 balance) as Hc.
    pose proof (annuity_balance balance r Nn Hr HN ((1 + y) * 12) 0) as Hb.
    pose proof (annuity_balance_nonneg balance r Nn Hbal Hr HN ((1 + y) * 12) 0 Hk) as Hnn.
    pose proof (growth_gt_1 r Nn Hr HN) as Hg.
    rewrite HNn in Hb, Hg.
    assert (Hle : snd (Amortization.amortize ((1 + y) * 12) r (annuity balance r Nn)
                         0 balance) <= balance).
    { rewrite Hb.
      assert (H1 : 1 <= (1 + r) ^ Z.of_nat ((1 + y) * 12))
        by (apply Qpower_1_le; [lra | lia]).
      set (g := (1 + r) ^ N) in *. clearbody g.
      set (gn := (1 + r) ^ Z.of_nat ((1 + y) * 12)) in *. clearbody gn.
      apply Qle_shift_div_r; [lra|].
      assert (0 <= balance * (gn - 1)) by (apply Qmult_le_0_compat; lra). lra. }
    split; [|split; lra].
    setoid_replace (fst (Amortization.amortize ((1 + y) * 12) r (annuity balance r Nn)
                           0 balance))
      with (balance - snd (Amortization.amortize ((1 + y) * 12) r (annuity balance r Nn)
                             0 balance)) by lra.
    rewrite Hb. field. lra.
Qed.

Lemma projection_series_witness :
  exists se sa,
    Projection.projections long_projection = Ok (Some (se, sa)) /\
    List.length (Projection.equities se) = 20%nat /\
    exists e, nth_error (Projection.equities se) 14 = Some e /\ 0 <= e /\ e <= 160000.
Proof.
  destruct (projection_series long_projection) as (se & sa & E & _ & _ & L & _ & H);
    [reflexivity | cbn; lia | reflexivity | reflexivity | cbn; lia |].
  exists se, sa. split; [exact E|]. split; [exact L|].
  destruct (H 14%nat) as (e & He & _ & H0 & H1); [cbn; lia | cbn; lia |].
  exists e. split; [exact He|]. split; [exact H0|].
  setoid_replace 160000 with (200000 - 200000 * 20 / 100) by reflexivity. exact H1.
Defined.

Lemma fold_left_Qplus (l : list Q) (a : Q) : fold_left Qplus l a == a + Qsum l.
Proof.
  revert a. induction l as [|x l IH]; intro a; cbn [fold_left Qsum fold_right].
  - ring.
  - rewrite IH. unfold Qsum. ring.
Qed.

Lemma Qsum_app (l1 l2 : list Q) : Qsum (l1 ++ l2) == Qsum l1 + Qsum l2.
Proof.
  unfold Qsum. induction l1 as [|x l1 IH]; cbn [app fold_right].
  - ring.
  - rewrite IH. ring.
Qed.

Lemma geometric_sum (c g : Q) (n : nat) :
  ~ g == 0 -> ~ 1 + g == 0 ->
  Qsum (map (fun y => c * (1 + g) ^ Z.of_nat y * 12) (seq 0 n))
  == c * 12 * ((1 + g) ^ Z.of_nat n - 1) / g.
Proof.
  intros Hg Hq. induction n as [|n IH].
  - cbn. field. assumption.
  - rewrite seq_S, map_app, Qsum_app, IH. cbn [map Qsum fold_right Nat.add].
    rewrite Nat2Z.inj_succ. unfold Z.succ. rewrite Qpower_plus by assumption.
    change ((1 + g) ^ 1) with (1 + g). field. assumption.
Qed.

(** X15: the "total cash flow" of the sale estimate is the gross rent of the
    holding period, 12 * rent * ((1+g)^hold - 1) / g for a rent growth
    g = rent_growth_rate/100 > 0, counted from the current rent (year 0):
    neither the mortgage payment nor any expense is taken off, and it is at
    least hold * 12 * rent. *)
Theorem sale_total_cash_flow_is_gross_rent (i : Projection.Inputs) (monthly_payment : Q) :
  let price := App.parse_price (Projection.price_raw i) in
  let balance := price - price * Projection.scenario_down i / 100 in
  let g := Projection.rent_growth_rate i / 100 in
  let hold := Projection.projection_years i in
  0 < g ->
  0 <= Projection.scenario_rent i ->
  exists sa,
    Projection.sale price (Projection.scenario_rent i) balance
      (Projection.scenario_interest i / 100 / 12) monthly_payment i = Ok sa /\
    Projection.total_cash_flow sa ==
      Projection.scenario_rent i * 12 * ((1 + g) ^ Z.of_nat hold - 1) / g /\
    inject_Z (Z.of_nat hold) * 12 * Projection.scenario_rent i
      <= Projection.total_cash_flow sa.
Proof.
  intros price balance g hold Hg Hrent.
  unfold Projection.sale. rewrite guarded_pct_ok. cbn [bind].
  eexists. split; [reflexivity|]. cbn [Projection.total_cash_flow].
  unfold Projection.pysum. fold g. fold hold.
  assert (Hsum : forall n,
             inject_Z (Z.of_nat n) * 12 * Projection.scenario_rent i <=
             Qsum (map (fun y => Projection.scenario_rent i * (1 + g) ^ Z.of_nat y * 12)
                       (seq 0 n))).
  { induction n as [|n IH].
    - cbn [seq map Qsum fold_right Z.of_nat]. change (inject_Z 0) with 0. lra.
    - rewrite seq_S, map_app, Qsum_app. cbn [map Qsum fold_right Nat.add].
      rewrite Nat2Z.inj_succ. unfold Z.succ. rewrite inject_Z_plus.
      assert (H1 : 1 <= (1 + g) ^ Z.of_nat n) by (apply Qpower_1_le; [lra | lia]).
      set (gn := (1 + g) ^ Z.of_nat n) in *. clearbody gn.
      change (inject_Z 1) with 1.
      assert (0 <= Projection.scenario_rent i * (gn - 1))
        by (apply Qmult_le_0_compat; lra).
      lra. }
  split.
  - rewrite fold_left_Qplus, geometric_sum by lra. field. lra.
  - rewrite fold_left_Qplus. specialize (Hsum hold). lra.
Qed.

Lemma sale_total_cash_flow_is_gross_rent_witness :
  exists sa,
    Projection.sale 200000 1800 (200000 - 200000 * 20 / 100) (4 / 100 / 12) 0
      long_projection = Ok sa /\
    Projection.total_cash_flow sa ==
      1800 * 12 * ((1 + 2 / 100) ^ 20 - 1) / (2 / 100) /\
    inject_Z 20 * 12 * 1800 <= Projection.total_cash_flow sa.
Proof.
  apply (sale_total_cash_flow_is_gross_rent long_projection 0); [reflexivity | discriminate].
Defined.

(** ** The 10-year cash-flow projection of the dashboard *)

Lemma project_nth (n k : nat) (x M e v : Q) :
  nth_error (DashProjection.project n x M e) k = Some v ->
  v == x * (1 + DashProjection.rent_growth) ^ Z.of_nat (S k) - M - e.
Proof.
  revert x k. induction n as [|n IH]; intros x k H.
  - destruct k; discriminate.
  - destruct k as [|k]; cbn [DashProjection.project nth_error] in H.
    + injection H as <-.
      change ((1 + DashProjection.rent_growth) ^ Z.of_nat 1)
        with (1 + DashProjection.rent_growth).
      ring.
    + apply IH in H. rewrite H.
      rewrite (Nat2Z.inj_succ (S k)). unfold Z.succ.
      rewrite Qpower_plus by (unfold DashProjection.rent_growth; discriminate).
      change ((1 + DashProjection.rent_growth) ^ 1) with (1 + DashProjection.rent_growth).
      ring.
Qed.

Lemma project_length (n : nat) (x M e : Q) :
  List.length (DashProjection.project n x M e) = n.
Proof.
  revert x. induction n as [|n IH]; intro x; cbn; [reflexivity | now rewrite IH].
Qed.

(** X16: the dashboard's projected cash flows have 10 entries, the entry of
    year y being rent * 1.02^y - payment - expenses (the payment and the
    expenses stay at today's level); with a positive rent every year's
    projected cash flow is higher than the one before, and the first one is
    today's cash flow plus 2% of the rent. *)
Theorem dash_cash_flow_projection (monthly_rent monthly_payment monthly_expenses : Q) :
  let flows := DashProjection.cash_flows monthly_rent monthly_payment monthly_expenses in
  List.length flows = 10%nat /\
  (forall k v, nth_error flows k = Some v ->
     v == monthly_rent * (102 # 100) ^ Z.of_nat (S k) - monthly_payment - monthly_expenses) /\
  (exists v, nth_error flows 0 = Some v /\
     v == (monthly_rent - monthly_payment - monthly_expenses) + (2 # 100) * monthly_rent) /\
  (0 < monthly_rent ->
   forall k v w, nth_error flows k = Some v -> nth_error flows (S k) = Some w -> v < w).
Proof.
  intro flows. unfold flows, DashProjection.cash_flows.
  split; [apply project_length|].
  assert (Hnth : forall k v,
             nth_error (DashProjection.project 10 monthly_rent monthly_payment
                          monthly_expenses) k = Some v ->
             v == monthly_rent * (102 # 100) ^ Z.of_nat (S k)
                  - monthly_payment - monthly_expenses).
  { intros k v H. apply project_nth in H. rewrite H.
    setoid_replace (1 + DashProjection.rent_growth) with (102 # 100) by reflexivity.
    reflexivity. }
  split; [exact Hnth|]. split.
  - eexists. split; [reflexivity|]. unfold DashProjection.rent_growth. ring.
  - intros Hrent k v w Hv Hw.
    apply Hnth in Hv. apply Hnth in Hw. rewrite Hv, Hw.
    rewrite (Nat2Z.inj_succ (S k)). unfold Z.succ.
    rewrite Qpower_plus by discriminate.
    change ((102 # 100) ^ 1) with (102 # 100).
    assert (Hp : 0 < (102 # 100) ^ Z.of_nat (S k)) by (apply Qpower_0_lt; reflexivity).
    set (p := (102 # 100) ^ Z.of_nat (S k)) in *. clearbody p.
    assert (0 < monthly_rent * p) by (apply Qmult_lt_0_compat; assumption).
    lra.
Qed.

Lemma dash_cash_flow_projection_witness :
  exists v w,
    nth_error (DashProjection.cash_flows 1800 860 600) 0 = Some v /\
    nth_error (DashProjection.cash_flows 1800 860 600) 1 = Some w /\
    v < w.
Proof.
  eexists. eexists. split; [reflexivity|]. split; [reflexivity|].
  eapply (proj2 (proj2 (proj2 (dash_cash_flow_projection 1800 860 600))) eq_refl 0%nat);
    reflexivity.
Defined.

(* ================================================================== *)
(** * Further properties of the predictor, the address and the comparables *)

(** ** The rent range of the predictor *)

(** X17: with a fitted model, [predict_with_range] returns the model's
    prediction with a lower bound that is never negative and an upper bound
    that lies the MAE above the prediction; the MAE used is the stored one,
    or 289.24 when none is stored, and it is stored on the predictor, so that
    a second call returns the same range.  With a non-negative MAE the range
    is at most twice the MAE wide, the prediction is never above the upper
    bound, and it is at or above the lower bound exactly when it is not
    negative: a negative prediction lies outside its own range. *)
Theorem predict_with_range_bounds {F : Type} (self : MlModels.RentPredictor F)
        (m : F -> Q) (property_data : F) :
  MlModels.model self = Some m ->
  exists r self',
    MlModels.predict_with_range self property_data = MlModels.Returned (r, self') /\
    MlModels.predicted_rent r = m property_data /\
    MlModels.confidence_range r =
      match MlModels.mae self with Some v => v | None => 28924 # 100 end /\
    MlModels.mae self' = Some (MlModels.confidence_range r) /\
    MlModels.model self' = MlModels.model self /\
    MlModels.predict_with_range self' property_data = MlModels.Returned (r, self') /\
    0 <= MlModels.lower_bound r /\
    MlModels.upper_bound r == MlModels.predicted_rent r + MlModels.confidence_range r /\
    (MlModels.confidence_range r <= MlModels.predicted_rent r ->
     MlModels.lower_bound r == MlModels.predicted_rent r - MlModels.confidence_range r) /\
    (0 <= MlModels.confidence_range r ->
     MlModels.predicted_rent r <= MlModels.upper_bound r /\
     MlModels.upper_bound r - MlModels.lower_bound r <= 2 * MlModels.confidence_range r /\
     (MlModels.lower_bound r <= MlModels.predicted_rent r <-> 0 <= MlModels.predicted_rent r)).
Proof.
  intro Hm.
  unfold MlModels.predict_with_range, MlModels.predict. rewrite Hm.
  set (v := match MlModels.mae self with Some v => v | None => MlModels.default_mae end).
  eexists. eexists. split; [reflexivity|].
  cbn [MlModels.predicted_rent MlModels.confidence_range MlModels.mae MlModels.model
       MlModels.lower_bound MlModels.upper_bound fst snd].
  split; [reflexivity|]. split; [reflexivity|]. split; [reflexivity|].
  split; [congruence|]. split; [reflexivity|].
  destruct (pymax_0_spec (m property_data - v)) as (A1 & A2 & A3).
  fold v. 
  assert (A4 : v <= m property_data -> pymax 0 (m property_data - v) == m property_data - v).
  { intro H. unfold pymax. destruct (Qlt_bool 0 (m property_data - v)) eqn:E; [reflexivity|].
    apply Qlt_bool_false_iff in E. lra. }
  assert (A5 : 0 <= v -> pymax 0 (m property_data - v) <= m property_data <-> 0 <= m property_data).
  { intro H. unfold pymax. destruct (Qlt_bool 0 (m property_data - v)) eqn:E.
    - apply Qlt_bool_iff in E. split; intro; lra.
    - apply Qlt_bool_false_iff in E. split; intro; lra. }
  split; [exact A1|]. split; [reflexivity|]. split; [exact A4|].
  intro Hv. split; [lra|]. split; [lra|]. now apply A5.
Qed.

Lemma predict_with_range_bounds_witness :
  exists r self',
    MlModels.predict_with_range flat_rate_predictor 1500 = MlModels.Returned (r, self') /\
    0 <= MlModels.lower_bound r /\
    MlModels.confidence_range r = 28924 # 100.
Proof.
  destruct (predict_with_range_bounds flat_rate_predictor (fun sqft => (9 # 10) * sqft) 1500)
    as (r & self' & H1 & _ & H2 & _ & _ & _ & H3 & _).
  - reflexivity.
  - exists r, self'. split; [exact H1|]. split; [exact H3 | exact H2].
Defined.

(** ** The zip code of an address *)

Lemma digits_prefix_sound (n : nat) (s z : string) :
  Zip.digits_prefix n s = Some z ->
  String.length z = n /\ all_digits z = true /\ exists post, s = (z ++ post)%string.
Proof.
  revert s z. induction n as [|n IH]; intros s z H; cbn in H.
  - injection H as <-. repeat split. now exists s.
  - destruct s as [|c rest]; [discriminate|].
    destruct (Zip.is_digit c) eqn:Ec; [|discriminate].
    destruct (Zip.digits_prefix n rest) as [z'|] eqn:Ez; [|discriminate].
    injection H as <-. destruct (IH rest z' Ez) as (L & D & post & ->).
    cbn. rewrite Ec, D, L. repeat split. now exists post.
Qed.

Lemma digits_prefix_complete (z post : string) :
  all_digits z = true ->
  Zip.digits_prefix (String.length z) (z ++ post) = Some z.
Proof.
  induction z as [|c z IH]; cbn; intro H; [reflexivity|].
  apply andb_true_iff in H. destruct H as [Hc Hz].
  rewrite Hc, (IH Hz). reflexivity.
Qed.

(** X18: [get_zip_code] returns the leftmost run of five digits [0]-[9] of
    the address, whatever it stands for (a five-digit house number comes
    before the zip code), and [None] exactly when the address holds no five
    digits in a row. *)
Theorem get_zip_code_leftmost_five_digits (address : string) :
  match Zip.get_zip_code (Some address) with
  | Some z =>
      String.length z = 5%nat /\ all_digits z = true /\
      exists pre post,
        address = (pre ++ z ++ post)%string /\
        forall pre' z' post',
          address = (pre' ++ z' ++ post')%string ->
          String.length z' = 5%nat -> all_digits z' = true ->
          (String.length pre <= String.length pre')%nat
  | None =>
      forall pre z post,
        address = (pre ++ z ++ post)%string ->
        String.length z = 5%nat -> all_digits z = true -> False
  end.
Proof.
  unfold Zip.get_zip_code.
  induction address as [|c rest IH].
  - cbn. intros pre z post H L _.
    destruct pre; [|discriminate]. destruct z; discriminate.
  - change (Zip.search (String c rest))
      with (match Zip.digits_prefix 5 (String c rest) with
            | Some z => Some z
            | None => Zip.search rest
            end).
    destruct (Zip.digits_prefix 5 (String c rest)) as [z|] eqn:E.
    + destruct (digits_prefix_sound _ _ _ E) as (L & D & post & Hs).
      split; [exact L|]. split; [exact D|].
      exists EmptyString, post. split; [exact Hs|].
      intros. cbn. lia.
    + assert (Hhead : forall z' post', String c rest = (z' ++ post')%string ->
                        String.length z' = 5%nat -> all_digits z' = true -> False).
      { intros z' post' Hs L D. rewrite Hs, <- L, (digits_prefix_complete z' post' D) in E.
        discriminate. }
      destruct (Zip.search rest) as [z|].
      * destruct IH as (L & D & pre & post & Hs & Hleft).
        split; [exact L|]. split; [exact D|].
        exists (String c pre), post. split; [cbn; now rewrite <- Hs|].
        intros pre' z' post' Hs' L' D'.
        destruct pre' as [|c' pre'].
        -- exfalso. exact (Hhead z' post' Hs' L' D').
        -- cbn in Hs'. injection Hs' as _ Hs'. cbn.
           apply le_n_S. exact (Hleft pre' z' post' Hs' L' D').
      * intros pre z post Hs L D.
        destruct pre as [|c' pre].
        -- exact (Hhead z post Hs L D).
        -- cbn in Hs. injection Hs as _ Hs. exact (IH pre z post Hs L D).
Qed.

Lemma get_zip_code_leftmost_five_digits_witness :
  Zip.get_zip_code (Some "1200 N Water St, Milwaukee, WI 53202"%string) = Some "53202"%string /\
  all_digits "53202" = true.
Proof.
  split; [vm_compute; reflexivity|].
  generalize (get_zip_code_leftmost_five_digits "1200 N Water St, Milwaukee, WI 53202").
  change (Zip.get_zip_code (Some "1200 N Water St, Milwaukee, WI 53202"%string))
    with (Some "53202"%string).
  intros (_ & H & _). exact H.
Defined.

(** ** The ROI of the analysis *)

(** X19: in [run_analysis] the ROI is computed from the metrics by dividing
    by the total upfront cost without a guard.  For a loan term other than 0
    and a price that is given the metrics are always returned; when the upfront cost (down payment plus
    closing costs) is 0 they report a cash-on-cash return and a total ROI of
    0, and the ROI step then raises [ZeroDivisionError]; for any other
    upfront cost the ROI is the annual cash flow over the upfront cost, in
    percent, plus 3 points, that is the cash-on-cash return plus 3 when the
    upfront cost is positive. *)
Theorem roi_needs_upfront_cost (m : App.Manual) (price : Q) (a : App.Assumptions) :
  let price_raw := Some price in
  let upfront :=
    price * (App.down_payment_pct a / 100) + price * (App.closing_costs_pct a / 100) in
  App.loan_term a <> 0%Z ->
  exists mt,
    App.calculate_metrics m price_raw a = Ok mt /\
    App.total_upfront_cost mt = upfront /\
    (upfront == 0 ->
     AppRun.metrics_and_roi m price_raw a = Raise ZeroDivisionError /\
     App.cash_on_cash mt = 0 /\ App.total_roi mt = 0) /\
    (~ upfront == 0 ->
     exists roi,
       AppRun.metrics_and_roi m price_raw a = Ok (Some (mt, roi)) /\
       roi == App.monthly_cash_flow mt * 12 / upfront * 100 + 3) /\
    (0 < upfront ->
     exists roi,
       AppRun.metrics_and_roi m price_raw a = Ok (Some (mt, roi)) /\
       roi == App.cash_on_cash mt + 3).
Proof.
  intros price_raw upfront Hterm.
  destruct (monthly_payment_total (price - price * (App.down_payment_pct a / 100))
              (App.interest_rate a / 100 / 12) (App.loan_term a * 12)) as [M HM]; [lia|].
  unfold AppRun.metrics_and_roi, price_raw.
  rewrite (calculate_metrics_eq m (Some price) a M HM), metrics_block_eq.
  cbn [App.parse_price]. cbv zeta. fold upfront.
  eexists. split; [reflexivity|].
  cbn [bind App.total_upfront_cost App.monthly_cash_flow App.cash_on_cash App.total_roi].
  split; [reflexivity|].
  unfold Analysis.calculate_roi. cbv zeta.
  set (mcf := App.estimated_rent a - M - _).
  split; [|split].
  - intro H0. rewrite pydiv_raises by exact H0.
    assert (E : Qlt_bool 0 upfront = false) by (apply Qlt_bool_false_iff; lra).
    rewrite E. repeat split.
  - intro Hne. rewrite pydiv_ok by exact Hne. cbn [fmap bind].
    eexists. split; [reflexivity|]. field. exact Hne.
  - intro Hpos. assert (Hne : ~ upfront == 0) by lra.
    rewrite pydiv_ok by exact Hne. cbn [fmap bind].
    eexists. split; [reflexivity|].
    assert (E : Qlt_bool 0 upfront = true) by (now apply Qlt_bool_iff).
    rewrite E. field. exact Hne.
Qed.

Lemma roi_needs_upfront_cost_witness :
  exists mt,
    App.calculate_metrics App.no_manual (Some 200000) nothing_down = Ok mt /\
    AppRun.metrics_and_roi App.no_manual (Some 200000) nothing_down = Raise ZeroDivisionError.
Proof.
  destruct (roi_needs_upfront_cost App.no_manual 200000 nothing_down)
    as (mt & H1 & _ & H2 & _).
  - cbn. lia.
  - exists mt. split; [exact H1|]. apply H2. reflexivity.
Defined.

(** ** The comparables are the matching sales *)

Lemma filterM_filter {A : Type} (p : A -> result bool) (l l' : list A) :
  Comps.filterM p l = Ok l' ->
  l' = filter (fun x => match p x with Ok true => true | _ => false end) l.
Proof.
  revert l'. induction l as [|x l IH]; intros l' H; cbn in H.
  - now injection H as <-.
  - apply bind_Ok_inv in H. destruct H as [b [Hb H]].
    apply bind_Ok_inv in H. destruct H as [t [Ht H]].
    injection H as <-. cbn [filter]. rewrite Hb, <- (IH t Ht). now destruct b.
Qed.

Lemma filterM_In {A : Type} (p : A -> result bool) (l l' : list A) (x : A) :
  Comps.filterM p l = Ok l' -> (In x l' <-> In x l /\ p x = Ok true).
Proof.
  intro H. rewrite (filterM_filter p l l' H), filter_In.
  split; intros [H1 H2]; (split; [assumption|]).
  - destruct (p x) as [[|]|]; congruence.
  - now rewrite H2.
Qed.

Lemma filterM_length {A : Type} (p : A -> result bool) (l l' : list A) :
  Comps.filterM p l = Ok l' -> (List.length l' <= List.length l)%nat.
Proof.
  intro H. rewrite (filterM_filter p l l' H). apply filter_length_le.
Qed.

Lemma between_true (col : string) (lo hi : Q) (r : Comps.row) :
  Comps.between col lo hi r = Ok true <->
  exists q, r col = Comps.Num q /\ lo <= q /\ q <= hi.
Proof.
  unfold Comps.between. split.
  - destruct (r col) as [q|t]; cbn; [|discriminate].
    intro H. injection H as H. apply andb_true_iff in H. destruct H as [H1 H2].
    apply Qle_bool_iff in H1, H2. now exists q.
  - intros [q [-> [H1 H2]]]. cbn. apply Qle_bool_iff in H1, H2. now rewrite H1, H2.
Qed.

(** One of the three numeric filters, when it returns. *)
Lemma band_filter_In (col : option string) (v : option Q) (lo hi : Q -> Q)
      (rows rows' : list Comps.row) (r : Comps.row) :
  match col, v with
  | Some c, Some x => Comps.filterM (Comps.between c (lo x) (hi x)) rows
  | _, _ => Ok rows
  end = Ok rows' ->
  (In r rows' <-> In r rows /\ in_band col v lo hi r).
Proof.
  unfold in_band. intro H.
  destruct col as [c|]; [destruct v as [x|]|].
  - rewrite (filterM_In _ _ _ r H), between_true. split; intros [H1 H2]; (split; [assumption|]).
    + intros c' x' Hc Hx. injection Hc as <-. injection Hx as <-. exact H2.
    + exact (H2 c x eq_refl eq_refl).
  - injection H as <-. split; [intro; split; [assumption | discriminate] | tauto].
  - injection H as <-. split; [intro; split; [assumption | discriminate] | tauto].
Qed.

Lemma band_filter_length (col : option string) (v : option Q) (lo hi : Q -> Q)
      (rows rows' : list Comps.row) :
  match col, v with
  | Some c, Some x => Comps.filterM (Comps.between c (lo x) (hi x)) rows
  | _, _ => Ok rows
  end = Ok rows' ->
  (List.length rows' <= List.length rows)%nat.
Proof.
  destruct col as [c|]; [destruct v as [x|]|]; intro H.
  - exact (filterM_length _ _ _ H).
  - injection H as <-. lia.
  - injection H as <-. lia.
Qed.

Lemma filter_zip_In (c : Comps.Cols) (s : Comps.Subject) (rows : list Comps.row)
      (r : Comps.row) :
  In r (Comps.filter_zip c s rows) <->
  In r rows /\
  forall zc z, Comps.zip_col c = Some zc -> Comps.zipcode s = Some z -> z <> EmptyString ->
               r zc = Comps.Str z.
Proof.
  split; [apply filter_zip_spec|].
  intros [Hr Hz]. unfold Comps.filter_zip.
  destruct (Comps.zip_col c) as [zc|]; [|assumption].
  destruct (Comps.zipcode s) as [z|]; [|assumption].
  destruct (String.eqb z "") eqn:Ez; [assumption|].
  apply filter_In. split; [assumption|].
  rewrite (Hz zc z eq_refl eq_refl).
  - cbn. apply String.eqb_refl.
  - intros ->. discriminate.
Qed.

Lemma filter_zip_length (c : Comps.Cols) (s : Comps.Subject) (rows : list Comps.row) :
  (List.length (Comps.filter_zip c s rows) <= List.length rows)%nat.
Proof.
  unfold Comps.filter_zip.
  destruct (Comps.zip_col c); [|lia]. destruct (Comps.zipcode s) as [z|]; [|lia].
  destruct (String.eqb z ""); [lia|]. apply filter_length_le.
Qed.

(** The outlier band, when it returns: a subset under the two caps, and the
    rows themselves when a column is missing. *)
Lemma remove_outliers_Ok (c : Comps.Cols) (rows rows' : list Comps.row) :
  Comps.remove_outliers c rows = Ok rows' ->
  (List.length rows' <= List.length rows)%nat /\
  (Comps.price_col c = None \/ Comps.sqft_col c = None -> rows' = rows) /\
  forall r, In r rows' ->
    In r rows /\
    forall pc sc, Comps.price_col c = Some pc -> Comps.sqft_col c = Some sc ->
      exists p q, r pc = Comps.Num p /\ r sc = Comps.Num q /\ p <= 800000 /\ q <= 6000.
Proof.
  unfold Comps.remove_outliers. intro H.
  destruct (Comps.price_col c) as [pc|].
  2:{ injection H as <-. split; [lia|]. split; [reflexivity|].
      intros r Hr. split; [assumption | discriminate]. }
  destruct (Comps.sqft_col c) as [sc|].
  2:{ injection H as <-. split; [lia|]. split; [reflexivity|].
      intros r Hr. split; [assumption | discriminate]. }
  destruct rows as [|r0 rows].
  { injection H as <-. split; [lia|]. split; [reflexivity|]. intros r []. }
  apply bind_Ok_inv in H. destruct H as [prices [_ H]].
  apply bind_Ok_inv in H. destruct H as [sqfts [_ H]].
  split; [exact (filterM_length _ _ _ H)|].
  split; [intros [E|E]; discriminate|].
  intros r Hr. apply (filterM_In _ _ _ r H) in Hr. destruct Hr as [Hin Hp].
  split; [assumption|].
  intros pc' sc' Hpc Hsc. injection Hpc as <-. injection Hsc as <-.
  destruct (r pc) as [p|t]; cbn in Hp; [|discriminate].
  destruct (r sc) as [q|t]; cbn in Hp; [|discriminate].
  injection Hp as Hp.
  apply andb_true_iff in Hp. destruct Hp as [Hp H4].
  apply andb_true_iff in Hp. destruct Hp as [Hp H3].
  apply andb_true_iff in Hp. destruct Hp as [H1 H2].
  apply Qle_bool_iff in H2, H4.
  exists p, q. auto.
Qed.

Lemma mapM_add_diffs_comp (c : Comps.Cols) (s : Comps.Subject) (rows : list Comps.row)
      (ranked : list Comps.Ranked) :
  Comps.mapM (Comps.add_diffs c s) rows = Ok ranked -> map Comps.comp ranked = rows.
Proof.
  revert ranked. induction rows as [|r rows IH]; intros ranked H; cbn in H.
  - now injection H as <-.
  - apply bind_Ok_inv in H. destruct H as [k [Hk H]].
    apply bind_Ok_inv in H. destruct H as [t [Ht H]].
    injection H as <-. cbn [map]. rewrite (IH t Ht). f_equal.
    unfold Comps.add_diffs in Hk.
    apply bind_Ok_inv in Hk. destruct Hk as [bd [_ Hk]].
    apply bind_Ok_inv in Hk. destruct Hk as [ba [_ Hk]].
    apply bind_Ok_inv in Hk. destruct Hk as [pd [_ Hk]].
    now injection Hk as <-.
Qed.

Lemma insert_perm {A : Type} (leb : A -> A -> bool) (x : A) (l : list A) :
  Permutation (Comps.insert leb x l) (x :: l).
Proof.
  induction l as [|y l IH]; cbn; [reflexivity|].
  destruct (leb x y); [reflexivity|].
  rewrite IH. apply perm_swap.
Qed.

Lemma sort_by_perm {A : Type} (leb : A -> A -> bool) (l : list A) :
  Permutation (Comps.sort_by leb l) l.
Proof.
  induction l as [|x l IH]; cbn; [reflexivity|].
  unfold Comps.sort_by in IH. now rewrite insert_perm, IH.
Qed.

(** The steps of a successful run of the [try] body. *)
Lemma comps_try_steps (df : Comps.DataFrame) (s : Comps.Subject) (o : Comps.Output) :
  Comps.comps_try df s = Ok o ->
  let c := Comps.resolve_cols df in
  exists rows1 rows2 rows3 rows4 ranked,
    Comps.filter_beds c s (Comps.filter_zip c s (Comps.records df)) = Ok rows1 /\
    Comps.filter_baths c s rows1 = Ok rows2 /\
    Comps.filter_sqft c s rows2 = Ok rows3 /\
    Comps.remove_outliers c rows3 = Ok rows4 /\
    Comps.mapM (Comps.add_diffs c s) rows4 = Ok ranked /\
    Comps.filtered o = Comps.sort_values ranked.
Proof.
  intros H c. unfold Comps.comps_try in H. fold c in H.
  apply bind_Ok_inv in H. destruct H as [rows1 [H1 H]].
  apply bind_Ok_inv in H. destruct H as [rows2 [H2 H]].
  apply bind_Ok_inv in H. destruct H as [rows3 [H3 H]].
  apply bind_Ok_inv in H. destruct H as [rows4 [H4 H]].
  apply bind_Ok_inv in H. destruct H as [ranked [Hr H]].
  injection H as <-. cbn [Comps.filtered].
  exists rows1, rows2, rows3, rows4, ranked. rewrite sort_values_nil_or_sorted.
  repeat split; assumption.
Qed.

(** The rows that reach the ranking, when the [try] body returns. *)
Lemma comps_try_rows (df : Comps.DataFrame) (s : Comps.Subject) (o : Comps.Output) :
  Comps.comps_try df s = Ok o ->
  let c := Comps.resolve_cols df in
  exists rows3 rows4,
    Comps.remove_outliers c rows3 = Ok rows4 /\
    Permutation (map Comps.comp (Comps.filtered o)) rows4 /\
    (List.length rows3 <= List.length (Comps.records df))%nat /\
    forall r, In r rows3 <-> In r (Comps.records df) /\ meets_criteria c s r.
Proof.
  intros H c.
  destruct (comps_try_steps df s o H) as (rows1 & rows2 & rows3 & rows4 & ranked &
                                          H1 & H2 & H3 & H4 & Hr & Hf).
  fold c in H1, H2, H3, H4, Hr.
  exists rows3, rows4. split; [exact H4|]. split; [|split].
  - rewrite Hf. unfold Comps.sort_values.
    rewrite (Permutation_map Comps.comp (sort_by_perm Comps.key_leb ranked)).
    now rewrite (mapM_add_diffs_comp c s rows4 ranked Hr).
  - pose proof (band_filter_length (Comps.beds_col c) (Comps.beds s)
                  (fun b => b - 1) (fun b => b + 1) _ _ H1).
    pose proof (band_filter_length (Comps.baths_col c) (Comps.baths s)
                  (fun b => b - 1) (fun b => b + 1) _ _ H2).
    pose proof (band_filter_length (Comps.sqft_col c) (Comps.sqft s)
                  (fun x => x * (8 # 10)) (fun x => x * (12 # 10)) _ _ H3).
    pose proof (filter_zip_length c s (Comps.records df)). lia.
  - intro r.
    rewrite (band_filter_In (Comps.sqft_col c) (Comps.sqft s)
               (fun x => x * (8 # 10)) (fun x => x * (12 # 10)) _ _ r H3).
    rewrite (band_filter_In (Comps.baths_col c) (Comps.baths s)
               (fun b => b - 1) (fun b => b + 1) _ _ r H2).
    rewrite (band_filter_In (Comps.beds_col c) (Comps.beds s)
               (fun b => b - 1) (fun b => b + 1) _ _ r H1).
    rewrite filter_zip_In. unfold meets_criteria. tauto.
Qed.

(** X20: every comparable the dashboard lists is a sale of the dataset that
    meets the zip, beds (+/-1), baths (+/-1) and sqft (+/-20%) criteria on the
    columns the frame has and, when the frame has a price and a sqft column,
    costs at most $800,000 and has at most 6,000 sqft; there are at most as
    many comparables as sales; and when the price or the sqft column is
    missing, so that no outlier is removed, every sale that meets the
    criteria is listed, unless the step ends in its error notice. *)
Theorem comparables_are_the_matching_sales (df : Comps.DataFrame) (s : Comps.Subject) :
  let c := Comps.resolve_cols df in
  let out := Comps.scenario_comps df s in
  (forall k, In k (Comps.filtered out) ->
     In (Comps.comp k) (Comps.records df) /\
     meets_criteria c s (Comps.comp k) /\
     forall pc sc, Comps.price_col c = Some pc -> Comps.sqft_col c = Some sc ->
       exists p q, Comps.comp k pc = Comps.Num p /\ Comps.comp k sc = Comps.Num q /\
                   p <= 800000 /\ q <= 6000) /\
  (List.length (Comps.filtered out) <= List.length (Comps.records df))%nat /\
  (forall r,
     (forall e, Comps.comps_try df s <> Raise e) ->
     Comps.price_col c = None \/ Comps.sqft_col c = None ->
     In r (Comps.records df) -> meets_criteria c s r ->
     exists k, In k (Comps.filtered out) /\ Comps.comp k = r).
Proof.
  intros c out. unfold out, Comps.scenario_comps.
  destruct (Comps.comps_try df s) as [o|e] eqn:E.
  2:{ cbn [Comps.filtered]. split; [intros k []|]. split; [cbn; lia|].
      intros r H. exfalso. now apply (H e). }
  destruct (comps_try_rows df s o E) as (rows3 & rows4 & H4 & Hperm & Hlen & Hrows).
  fold c in H4, Hrows.
  destruct (remove_outliers_Ok c rows3 rows4 H4) as (Hlen4 & Hsame & Hcaps).
  split; [|split].
  - intros k Hk.
    assert (Hin : In (Comps.comp k) rows4).
    { apply (Permutation_in _ Hperm). now apply in_map. }
    destruct (Hcaps _ Hin) as [Hin3 Hcap].
    apply Hrows in Hin3. destruct Hin3 as [Hrec Hcrit].
    split; [assumption|]. split; assumption.
  - pose proof (Permutation_length Hperm) as HL. rewrite length_map in HL. lia.
  - intros r _ Hmiss Hrec Hcrit.
    assert (Hin : In r rows4).
    { rewrite (Hsame Hmiss). apply Hrows. now split. }
    apply (Permutation_in _ (Permutation_sym Hperm)) in Hin.
    apply in_map_iff in Hin. destruct Hin as [k [Hk Hin]]. now exists k.
Qed.

Lemma comparables_are_the_matching_sales_witness :
  exists k,
    nth_error (Comps.filtered (Comps.scenario_comps four_sales subject_house)) 0 = Some k /\
    In (Comps.comp k) (Comps.records four_sales).
Proof.
  eexists. split; [vm_compute; reflexivity|].
  refine (proj1 (proj1 (comparables_are_the_matching_sales four_sales subject_house) _ _)).
  vm_compute. left. reflexivity.
Defined.

(** ** The chart of comparables *)

(** X21: the comparables chart of app.py plots the sales the dashboard ranks
    for the same zip code, beds, baths and sqft (a bed or bath count of 0 is
    read as missing by the chart), whatever the subject's price: when the
    dashboard's step returns, the chart's filter returns the same rows, up to
    their order.  The chart shows its "No comparable properties found"
    annotation exactly when there is no such sale or the frame lacks a price
    or a sqft column, so without these columns it shows the annotation even
    when the dashboard lists comparables. *)
Theorem chart_plots_the_ranked_comparables (df : Comps.DataFrame) (t : Visualization.Target)
        (price : option Q) (o : Comps.Output) :
  let c := Comps.resolve_cols df in
  Comps.comps_try df (with_price (Visualization.subject t) price) = Ok o ->
  exists rows,
    Visualization.scatter_rows df t = Ok rows /\
    Permutation rows (map Comps.comp (Comps.filtered o)) /\
    (Visualization.no_comps_annotation df rows = true <->
     Comps.filtered o = [] \/ Comps.price_col c = None \/ Comps.sqft_col c = None).
Proof.
  intros c H.
  destruct (comps_try_steps _ _ _ H) as (rows1 & rows2 & rows3 & rows4 & ranked &
                                         H1 & H2 & H3 & H4 & Hr & Hf).
  fold c in H1, H2, H3, H4, Hr.
  assert (Hperm : Permutation rows4 (map Comps.comp (Comps.filtered o))).
  { rewrite Hf. unfold Comps.sort_values.
    rewrite (Permutation_map Comps.comp (sort_by_perm Comps.key_leb ranked)).
    now rewrite (mapM_add_diffs_comp c _ rows4 ranked Hr). }
  exists rows4. split; [|split; [exact Hperm|]].
  - unfold Visualization.scatter_rows. fold c.
    change (Comps.filter_zip c (Visualization.subject t) (Comps.records df))
      with (Comps.filter_zip c (with_price (Visualization.subject t) price) (Comps.records df)).
    change (Comps.filter_beds c (Visualization.subject t))
      with (Comps.filter_beds c (with_price (Visualization.subject t) price)).
    rewrite H1. cbn [bind].
    change (Comps.filter_baths c (Visualization.subject t))
      with (Comps.filter_baths c (with_price (Visualization.subject t) price)).
    rewrite H2. cbn [bind].
    change (Comps.filter_sqft c (Visualization.subject t))
      with (Comps.filter_sqft c (with_price (Visualization.subject t) price)).
    rewrite H3. cbn [bind]. exact H4.
  - unfold Visualization.no_comps_annotation. fold c.
    assert (Hnil : rows4 = [] <-> Comps.filtered o = []).
    { split; intro E.
      - rewrite E in Hperm. apply Permutation_nil in Hperm.
        destruct (Comps.filtered o); [reflexivity | discriminate].
      - rewrite E in Hperm. cbn in Hperm. apply Permutation_sym in Hperm.
        now apply Permutation_nil in Hperm. }
    destruct rows4 as [|r rows4].
    + split; [intros _; left; now apply Hnil | reflexivity].
    + destruct (Comps.price_col c) as [pc|]; [destruct (Comps.sqft_col c) as [sc|]|].
      * split; [discriminate|]. intros [E|[E|E]]; [|discriminate|discriminate].
        apply Hnil in E. discriminate.
      * split; [intros _; right; now right | reflexivity].
      * split; [intros _; right; now left | reflexivity].
Qed.

Lemma chart_plots_the_ranked_comparables_witness :
  exists rows,
    Visualization.scatter_rows four_sales target_house = Ok rows /\
    Permutation rows
      (map Comps.comp (Comps.filtered (Comps.scenario_comps four_sales subject_house))).
Proof.
  destruct (chart_plots_the_ranked_comparables four_sales target_house (Some 160000)
              (Comps.scenario_comps four_sales subject_house))
    as (rows & H1 & H2 & _).
  - vm_compute. reflexivity.
  - exists rows. split; assumption.
Defined.

(** ** The comparables of the API *)

Lemma int_of_float_whole (q : Q) (b : Z) : q == inject_Z b -> int_of_float q = b.
Proof.
  intro H. unfold int_of_float.
  destruct (Qlt_bool q 0); rewrite H; [apply Qceiling_Z | apply Qfloor_Z].
Qed.

Lemma append_rows_In (f : string -> option Q) (g : string -> option Z)
      (df : Comps.DataFrame) (rows : list Comps.row) (c : ApiComps.ApiComp) :
  In c (ApiComps.append_rows f g df rows) ->
  exists r, In r rows /\ ApiComps.convert f g df r = Some c.
Proof.
  induction rows as [|r rows IH]; cbn; [intros []|].
  destruct (ApiComps.convert f g df r) as [c'|] eqn:E; [|intros []].
  intros [<-|H].
  - exists r. split; [now left | assumption].
  - destruct (IH H) as [r' [Hr' Hc]]. exists r'. split; [now right | assumption].
Qed.

Lemma append_rows_length (f : string -> option Q) (g : string -> option Z)
      (df : Comps.DataFrame) (rows : list Comps.row) :
  (List.length (ApiComps.append_rows f g df rows) <= List.length rows)%nat.
Proof.
  induction rows as [|r rows IH]; cbn; [lia|].
  destruct (ApiComps.convert f g df r); cbn; lia.
Qed.

Lemma In_firstn {A : Type} (n : nat) (l : list A) (x : A) : In x (firstn n l) -> In x l.
Proof.
  intro H. rewrite <- (firstn_skipn n l). apply in_or_app. now left.
Qed.

(** X22: the comparables of an API response are at most five; each one comes
    from a sale of the dataset with the subject's number of bedrooms and a
    price within 20% of the subject's price, and reports that price and that
    number of bedrooms; its price per sqft times its sqft is its price when
    the sqft is positive, and its price per sqft is 0 otherwise; its distance
    is the fixed 0.5. *)
Theorem api_comparables_are_similar_sales (float_of_text : string -> option Q)
        (int_of_text : string -> option Z)
        (comps_data : option Comps.DataFrame) (beds : Z) (price : Q)
        (c : ApiComps.ApiComp) :
  let comps := ApiComps.comps float_of_text int_of_text comps_data beds price in
  In c comps ->
  (List.length comps <= 5)%nat /\
  (exists df r q,
     comps_data = Some df /\ In r (Comps.records df) /\
     r "beds"%string = Comps.Num q /\ q == inject_Z beds /\
     r "price"%string = Comps.Num (ApiComps.price c)) /\
  ApiComps.beds c = beds /\
  price * (8 # 10) <= ApiComps.price c /\ ApiComps.price c <= price * (12 # 10) /\
  (0 < ApiComps.sqft c -> ApiComps.pricePerSqft c * ApiComps.sqft c == ApiComps.price c) /\
  (ApiComps.sqft c <= 0 -> ApiComps.pricePerSqft c = 0) /\
  ApiComps.distance c = 5 # 10.
Proof.
  intros comps Hc. unfold comps, ApiComps.comps in *.
  destruct comps_data as [df|]; [|destruct Hc].
  destruct (existsb (String.eqb "beds") (Comps.columns df)) eqn:Eb; [|destruct Hc].
  destruct (existsb (String.eqb "price") (Comps.columns df)) eqn:Ep; [|destruct Hc].
  cbn [andb] in *.
  destruct (Comps.filterM (ApiComps.similar beds price) (Comps.records df))
    as [rows|e] eqn:Ef; [|destruct Hc].
  split.
  { etransitivity; [apply append_rows_length|]. apply firstn_le_length. }
  apply append_rows_In in Hc. destruct Hc as [r [Hr Hconv]].
  apply In_firstn in Hr.
  apply (filterM_In _ _ _ r Ef) in Hr. destruct Hr as [Hrec Hsim].
  unfold ApiComps.similar in Hsim.
  destruct (r "price"%string) as [p|tp] eqn:Erp; cbn in Hsim; [|discriminate].
  destruct (r "beds"%string) as [q|tb] eqn:Erb; [|discriminate].
  injection Hsim as Hsim.
  apply andb_true_iff in Hsim. destruct Hsim as [Hsim Hhi].
  apply andb_true_iff in Hsim. destruct Hsim as [Hq Hlo].
  apply Qeq_bool_iff in Hq. apply Qle_bool_iff in Hlo, Hhi.
  unfold ApiComps.convert, ApiComps.get in Hconv.
  rewrite Eb, Ep, Erp, Erb in Hconv. cbn [ApiComps.to_float ApiComps.to_int] in Hconv.
  rewrite (int_of_float_whole q beds Hq) in Hconv.
  destruct (ApiComps.to_float float_of_text
              (if existsb (String.eqb "baths") (Comps.columns df)
               then r "baths"%string else Comps.Num 0)) as [ba|]; [|discriminate].
  destruct (existsb (String.eqb "sqft") (Comps.columns df)).
  - destruct (r "sqft"%string) as [sq|ts]; cbn in Hconv.
    2:{ destruct (float_of_text ts); discriminate. }
    destruct (Qlt_bool 0 sq) eqn:Epos.
    + apply Qlt_bool_iff in Epos.
      rewrite pydiv_ok in Hconv by lra.
      injection Hconv as <-. cbn.
      split; [exists df, r, q; auto|]. split; [reflexivity|].
      split; [assumption|]. split; [assumption|].
      split; [intros _; field; lra|]. split; [intro; lra | reflexivity].
    + apply Qlt_bool_false_iff in Epos.
      injection Hconv as <-. cbn.
      split; [exists df, r, q; auto|]. split; [reflexivity|].
      split; [assumption|]. split; [assumption|].
      split; [intro; lra|]. split; reflexivity.
  - cbn in Hconv. injection Hconv as <-. cbn.
    split; [exists df, r, q; auto|]. split; [reflexivity|].
    split; [assumption|]. split; [assumption|].
    split; [intro H; exfalso; revert H; apply Qlt_irrefl|]. split; reflexivity.
Qed.

Lemma api_comparables_are_similar_sales_witness :
  exists c,
    nth_error (ApiComps.comps no_text no_text (Some four_sales) 3 160000) 0 = Some c /\
    ApiComps.beds c = 3%Z /\
    160000 * (8 # 10) <= ApiComps.price c /\ ApiComps.price c <= 160000 * (12 # 10).
Proof.
  eexists. split; [vm_compute; reflexivity|].
  refine ((fun H => conj (proj1 (proj2 (proj2 H)))
                         (conj (proj1 (proj2 (proj2 (proj2 H))))
                               (proj1 (proj2 (proj2 (proj2 (proj2 H)))))))
            (api_comparables_are_similar_sales no_text no_text (Some four_sales) 3 160000 _ _)).
  vm_compute. left. reflexivity.
Defined.
